(** * Daily reminder (kunkun): persistence, orders, trial and life countdown

    A shallow embedding of the functions of [daily_reminder-20250926.py]
    (the Tkinter program, module [Tk] below) and of
    [daily_reminder_qt61017.py] (the PyQt6 program, module [Qt] below) that
    the specification speaks about, followed by the properties proved of
    them.

    Python values are embedded as they sit in the JSON document: a [dict]
    is an insertion-ordered association list with unique keys, a list is a
    [list], an [int] is a [Z], a [str] is a [string] (its UTF-8 bytes).
    Code that can raise returns a [result]; code that mutates [self.data]
    or the disk takes the state and returns the new one. *)

From Stdlib Require Import ZArith List String Ascii Bool Lia QArith Qminmax.
From Stdlib Require Import DecimalString Sorted.
Import ListNotations.
Local Open Scope string_scope.
Local Open Scope Z_scope.

Set Implicit Arguments.

(** ** Python values *)

Module Py.

(** *** Exceptions *)

Inductive exn_class :=
| Exception | OSError | PermissionError | ValueError | JSONDecodeError
| UnicodeDecodeError | TypeError | AttributeError | OverflowError.

(** An exception object: its class and the text [str(e)] gives. *)
Record exn := Exn { exn_cls : exn_class; exn_msg : string }.

Definition exn_class_eqb (a b : exn_class) : bool :=
  match a, b with
  | Exception, Exception | OSError, OSError
  | PermissionError, PermissionError | ValueError, ValueError
  | JSONDecodeError, JSONDecodeError
  | UnicodeDecodeError, UnicodeDecodeError | TypeError, TypeError
  | AttributeError, AttributeError | OverflowError, OverflowError => true
  | _, _ => false
  end.

(** The direct base class, [None] for [Exception] (whose bases are not
    exceptions a handler of the program names). *)
Definition base (c : exn_class) : option exn_class :=
  match c with
  | Exception => None
  | PermissionError => Some OSError
  | JSONDecodeError | UnicodeDecodeError => Some ValueError
  | OSError | ValueError | TypeError | AttributeError
  | OverflowError => Some Exception
  end.

(** [issubclass c d]; the hierarchy above has depth three. *)
Definition issubclass (c d : exn_class) : bool :=
  exn_class_eqb c d ||
  match base c with
  | None => false
  | Some c1 =>
      exn_class_eqb c1 d ||
      match base c1 with
      | None => false
      | Some c2 => exn_class_eqb c2 d
      end
  end.

Definition isinstance (e : exn) (c : exn_class) : bool :=
  issubclass (exn_cls e) c.

(** The outcome of a call: it returns a value or an exception leaves it. *)
Inductive result (A : Type) :=
| Ok (a : A)
| Raise (e : exn).
Arguments Ok {A} a.
Arguments Raise {A} e.

(** *** Dictionaries

    [dict V] keeps the bindings in insertion order, as Python does; a
    well-formed one binds every key once. *)

Definition dict (V : Type) := list (string * V).

Section Dict.
Variable V : Type.

Fixpoint dget (k : string) (d : dict V) : option V :=
  match d with
  | [] => None
  | (k', v) :: d' => if String.eqb k k' then Some v else dget k d'
  end.

(** [k in d] *)
Definition dmem (k : string) (d : dict V) : bool :=
  match dget k d with Some _ => true | None => false end.

(** [d.get(k, dflt)] *)
Definition dget_default (k : string) (dflt : V) (d : dict V) : V :=
  match dget k d with Some v => v | None => dflt end.

(** [d[k] = v]: an existing binding is overwritten in place, a new one
    goes last. *)
Fixpoint dset (k : string) (v : V) (d : dict V) : dict V :=
  match d with
  | [] => [(k, v)]
  | (k', v') :: d' =>
      if String.eqb k k' then (k', v) :: d' else (k', v') :: dset k v d'
  end.

(** [d.setdefault(k, v)]: the dictionary afterwards. The value returned
    is [dget_default k v d]. *)
Definition dsetdefault (k : string) (v : V) (d : dict V) : dict V :=
  if dmem k d then d else dset k v d.

(** [del d[k]] for a key that is present; nothing otherwise. *)
Fixpoint ddel (k : string) (d : dict V) : dict V :=
  match d with
  | [] => []
  | (k', v') :: d' =>
      if String.eqb k k' then d' else (k', v') :: ddel k d'
  end.

Definition keys (d : dict V) : list string := map fst d.

Definition dict_wf (d : dict V) : Prop := NoDup (keys d).
End Dict.

(** *** Scalars held by order, activation and settings records *)

Inductive value :=
| VNull
| VBool (b : bool)
| VInt (z : Z)
| VStr (s : string).

(** [bool(v)] *)
Definition truthy (v : value) : bool :=
  match v with
  | VNull => false
  | VBool b => b
  | VInt z => negb (z =? 0)
  | VStr s => negb (String.eqb s "")
  end.

(** [a == b]. [bool] is a subclass of [int], so [True == 1]. *)
Definition py_eq (a b : value) : bool :=
  match a, b with
  | VNull, VNull => true
  | VStr s, VStr t => String.eqb s t
  | VBool x, VBool y => Bool.eqb x y
  | VInt x, VInt y => x =? y
  | VBool x, VInt y => (if x then 1 else 0) =? y
  | VInt x, VBool y => x =? (if y then 1 else 0)
  | _, _ => false
  end.

(** *** JSON documents: scalars, lists and objects *)

#[local] Unset Elimination Schemes.
Inductive json :=
| JScalar (v : value)
| JList (l : list json)
| JDict (d : list (string * json)).
#[local] Set Elimination Schemes.

Definition JS (s : string) : json := JScalar (VStr s).
Definition JI (z : Z) : json := JScalar (VInt z).
Definition JB (b : bool) : json := JScalar (VBool b).

(** [bool(j)] *)
Definition truthy_json (j : json) : bool :=
  match j with
  | JScalar v => truthy v
  | JList l => match l with [] => false | _ => true end
  | JDict d => match d with [] => false | _ => true end
  end.

(** Is [sub] a substring of [s]: [sub in s] for two [str]. On UTF-8 text
    a match of the bytes is a match of the characters. *)
Fixpoint substring_in (sub s : string) : bool :=
  String.prefix sub s ||
  match s with
  | EmptyString => false
  | String _ s' => substring_in sub s'
  end.

(** [key in data] for a [str] key. *)
Definition py_contains (key : string) (data : json) : result bool :=
  match data with
  | JDict d => Ok (dmem key d)
  | JList l =>
      Ok (existsb (fun x => match x with
                            | JScalar (VStr s) => String.eqb s key
                            | _ => false
                            end) l)
  | JScalar (VStr s) => Ok (substring_in key s)
  | JScalar _ =>
      Raise (Exn TypeError "argument of this type is not iterable")
  end.

(** [data[key] = v] for a [str] key. *)
Definition py_setitem (key : string) (v : json) (data : json) : result json :=
  match data with
  | JDict d => Ok (JDict (dset key v d))
  | JList _ =>
      Raise (Exn TypeError "list indices must be integers or slices, not str")
  | JScalar _ =>
      Raise (Exn TypeError "object does not support item assignment")
  end.

(** [data.get(key, dflt)] *)
Definition py_get (key : string) (dflt : json) (data : json) : result json :=
  match data with
  | JDict d => Ok (dget_default key dflt d)
  | _ => Raise (Exn AttributeError "object has no attribute 'get'")
  end.

(** [str(n)] for an [int]. *)
Definition str_of_int (z : Z) : string :=
  DecimalString.NilZero.string_of_int (Z.to_int z).

(** [f"{n:,}"]: the decimal digits in groups of three. *)
Definition pad3 (n : Z) : string :=
  str_of_int (n / 100 mod 10) ++ str_of_int (n / 10 mod 10)
  ++ str_of_int (n mod 10).

Fixpoint group3 (fuel : nat) (n : Z) : string :=
  match fuel with
  | O => str_of_int n
  | S fuel' =>
      if n <? 1000 then str_of_int n
      else group3 fuel' (n / 1000) ++ "," ++ pad3 (n mod 1000)
  end.

Definition format_thousands (n : Z) : string :=
  if n <? 0 then "-" ++ group3 (Z.to_nat (Z.log2 (- n))) (- n)
  else group3 (Z.to_nat (Z.log2 n)) n.

(** Sequencing of calls that may raise. *)
Definition bind {A B : Type} (r : result A) (k : A -> result B) : result B :=
  match r with
  | Ok a => k a
  | Raise e => Raise e
  end.

(** *** [try] ... [except]

    The clauses are tried in order. The expression of a clause is
    evaluated only when the clauses before it did not match; when that
    evaluation raises, the new exception leaves the statement and the
    clauses after it are not tried. *)
Section Except.
Variables S A : Type.               (* the state threaded, the value returned *)

Definition clause : Type :=
  result exn_class * (exn -> S -> S * result A).

Fixpoint except (clauses : list clause) (e : exn) (s : S)
  : S * result A :=
  match clauses with
  | [] => (s, Raise e)
  | (Raise e', _) :: _ => (s, Raise e')
  | (Ok c, handler) :: rest =>
      if isinstance e c then handler e s else except rest e s
  end.

Definition try (body : S * result A) (clauses : list clause)
  : S * result A :=
  match body with
  | (s, Ok a) => (s, Ok a)
  | (s, Raise e) => except clauses e s
  end.
End Except.

End Py.
Import Py.

Notation "x <- r ;; k" := (bind r (fun x => k))
  (at level 61, r at next level, right associativity).

(** *** The calendar

    [datetime.date] values are their proleptic Gregorian ordinals.
    [date_fromisoformat] is [datetime.date.fromisoformat] ([None] when it
    raises [ValueError]), [date_isoformat] is [date.isoformat] and
    [date_ymd] gives the attributes [year], [month] and [day]. The empty
    string is no date, and no date is written as the empty string. *)

Class Calendar := {
  date_fromisoformat : string -> option Z;
  date_isoformat : Z -> string;
  date_ymd : Z -> Z * Z * Z;
  date_fromisoformat_empty : date_fromisoformat "" = None;
  date_isoformat_nonempty : forall d, date_isoformat d <> ""
}.

(** *** Built-ins taken as given

    [int_of_str] is [int(s)] for a [str] ([None] when it raises
    [ValueError]) and [str_strip] is [s.strip()]. *)

Class Builtins := {
  int_of_str : string -> option Z;
  str_strip : string -> string
}.

(** *** The [json] module

    [json_dumps d] is the text [json.dump(d, f, ensure_ascii=False,
    indent=4)] writes and [json_loads] is [json.load], which raises on a
    text that is no JSON document. *)

Class JsonCodec := {
  json_dumps : json -> string;
  json_loads : string -> result json
}.

(** The attributes of the module that are exception classes. The
    module defines [JSONDecodeError] and no class named otherwise. *)
Definition json_attr (name : string) : result exn_class :=
  if String.eqb name "JSONDecodeError" then Ok JSONDecodeError
  else Raise (Exn AttributeError
                ("module 'json' has no attribute '" ++ name ++ "'")).

(** ** Orders *)

Module Orders.

(** An entry of an order list: the old format is the bare order number,
    the new one a JSON object. *)
Inductive entry :=
| Plain (s : string)
| Rec (r : dict value).

Definition orders := dict (list entry).

(** The two collections of [self.data]; [None] when the key is absent.
    The other keys of the document are not touched by the functions of
    this module. *)
Record data := Data {
  pre_shipping_orders : option orders;
  shipping_orders : option orders
}.

(** The list stored under a date, [[]] when there is none. *)
Definition orders_at (c : option orders) (k : string) : list entry :=
  match c with
  | Some m => dget_default k [] m
  | None => []
  end.

(** [data.setdefault(key, {}).setdefault(date, [])] on one collection. *)
Definition ensure_date (date : string) (c : option orders) : orders :=
  dsetdefault date [] (match c with Some m => m | None => [] end).

(** [data[key][date].append(e)] after [ensure_date]. *)
Definition append_at (date : string) (e : entry) (m : orders) : orders :=
  dset date (dget_default date [] m ++ [e])%list m.

(** The number of orders a collection, and the document, holds. *)
Definition count_orders (c : option orders) : nat :=
  match c with
  | Some m => list_sum (map (fun kv => List.length (snd kv)) m)
  | None => 0%nat
  end.

Definition total_orders (d : data) : nat :=
  (count_orders (pre_shipping_orders d) + count_orders (shipping_orders d))%nat.

(** *** Spreadsheets

    A cell value as [openpyxl] hands it over with [values_only=True]; a
    [datetime] carries its date and the text of its time of day. *)
Inductive cell :=
| CNone
| CStr (s : string)
| CInt (z : Z)
| CBool (b : bool)
| CDate (d : Z)
| CDateTime (d : Z) (time : string).

(** A file matched by [*.xlsx]: [load_workbook] raises, or it gives the
    rows of the active sheet, the first row included. *)
Inductive xlsx :=
| Unreadable (e : exn)
| Workbook (rows : list (list cell)).

(** [bool(c)] *)
Definition cell_truthy (c : cell) : bool :=
  match c with
  | CNone => false
  | CStr s => negb (String.eqb s "")
  | CInt z => negb (z =? 0)
  | CBool b => b
  | CDate _ | CDateTime _ _ => true
  end.

(** [str(c)] *)
Definition cell_str `{Calendar} (c : cell) : string :=
  match c with
  | CNone => "None"
  | CStr s => s
  | CInt z => str_of_int z
  | CBool b => if b then "True" else "False"
  | CDate d => date_isoformat d
  | CDateTime d t => date_isoformat d ++ " " ++ t
  end.

(** The date parser of the import: [dateutil.parser.parse(s,
    dayfirst=False, yearfirst=True)] when that package is installed,
    [datetime.datetime.strptime(s, "%Y-%m-%d")] otherwise; the date of
    the [datetime] it returns, or the exception it raises. *)
Class DateParser := {
  parse_date : string -> result Z
}.

(** What the import finds outside the document: whether [openpyxl]
    could be imported, and for a path the files [glob] matches in it,
    [None] when the path does not exist. *)
Record excel_env := ExcelEnv {
  EXCEL_AVAILABLE : bool;
  glob_xlsx : string -> option (list xlsx)
}.

End Orders.
Import Orders.

(** ** The life countdown: what both programs share *)

Module Life.

(** The tuple [compute_life_ui] returns. *)
Record life_ui := LifeUi {
  progress_value : Q;
  stage_icon : string;
  stage_text : string;
  days_text : string
}.

(** [f"余生 {remaining_days:,} 天"] *)
Definition days_label (remaining_days : Z) : string :=
  "余生 " ++ format_thousands remaining_days ++ " 天".

(** The tuple returned by the [except] branch. *)
Definition fallback : life_ui := LifeUi (3 # 10) "🧑" "青年" "余生 20,075 天".

(** [x.get]: only a [dict] has the method. *)
Definition as_dict (j : json) : result (dict json) :=
  match j with
  | JDict d => Ok d
  | _ => Raise (Exn AttributeError "object has no attribute 'get'")
  end.

(** [int(j)] *)
Definition py_int `{Builtins} (j : json) : result Z :=
  match j with
  | JScalar (VInt z) => Ok z
  | JScalar (VBool b) => Ok (if b then 1 else 0)
  | JScalar (VStr s) =>
      match int_of_str s with
      | Some z => Ok z
      | None => Raise (Exn ValueError "invalid literal for int() with base 10")
      end
  | _ => Raise (Exn TypeError "int() argument must be a string or a number")
  end.

(** [datetime.date.fromisoformat(j)] inside [try: ... except ValueError:
    base_date = today]. An argument that is not a [str] raises
    [TypeError], which that handler lets through. *)
Definition base_date_of `{Calendar} (today : Z) (j : json) : result Z :=
  match j with
  | JScalar (VStr s) =>
      match date_fromisoformat s with
      | Some d => Ok d
      | None => Ok today
      end
  | _ => Raise (Exn TypeError "fromisoformat: argument must be str")
  end.

(** The tail of the function, the same in both programs.
    [remaining_days = max(base_remaining_days - max(delta_days, 0), 0)] *)
Definition remaining (base_remaining_days delta_days : Z) : Z :=
  Z.max (base_remaining_days - Z.max delta_days 0) 0.

(** [stage_icon] and [stage_text] *)
Definition stage (current_age_years : Z) : string * string :=
  if current_age_years <? 12 then ("👶", "幼年")
  else if current_age_years <? 30 then ("🧑", "青年")
  else if current_age_years <? 50 then ("👨", "中年")
  else ("👴", "老年").

(** [value]. The quotient [elapsed_days / ideal_total_days] of the two
    [int] is the exact rational, not its nearest [float]; the bounds 0.0
    and 1.0 are the same numbers in both. *)
Definition progress (ideal_age_years remaining_days : Z) : Q :=
  let ideal_total_days := Z.max ideal_age_years 1 * 365 in
  let elapsed_days := Z.max (ideal_total_days - remaining_days) 0 in
  Qmin (Qmax (inject_Z elapsed_days / inject_Z ideal_total_days) 0) 1.

End Life.
Import Life.

(** ** The Excel import: what both programs share

    [import_orders_from_excel] is the same function in the two programs
    up to the test that looks for the order number in the list of its
    date, [listed] below. The log lines are left out. *)

Module Excel.

(** [data[key]] and [data[key] = m] for the key of one of the two
    collections. *)
Definition get_collection (is_shipping : bool) (d : data) : option orders :=
  if is_shipping then shipping_orders d else pre_shipping_orders d.

Definition set_collection (is_shipping : bool) (m : orders) (d : data) : data :=
  if is_shipping then Data (pre_shipping_orders d) (Some m)
  else Data (Some m) (shipping_orders d).

Section ImportRows.
Context `{Calendar} `{Builtins} `{DateParser}.
Variable listed : string -> list entry -> bool.

(** [date_str], from the first cell. *)
Definition row_date_str (date_cell : cell) : string :=
  match date_cell with
  | CDateTime d _ => date_isoformat d
  | CDate d => date_isoformat d
  | c => str_strip (cell_str c)
  end.

(** [str(row[1]).strip() if len(row) > 1 and row[1] else ""] *)
Definition row_order (row : list cell) : string :=
  match nth_error row 1 with
  | Some c => if cell_truthy c then str_strip (cell_str c) else ""
  | None => ""
  end.

(** [str(row[2]).strip() if len(row) > 2 and row[2] else "发货"] *)
Definition row_typ (row : list cell) : string :=
  match nth_error row 2 with
  | Some c => if cell_truthy c then str_strip (cell_str c) else "发货"
  | None => "发货"
  end.

(** One turn of the loop over the rows: the document and the count
    afterwards, and the exception that leaves the loop, if any. *)
Definition import_row (row : list cell) (st : data * nat)
  : (data * nat) * option exn :=
  match row with
  | [] => (st, None)
  | date_cell :: _ =>
      if negb (cell_truthy date_cell) then (st, None)
      else
        match parse_date (row_date_str date_cell) with
        | Raise e =>
            if isinstance e ValueError then (st, None) else (st, Some e)
        | Ok date_obj =>
            let date_iso := date_isoformat date_obj in
            let order := row_order row in
            let typ := row_typ row in
            if String.eqb order "" then (st, None)
            else
              let is_shipping := substring_in "发货" typ in
              let m :=
                ensure_date date_iso (get_collection is_shipping (fst st)) in
              if listed order (dget_default date_iso [] m) then
                ((set_collection is_shipping m (fst st), snd st), None)
              else
                ((set_collection is_shipping
                    (append_at date_iso (Plain order) m) (fst st),
                  S (snd st)), None)
        end
  end.

Fixpoint import_rows (rows : list (list cell)) (st : data * nat)
  : (data * nat) * option exn :=
  match rows with
  | [] => (st, None)
  | row :: rest =>
      match import_row row st with
      | (st', None) => import_rows rest st'
      | (st', Some e) => (st', Some e)
      end
  end.

(** One turn of the loop over the files; [iter_rows(min_row=2)] skips
    the first row. Whatever is raised is logged and the next file is
    read. *)
Definition import_file (f : xlsx) (st : data * nat) : data * nat :=
  match f with
  | Unreadable _ => st
  | Workbook rows => fst (import_rows (tl rows) st)
  end.

Definition import_orders (env : excel_env) (excel_dir : option string)
  (d : data) : data * nat :=
  if negb (EXCEL_AVAILABLE env) then (d, 0%nat)
  else
    match excel_dir with
    | None => (d, 0%nat)
    | Some dir =>
        if String.eqb dir "" then (d, 0%nat)
        else
          match glob_xlsx env dir with
          | None => (d, 0%nat)
          | Some files =>
              fold_left (fun st f => import_file f st) files (d, 0%nat)
          end
    end.
End ImportRows.

End Excel.
Import Excel.

(** ** The PyQt6 program: [daily_reminder_qt61017.py] *)

Module Qt.

Definition ORDER_STATUS_PENDING := "pending".
Definition ORDER_STATUS_MAKING := "making".
Definition ORDER_STATUS_DONE := "done".
Definition ORDER_STATUS_PAUSED := "paused".

(** The three reads at the head of the loop body of
    [auto_sync_pre_to_shipping]. *)
Definition order_num (r : dict value) : value :=
  dget_default "order" (VStr "") r.
Definition remark_of (r : dict value) : value :=
  dget_default "remark" (VStr "") r.
Definition order_status (r : dict value) : value :=
  dget_default "status" (VStr ORDER_STATUS_PENDING) r.

(** [ship_order.get("order", "") if isinstance(ship_order, dict)
     else str(ship_order)] *)
Definition ship_order_num (e : entry) : value :=
  match e with
  | Rec r => dget_default "order" (VStr "") r
  | Plain s => VStr s
  end.

(** [any(... == order_num for ship_order in shipping_orders)] *)
Definition exists_in (num : value) (shipping : list entry) : bool :=
  existsb (fun e => py_eq (ship_order_num e) num) shipping.

(** [auto_remark = remark if remark else ""] followed by
    [auto_remark += " [自动同步]" if auto_remark else "[预备订单自动同步]"].
    A truthy remark that is not a [str] makes [+=] raise [TypeError]. *)
Definition auto_remark (remark : value) : result string :=
  if truthy remark then
    match remark with
    | VStr s => Ok (s ++ " [自动同步]")
    | _ => Raise (Exn TypeError "unsupported operand type(s) for +=")
    end
  else Ok "[预备订单自动同步]".

(** The record appended to the shipping list. *)
Definition synced (num : value) (rem : string) : entry :=
  Rec [("order", num); ("remark", VStr rem)].

(** The state of the loop over the orders of one date. *)
Record date_state := DateState {
  ds_shipping : list entry;   (* the list [shipping_orders], appended in place *)
  ds_paused : list entry;     (* [paused_orders] *)
  ds_count : nat              (* [transferred_count] *)
}.

(** [for pre_order in date_pre_orders: ...]; the state reached and the
    exception that ended the loop, if any. *)
Fixpoint sync_date (date_pre_orders : list entry) (st : date_state)
  : date_state * option exn :=
  match date_pre_orders with
  | [] => (st, None)
  | pre_order :: rest =>
      let keep :=
        DateState (ds_shipping st) (ds_paused st ++ [pre_order]) (ds_count st) in
      match pre_order with
      | Rec r =>
          if py_eq (order_status r) (VStr ORDER_STATUS_PAUSED) then
            sync_date rest keep
          else if negb (py_eq (order_status r) (VStr ORDER_STATUS_DONE)) then
            sync_date rest keep
          else if exists_in (order_num r) (ds_shipping st) then
            sync_date rest st
          else
            match auto_remark (remark_of r) with
            | Raise e => (st, Some e)
            | Ok rem =>
                sync_date rest
                  (DateState (ds_shipping st ++ [synced (order_num r) rem])
                             (ds_paused st) (S (ds_count st)))
            end
      | Plain _ => sync_date rest keep
      end
  end.

(** The entries the loop over one date does not keep: the objects whose
    status is ["done"]. *)
Definition is_done (e : entry) : bool :=
  match e with
  | Rec r => py_eq (order_status r) (VStr ORDER_STATUS_DONE)
  | Plain _ => false
  end.

(** The state of the loop over the dates. *)
Record sync_state := SyncState {
  ss_data : data;                     (* [self.data] *)
  ss_count : nat;                     (* [transferred_count] *)
  ss_remove : list string             (* [dates_to_remove] *)
}.

Section AutoSync.
Context `{Calendar}.
Variable today : Z.                 (* [datetime.date.today()] *)

(** The three tests at the head of the loop body, gathered: the key is
    not ["TBD"], it parses as a date, and the date is not after
    today. *)
Definition due (date_str : string) : bool :=
  if String.eqb date_str "TBD" then false
  else match date_fromisoformat date_str with
       | None => false
       | Some order_date => negb (today <? order_date)
       end.

(** [for date_str, date_pre_orders in pre_orders.items(): ...], run over
    the bindings the dictionary had on entry: the body rebinds only the
    key it is visiting, after it has read its value. *)
Fixpoint sync_loop (items : list (string * list entry)) (st : sync_state)
  : sync_state * option exn :=
  match items with
  | [] => (st, None)
  | (date_str, date_pre_orders) :: rest =>
      if String.eqb date_str "TBD" then sync_loop rest st
      else
        match date_fromisoformat date_str with
        | None => sync_loop rest st
        | Some order_date =>
            if today <? order_date then sync_loop rest st
            else
              match date_pre_orders with
              | [] =>
                  sync_loop rest
                    (SyncState (ss_data st) (ss_count st)
                               (ss_remove st ++ [date_str]))
              | _ :: _ =>
                  let d := ss_data st in
                  let ship :=
                    dsetdefault date_str []
                      (match shipping_orders d with
                       | Some s => s
                       | None => []
                       end) in
                  let '(ds, raised) :=
                    sync_date date_pre_orders
                      (DateState (dget_default date_str [] ship) []
                                 (ss_count st)) in
                  let ship' := dset date_str (ds_shipping ds) ship in
                  match raised with
                  | Some e =>
                      (SyncState (Data (pre_shipping_orders d) (Some ship'))
                                 (ds_count ds) (ss_remove st), Some e)
                  | None =>
                      match ds_paused ds with
                      | _ :: _ =>
                          sync_loop rest
                            (SyncState
                               (Data (option_map
                                        (dset date_str (ds_paused ds))
                                        (pre_shipping_orders d))
                                     (Some ship'))
                               (ds_count ds) (ss_remove st))
                      | [] =>
                          sync_loop rest
                            (SyncState
                               (Data (pre_shipping_orders d) (Some ship'))
                               (ds_count ds) (ss_remove st ++ [date_str]))
                      end
                  end
              end
        end
  end.

(** [for date_str in dates_to_remove: if date_str in ...: del ...] *)
Definition remove_dates (rm : list string) (d : data) : data :=
  Data (option_map (fun pre => fold_left (fun p k => ddel k p) rm pre)
                   (pre_shipping_orders d))
       (shipping_orders d).

(** [MainWindow.auto_sync_pre_to_shipping]: [self.data] afterwards and
    the value returned. [save_raises] is what the call of
    [modules.data_manager.save_data], a module that is not among the
    sources, does: [None] when it returns. The log lines are left out. *)
Definition auto_sync_pre_to_shipping (save_raises : option exn) (d : data)
  : data * nat :=
  match pre_shipping_orders d with
  | None | Some [] => (d, 0%nat)
  | Some pre_orders =>
      match sync_loop pre_orders (SyncState d 0 []) with
      | (st, Some _) => (ss_data st, 0%nat)
      | (st, None) =>
          let d' := remove_dates (ss_remove st) (ss_data st) in
          match ss_count st, save_raises with
          | S _, Some _ => (d', 0%nat)
          | n, _ => (d', n)
          end
      end
  end.
End AutoSync.

(** *** The life countdown *)

Section LifeCountdown.
Context `{Calendar} `{Builtins}.

(** [today.year - birthday.year
     - ((today.month, today.day) < (birthday.month, birthday.day))] *)
Definition age_on (today birthday : Z) : Z :=
  let '(ty, tm, td) := date_ymd today in
  let '(by_, bm, bd) := date_ymd birthday in
  ty - by_ - (if (tm <? bm) || ((tm =? bm) && (td <? bd)) then 1 else 0).

(** [current_age_years], from the birthday when there is one. *)
Definition current_age (today : Z) (life_settings : dict json) : result Z :=
  let birthday_str := dget_default "birthday" (JS "") life_settings in
  if truthy_json birthday_str then
    match birthday_str with
    | JScalar (VStr s) =>
        match date_fromisoformat s with
        | Some birthday => Ok (age_on today birthday)
        | None => Ok 25
        end
    | _ => Raise (Exn TypeError "fromisoformat: argument must be str")
    end
  else py_int (dget_default "current_age" (JI 25) life_settings).

(** The body of the [try] of [compute_life_ui]: the document afterwards
    and the tuple returned or the exception raised. [save_raises] is
    what the call of [modules.data_manager.save_data] does. *)
Definition compute_life_ui_body (save_raises : option exn) (today : Z)
  (data : json) : json * result life_ui :=
  match
    (d <- as_dict data ;;
     life_settings <-
       as_dict (dget_default "life_settings" (JDict []) d) ;;
     ideal <- py_int (dget_default "ideal_age" (JI 80) life_settings) ;;
     current_age_years <- current_age today life_settings ;;
     Ok (d, life_settings, current_age_years,
         if ideal <=? 0 then 80 else ideal))
  with
  | Raise e => (data, Raise e)
  | Ok (d, life_settings, current_age_years, ideal_age_years) =>
      let fresh :=
        negb (dmem "remain_base_days" life_settings)
        || negb (dmem "remain_base_date" life_settings) in
      let life_settings' :=
        if fresh then
          dset "remain_base_date" (JS (date_isoformat today))
            (dset "remain_base_days"
               (JI (Z.max (ideal_age_years - current_age_years) 0 * 365))
               life_settings)
        else life_settings in
      (* the dictionary updated is the one inside [data] when the
         document has the key, a fresh one otherwise *)
      let data' :=
        if fresh && dmem "life_settings" d
        then JDict (dset "life_settings" (JDict life_settings') d)
        else data in
      match (if fresh then save_raises else None) with
      | Some e => (data', Raise e)
      | None =>
          (data',
           base_date <-
             base_date_of today
               (dget_default "remain_base_date" (JS (date_isoformat today))
                  life_settings') ;;
           base_remaining_days <-
             py_int (dget_default "remain_base_days" (JI 0) life_settings') ;;
           let remaining_days :=
             remaining base_remaining_days (today - base_date) in
           let '(icon, text) := stage current_age_years in
           Ok (LifeUi (progress ideal_age_years remaining_days) icon text
                      (days_label remaining_days)))
      end
  end.

Definition compute_life_ui (save_raises : option exn) (today : Z)
  (data : json) : json * result life_ui :=
  try (compute_life_ui_body save_raises today data)
    [ (Ok Exception, fun e data' => (data', Ok fallback)) ].
End LifeCountdown.

(** *** The Excel import *)

(** [order not in [o if isinstance(o, str) else o.get("order", "")
                    for o in data[key][date_iso]]] *)
Definition listed (order : string) (l : list entry) : bool :=
  existsb (fun o => py_eq (VStr order) (ship_order_num o)) l.

Definition import_orders_from_excel `{Calendar} `{Builtins} `{DateParser} :=
  import_orders listed.

End Qt.

(** ** A calendar instance

    The [YYYY-MM-DD] dates of [datetime.date], with the ordinal arithmetic
    of the standard library's [_ymd2ord] and [_ord2ymd]. It instantiates
    [Calendar] wherever a run on a concrete document is evaluated. *)

Module IsoCalendar.

Definition digit (c : ascii) : option Z :=
  let n := Z.of_nat (nat_of_ascii c) in
  if (48 <=? n) && (n <=? 57) then Some (n - 48) else None.

Definition is_leap (y : Z) : bool :=
  (y mod 4 =? 0) && (negb (y mod 100 =? 0) || (y mod 400 =? 0)).

Definition days_in_month (y m : Z) : Z :=
  if m =? 2 then (if is_leap y then 29 else 28)
  else if (m =? 4) || (m =? 6) || (m =? 9) || (m =? 11) then 30
  else 31.

(** [_DAYS_BEFORE_MONTH[m]], for a common year. *)
Definition DAYS_BEFORE_MONTH (m : Z) : Z :=
  match m with
  | 1 => 0 | 2 => 31 | 3 => 59 | 4 => 90 | 5 => 120 | 6 => 151
  | 7 => 181 | 8 => 212 | 9 => 243 | 10 => 273 | 11 => 304 | _ => 334
  end.

Definition days_before_year (y : Z) : Z :=
  let y := y - 1 in y * 365 + y / 4 - y / 100 + y / 400.

Definition days_before_month (y m : Z) : Z :=
  DAYS_BEFORE_MONTH m + (if (2 <? m) && is_leap y then 1 else 0).

Definition ymd2ord (y m d : Z) : Z :=
  days_before_year y + days_before_month y m + d.

Definition two (a b : ascii) : option Z :=
  match digit a, digit b with
  | Some x, Some y => Some (10 * x + y)
  | _, _ => None
  end.

Definition fromisoformat (s : string) : option Z :=
  match s with
  | String y1 (String y2 (String y3 (String y4 (String "-"
      (String m1 (String m2 (String "-"
        (String d1 (String d2 EmptyString))))))))) =>
      match two y1 y2, two y3 y4, two m1 m2, two d1 d2 with
      | Some yh, Some yl, Some m, Some d =>
          let y := 100 * yh + yl in
          if (1 <=? y) && (1 <=? m) && (m <=? 12)
             && (1 <=? d) && (d <=? days_in_month y m)
          then Some (ymd2ord y m d) else None
      | _, _, _, _ => None
      end
  | _ => None
  end.

Definition ord2ymd (n : Z) : Z * Z * Z :=
  let n := n - 1 in
  let n400 := n / 146097 in let n := n mod 146097 in
  let n100 := n / 36524 in let n := n mod 36524 in
  let n4 := n / 1461 in let n := n mod 1461 in
  let n1 := n / 365 in let n := n mod 365 in
  let year := n400 * 400 + 1 + n100 * 100 + n4 * 4 + n1 in
  if (n1 =? 4) || (n100 =? 4) then (year - 1, 12, 31)
  else
    let leapyear := (n1 =? 3) && (negb (n4 =? 24) || (n100 =? 3)) in
    let month := Z.shiftr (n + 50) 5 in
    let preceding :=
      DAYS_BEFORE_MONTH month
      + (if (2 <? month) && leapyear then 1 else 0) in
    if n <? preceding then
      let month := month - 1 in
      let preceding :=
        preceding - (days_in_month (if leapyear then 4 else 1) month) in
      (year, month, n - preceding + 1)
    else (year, month, n - preceding + 1).

Definition digit_char (d : Z) : ascii := ascii_of_nat (Z.to_nat (48 + d mod 10)).

Definition pad2 (n : Z) : string :=
  String (digit_char (n / 10)) (String (digit_char n) EmptyString).

Definition pad4 (n : Z) : string :=
  String (digit_char (n / 1000)) (String (digit_char (n / 100))
    (String (digit_char (n / 10)) (String (digit_char n) EmptyString))).

Definition isoformat (n : Z) : string :=
  let '(y, m, d) := ord2ymd n in pad4 y ++ "-" ++ pad2 m ++ "-" ++ pad2 d.

Lemma isoformat_nonempty (n : Z) : isoformat n <> "".
Proof.
  unfold isoformat. destruct (ord2ymd n) as [[y m] d]. discriminate.
Qed.

#[export] Instance calendar : Calendar := {
  date_fromisoformat := fromisoformat;
  date_isoformat := isoformat;
  date_ymd := ord2ymd;
  date_fromisoformat_empty := eq_refl;
  date_isoformat_nonempty := isoformat_nonempty
}.

End IsoCalendar.

(** ** The Tkinter program: [daily_reminder-20250926.py] *)

Module Tk.

Definition TRIAL_DAYS : Z := 7.

(** *** The world outside the process

    The three files the functions below touch, what the operating system
    answers when they are opened, copied or written, and what the program
    has logged and shown so far. *)

Inductive level := ERROR | WARNING | INFO.

Inductive box := Showerror | Showwarning | Showinfo.

(** A failed write: [open(path, "w")] raises and the file is as it was,
    or [json.dump] raises after the file has been truncated and some text
    written. *)
Inductive write_fault :=
| OpenFails (e : exn)
| DumpFails (e : exn) (partial : string).

Record world := World {
  data_file : option string;          (* [DATA_FILE]; [None]: no such file *)
  backup_file : option string;        (* [DATA_FILE + ".backup"] *)
  act_file : option string;           (* [ACT_FILE] *)
  data_read_fault : option exn;       (* raised on reading [DATA_FILE] *)
  data_copy_fault : option exn;       (* raised by [shutil.copy] *)
  data_write_fault : option write_fault;
  act_read_fault : option exn;
  act_write_fault : option write_fault;
  log : list (level * string);        (* [LOG_FILE], oldest line first *)
  boxes : list (box * string * string); (* message boxes shown *)
  saves : nat                         (* calls of [save_data] so far *)
}.

Definition logging (l : level) (msg : string) (w : world) : world :=
  World (data_file w) (backup_file w) (act_file w) (data_read_fault w)
        (data_copy_fault w) (data_write_fault w) (act_read_fault w)
        (act_write_fault w) (log w ++ [(l, msg)]) (boxes w) (saves w).

Definition messagebox (b : box) (title msg : string) (w : world) : world :=
  World (data_file w) (backup_file w) (act_file w) (data_read_fault w)
        (data_copy_fault w) (data_write_fault w) (act_read_fault w)
        (act_write_fault w) (log w) (boxes w ++ [(b, title, msg)]) (saves w).

Definition set_data_file (t : string) (w : world) : world :=
  World (Some t) (backup_file w) (act_file w) (data_read_fault w)
        (data_copy_fault w) (data_write_fault w) (act_read_fault w)
        (act_write_fault w) (log w) (boxes w) (saves w).

Definition set_backup_file (t : string) (w : world) : world :=
  World (data_file w) (Some t) (act_file w) (data_read_fault w)
        (data_copy_fault w) (data_write_fault w) (act_read_fault w)
        (act_write_fault w) (log w) (boxes w) (saves w).

Definition set_act_file (t : string) (w : world) : world :=
  World (data_file w) (backup_file w) (Some t) (data_read_fault w)
        (data_copy_fault w) (data_write_fault w) (act_read_fault w)
        (act_write_fault w) (log w) (boxes w) (saves w).

Definition count_save (w : world) : world :=
  World (data_file w) (backup_file w) (act_file w) (data_read_fault w)
        (data_copy_fault w) (data_write_fault w) (act_read_fault w)
        (act_write_fault w) (log w) (boxes w) (S (saves w)).

Section Persistence.
Context `{JsonCodec}.
Variable DATA_FILE : string.        (* the path, as the messages print it *)
Variable EXCEL_DIR : string.        (* [os.path.join(SAVE_DIR, "orders_import")] *)

Definition default_data : dict json :=
  [ ("work_plan",
     JDict [ ("0", JS "周1：待填写工作内容"); ("1", JS "周2：待填写工作内容");
             ("2", JS "周3：待填写工作内容"); ("3", JS "周4：待填写工作内容");
             ("4", JS "周5：待填写工作内容"); ("5", JS "周6：待填写工作内容");
             ("6", JS "周7：待填写工作内容") ]);
    ("shipping_orders", JDict []);
    ("pre_shipping_orders", JDict []);
    ("reminder_enabled", JB true);
    ("reminder_interval", JI 120);
    ("startup_enabled", JB false);
    ("excel_dir", JS EXCEL_DIR);
    ("life_settings", JDict [("current_age", JI 25); ("ideal_age", JI 80)]);
    ("festival_reminders",
     JDict [ ("01-01", JS "元旦"); ("02-14", JS "情人节");
             ("05-01", JS "劳动节"); ("10-01", JS "国庆节") ]);
    ("clock_settings",
     JDict [ ("clock_in_enabled", JB false);
             ("clock_out_enabled", JB false);
             ("clock_in_time", JS "09:00");
             ("clock_out_time", JS "18:00");
             ("clock_in_message", JS "上班时间到了，记得打卡哦！");
             ("clock_out_message", JS "下班时间到了，记得打卡哦！") ]);
    ("custom_reminders", JList []) ].

(** [for key, value in default_data.items():
       if key not in data: data[key] = value] *)
Fixpoint merge_defaults (defaults : dict json) (data : json) : result json :=
  match defaults with
  | [] => Ok data
  | (key, value) :: rest =>
      match py_contains key data with
      | Raise e => Raise e
      | Ok true => merge_defaults rest data
      | Ok false =>
          match py_setitem key value data with
          | Raise e => Raise e
          | Ok data' => merge_defaults rest data'
          end
      end
  end.

(** The body of the [try] of [load_data]. *)
Definition load_data_body (w : world) : world * result json :=
  match data_read_fault w with
  | Some e => (w, Raise e)
  | None =>
      match data_file w with
      | None => (w, Raise (Exn OSError "No such file or directory"))
      | Some t =>
          match json_loads t with
          | Raise e => (w, Raise e)
          | Ok data => (w, merge_defaults default_data data)
          end
      end
  end.

Definition load_data (w : world) : world * result json :=
  match data_file w with
  | Some _ =>
      try (load_data_body w)
        [ (json_attr "JSONDecodeError",
           fun e w =>
             (logging ERROR ("JSON decode error loading data: " ++ exn_msg e) w,
              Ok (JDict default_data)));
          (Ok Exception,
           fun e w =>
             (logging ERROR ("Failed to load data: " ++ exn_msg e) w,
              Ok (JDict default_data))) ]
  | None => (w, Ok (JDict default_data))
  end.

(** The body of the [try] of [save_data]. *)
Definition save_data_body (d : json) (w : world) : world * result unit :=
  let copied :=
    match data_file w with
    | Some t =>
        match data_copy_fault w with
        | Some e => (w, Raise e)
        | None => (set_backup_file t w, Ok tt)
        end
    | None => (w, Ok tt)
    end in
  match copied with
  | (w1, Raise e) => (w1, Raise e)
  | (w1, Ok _) =>
      match data_write_fault w1 with
      | Some (OpenFails e) => (w1, Raise e)
      | Some (DumpFails e partial) => (set_data_file partial w1, Raise e)
      | None => (set_data_file (json_dumps d) w1, Ok tt)
      end
  end.

Definition save_data (d : json) (w : world) : world * result unit :=
  try (save_data_body d (count_save w))
    [ (Ok PermissionError,
       fun e w =>
         (messagebox Showerror "Error"
            ("No permission to save data to " ++ DATA_FILE)
            (logging ERROR ("Permission denied saving data to " ++ DATA_FILE) w),
          Ok tt));
      (json_attr "JSONEncodeError",
       fun e w =>
         (messagebox Showerror "Error" "Data format error, cannot save"
            (logging ERROR ("JSON encode error saving data: " ++ exn_msg e) w),
          Ok tt));
      (Ok Exception,
       fun e w =>
         (messagebox Showerror "Error" ("Failed to save data: " ++ exn_msg e)
            (logging ERROR ("Failed to save data: " ++ exn_msg e) w),
          Ok tt)) ].

(** *** Activation *)

Definition load_activation (w : world) : world * result json :=
  match act_file w with
  | Some t =>
      try (match act_read_fault w with
           | Some e => (w, Raise e)
           | None => (w, json_loads t)
           end)
        [ (json_attr "JSONDecodeError",
           fun e w =>
             (logging ERROR
                ("JSON decode error loading activation: " ++ exn_msg e) w,
              Ok (JDict [])));
          (Ok Exception,
           fun e w =>
             (logging ERROR ("Failed to load activation: " ++ exn_msg e) w,
              Ok (JDict []))) ]
  | None => (w, Ok (JDict []))
  end.

Definition save_activation (act_data : json) (w : world)
  : world * result unit :=
  try (match act_write_fault w with
       | Some (OpenFails e) => (w, Raise e)
       | Some (DumpFails e partial) => (set_act_file partial w, Raise e)
       | None => (set_act_file (json_dumps act_data) w, Ok tt)
       end)
    [ (Ok Exception,
       fun e w =>
         (logging ERROR ("Failed to save activation: " ++ exn_msg e) w,
          Ok tt)) ].

Context `{Calendar}.

(** [act_data["trial_start"] = datetime.date.today().isoformat();
     save_activation(act_data); return True] *)
Definition restart_trial (today : Z) (act_data : json) (w : world)
  : world * result bool :=
  match py_setitem "trial_start" (JS (date_isoformat today)) act_data with
  | Raise e => (w, Raise e)
  | Ok act_data' =>
      match save_activation act_data' w with
      | (w', Raise e) => (w', Raise e)
      | (w', Ok _) => (w', Ok true)
      end
  end.

(** [check_trial(parent)]; [parent] tells whether a parent window was
    passed. *)
Definition check_trial (today : Z) (parent : bool) (w : world)
  : world * result bool :=
  match load_activation w with
  | (w1, Raise e) => (w1, Raise e)
  | (w1, Ok act_data) =>
      match py_get "activated" (JScalar VNull) act_data with
      | Raise e => (w1, Raise e)
      | Ok activated =>
          if truthy_json activated then (w1, Ok true)
          else
            match py_get "trial_start" (JScalar VNull) act_data with
            | Raise e => (w1, Raise e)
            | Ok start =>
                if negb (truthy_json start) then
                  restart_trial today act_data w1
                else
                  match start with
                  | JScalar (VStr s) =>
                      match date_fromisoformat s with
                      | None => restart_trial today act_data w1
                      | Some start_date =>
                          let days_used := today - start_date in
                          if days_used <? TRIAL_DAYS then (w1, Ok true)
                          else
                            (if parent then
                               messagebox Showwarning "Trial Ended"
                                 "Trial period has ended, please enter activation code!"
                                 w1
                             else w1,
                             Ok false)
                      end
                  | _ =>
                      (w1, Raise (Exn TypeError
                                    "fromisoformat: argument must be str"))
                  end
            end
      end
  end.
End Persistence.

(** *** The life countdown *)

Section LifeCountdown.
Context `{JsonCodec} `{Calendar} `{Builtins}.
Variable DATA_FILE : string.

(** The body of the [try] of [compute_life_ui]: the document and the
    world afterwards, and the tuple returned or the exception raised. *)
Definition compute_life_ui_body (today : Z) (data : json) (w : world)
  : (json * world) * result life_ui :=
  match
    (d <- as_dict data ;;
     life_settings <-
       as_dict (dget_default "life_settings" (JDict []) d) ;;
     current_age_years <-
       py_int (dget_default "current_age" (JI 36) life_settings) ;;
     ideal <- py_int (dget_default "ideal_age" (JI 70) life_settings) ;;
     Ok (d, life_settings, current_age_years,
         if ideal <=? 0 then 80 else ideal))
  with
  | Raise e => ((data, w), Raise e)
  | Ok (d, life_settings, current_age_years, ideal_age_years) =>
      let fresh :=
        negb (dmem "remain_base_days" life_settings)
        || negb (dmem "remain_base_date" life_settings) in
      let life_settings' :=
        if fresh then
          dset "remain_base_date" (JS (date_isoformat today))
            (dset "remain_base_days"
               (JI (Z.max (ideal_age_years - current_age_years) 0 * 365))
               life_settings)
        else life_settings in
      (* the dictionary updated is the one inside [data] when the
         document has the key, a fresh one otherwise *)
      let data' :=
        if fresh && dmem "life_settings" d
        then JDict (dset "life_settings" (JDict life_settings') d)
        else data in
      match (if fresh then save_data DATA_FILE data' w else (w, Ok tt)) with
      | (w', Raise e) => ((data', w'), Raise e)
      | (w', Ok _) =>
          ((data', w'),
           base_date <-
             base_date_of today
               (dget_default "remain_base_date" (JS (date_isoformat today))
                  life_settings') ;;
           base_remaining_days <-
             py_int (dget_default "remain_base_days" (JI 0) life_settings') ;;
           let remaining_days :=
             remaining base_remaining_days (today - base_date) in
           let '(icon, text) := stage current_age_years in
           Ok (LifeUi (progress ideal_age_years remaining_days) icon text
                      (days_label remaining_days)))
      end
  end.

Definition compute_life_ui (today : Z) (data : json) (w : world)
  : (json * world) * result life_ui :=
  try (compute_life_ui_body today data w)
    [ (Ok Exception,
       fun e s =>
         ((fst s,
           logging ERROR ("Failed to compute life UI: " ++ exn_msg e) (snd s)),
          Ok fallback)) ].
End LifeCountdown.

(** *** The Excel import *)

(** [order not in data[key][date_iso]]: the order number is compared
    with the entries themselves. *)
Definition listed (order : string) (l : list entry) : bool :=
  existsb (fun item => match item with
                       | Plain s => String.eqb order s
                       | Rec _ => false
                       end) l.

Definition import_orders_from_excel `{Calendar} `{Builtins} `{DateParser} :=
  import_orders listed.

(** *** After a change: the tables and the reminder text

    What [refresh_order_tables] and [update_reminder_text], which the
    methods of the window call after [save_data], do to [self.data] and
    to the world. What they draw is left out, and so are the lines they
    log themselves. [load_data] is the function above: what it binds
    from [default_data] it gives by value, so that an order added to a
    collection bound from the defaults, which the program adds to the
    defaults too, is not in the defaults of a later call; this shows
    only when a later [load_data] binds that key from the defaults. *)

Section Redraw.
Context `{JsonCodec} `{Calendar} `{Builtins}.
Variable DATA_FILE : string.
Variable EXCEL_DIR : string.

(** [refresh_order_tables(target_tables)]: [self.data = load_data()]
    comes first; what follows reads [self.data] and fills the tables,
    and what is raised is caught by the handler of the method. *)
Definition refresh_order_tables (self_data : json) (w : world)
  : json * world :=
  match load_data EXCEL_DIR w with
  | (w1, Ok data) => (data, w1)
  | (w1, Raise _) => (self_data, w1)
  end.

(** [update_reminder_text()]: [check_trial(self.root)] and, when the
    trial has not ended, [compute_life_ui(self.data)], which stores the
    baseline in [self.data] and on the disk when the life settings have
    none; what follows reads [self.data] and fills the text, and what
    is raised is caught by the handler of the method. *)
Definition update_reminder_text (today : Z) (self_data : json) (w : world)
  : json * world :=
  match check_trial today true w with
  | (w1, Ok true) => fst (compute_life_ui DATA_FILE today self_data w1)
  | (w1, Ok false) => (self_data, w1)
  | (w1, Raise _) => (self_data, w1)
  end.
End Redraw.

(** What of the world [load_data] and [save_data] work on. *)
Definition data_side (w : world) :=
  (data_file w, backup_file w, data_read_fault w, data_copy_fault w,
   data_write_fault w, saves w).

(** A disk that reads, copies and writes the data file. *)
Definition disk_sound (w : world) : bool :=
  match data_read_fault w, data_copy_fault w, data_write_fault w with
  | None, None, None => true
  | _, _, _ => false
  end.

(** A document that [load_data] hands over as the file has it and that
    [compute_life_ui] leaves as it is: an object that has every key of
    the defaults and whose life settings hold the baseline. *)
Definition settled (EXCEL_DIR : string) (j : json) : bool :=
  match j with
  | JDict o =>
      forallb (fun k => dmem k o) (keys (default_data EXCEL_DIR))
      && match dget "life_settings" o with
         | Some (JDict ls) =>
             dmem "remain_base_days" ls && dmem "remain_base_date" ls
         | _ => false
         end
  | _ => false
  end.

(** *** Adding an order by hand *)

(** The date field of the form: a [tkcalendar.DateEntry], which has
    [get_date], or a plain [Entry] holding text. *)
Inductive date_widget :=
| DateEntry (d : Z)
| Entry (text : string).

Section AddOrder.
Context `{JsonCodec} `{Calendar} `{Builtins}.
Variable DATA_FILE : string.
Variable EXCEL_DIR : string.
(** The whole document [self.data], of which [data] shows the two
    collections. *)
Variable document : data -> json.

Definition today_str (today : Z) : string := date_isoformat today.

Definition get_date_from_widget (today : Z) (widget : date_widget)
  (w : world) : world * string :=
  match widget with
  | DateEntry d => (w, date_isoformat d)
  | Entry text =>
      let date_str := str_strip text in
      match date_fromisoformat date_str with
      | Some _ => (w, date_str)
      | None =>
          (messagebox Showwarning "警告" "无效的日期格式，使用今天的日期" w,
           today_str today)
      end
  end.

(** [any((item == o) or (isinstance(item, dict)
          and item.get("order") == o) for item in ...)] *)
Definition duplicate (o : string) (l : list entry) : bool :=
  existsb (fun item => match item with
                       | Plain s => String.eqb s o
                       | Rec r => py_eq (dget_default "order" VNull r) (VStr o)
                       end) l.

(** The record appended: a shipping order carries its remark, a
    pre-shipping order also its state. *)
Definition new_record (is_shipping : bool) (o remark : string) : entry :=
  if is_shipping then Rec [("order", VStr o); ("remark", VStr remark)]
  else Rec [("order", VStr o); ("done", VBool false); ("remark", VStr remark)].

(** [ReminderApp.add_order]: [self.data], the whole document, and the
    world afterwards. [remark_text] is [None] when no remark field was
    passed. After [save_data] the method reloads [self.data] from the
    disk, in [refresh_order_tables]. *)
Definition add_order (today : Z) (is_shipping : bool)
  (widget : date_widget) (entry_text : string) (remark_text : option string)
  (self_data : data) (w : world) : json * world :=
  let '(w1, d) := get_date_from_widget today widget w in
  let o := str_strip entry_text in
  let remark :=
    match remark_text with Some t => str_strip t | None => "" end in
  if String.eqb d "" || String.eqb o "" then
    (document self_data,
     messagebox Showwarning "提示" "请输入完整的日期和订单号" w1)
  else
    let m := ensure_date d (get_collection is_shipping self_data) in
    if duplicate o (dget_default d [] m) then
      (document (set_collection is_shipping m self_data),
       messagebox Showwarning "重复订单" "该订单号已存在！" w1)
    else
      let data' :=
        set_collection is_shipping
          (append_at d (new_record is_shipping o remark) m) self_data in
      match save_data DATA_FILE (document data') w1 with
      | (w2, Ok _) =>
          let '(data1, w3) :=
            refresh_order_tables EXCEL_DIR (document data') w2 in
          let '(data2, w4) := update_reminder_text DATA_FILE today data1 w3 in
          (data2,
           messagebox Showinfo "添加成功"
             ((if is_shipping then "发货订单" else "预备订单") ++ "已添加！") w4)
      | (w2, Raise e) =>
          (document data',
           messagebox Showerror "错误" ("添加订单失败：" ++ exn_msg e)
             (logging ERROR ("Failed to add order: " ++ exn_msg e) w2))
      end.
End AddOrder.

End Tk.

(** ** Instances for evaluation

    Concrete built-ins and a concrete [json] module, on which the runs on
    concrete documents further down are evaluated. They cover ASCII
    white space, decimal [int] literals, and JSON documents without
    floating-point numbers and without [\u] escapes. *)

Module Concrete.

Definition is_space (c : ascii) : bool :=
  let n := nat_of_ascii c in
  (Nat.eqb n 32) || ((Nat.leb 9 n) && (Nat.leb n 13)).

Fixpoint lstrip (s : string) : string :=
  match s with
  | String c s' => if is_space c then lstrip s' else s
  | EmptyString => EmptyString
  end.

Fixpoint rev_string (s acc : string) : string :=
  match s with
  | EmptyString => acc
  | String c s' => rev_string s' (String c acc)
  end.

Definition strip (s : string) : string :=
  rev_string (lstrip (rev_string (lstrip s) "")) "".

Fixpoint digits (s : string) (acc : Z) : option Z :=
  match s with
  | EmptyString => Some acc
  | String c s' =>
      match IsoCalendar.digit c with
      | Some d => digits s' (10 * acc + d)
      | None => None
      end
  end.

Definition nonempty_digits (s : string) : option Z :=
  match s with
  | EmptyString => None
  | _ => digits s 0
  end.

Definition int_literal (s : string) : option Z :=
  match strip s with
  | String "-" s' => option_map Z.opp (nonempty_digits s')
  | String "+" s' => nonempty_digits s'
  | s' => nonempty_digits s'
  end.

#[export] Instance builtins : Builtins := {
  int_of_str := int_literal;
  str_strip := strip
}.

(** [strptime(s, "%Y-%m-%d")] on dates written with four, two and two
    digits. *)
#[export] Instance strptime : DateParser := {
  parse_date s :=
    match IsoCalendar.fromisoformat s with
    | Some d => Ok d
    | None => Raise (Exn ValueError "time data does not match format '%Y-%m-%d'")
    end
}.

(** *** Writing JSON *)

Definition quote : ascii := ascii_of_nat 34.
Definition backslash : ascii := ascii_of_nat 92.
Definition newline : ascii := ascii_of_nat 10.

Fixpoint escape (s : string) : string :=
  match s with
  | EmptyString => EmptyString
  | String c s' =>
      let n := nat_of_ascii c in
      if Nat.eqb n 34 then String backslash (String quote (escape s'))
      else if Nat.eqb n 92 then String backslash (String backslash (escape s'))
      else if Nat.eqb n 10 then String backslash (String "n" (escape s'))
      else if Nat.eqb n 13 then String backslash (String "r" (escape s'))
      else if Nat.eqb n 9 then String backslash (String "t" (escape s'))
      else String c (escape s')
  end.

Definition quoted (s : string) : string :=
  String quote (escape s ++ String quote EmptyString).

Fixpoint spaces (n : nat) : string :=
  match n with
  | O => EmptyString
  | S n' => String " " (spaces n')
  end.

Definition nl (level : nat) : string := String newline (spaces (4 * level)).

Definition dump_scalar (v : value) : string :=
  match v with
  | VNull => "null"
  | VBool b => if b then "true" else "false"
  | VInt z => str_of_int z
  | VStr s => quoted s
  end.

Fixpoint dump (level : nat) (j : json) : string :=
  match j with
  | JScalar v => dump_scalar v
  | JList [] => "[]"
  | JList (x :: l) =>
      "[" ++ nl (S level) ++ dump (S level) x
      ++ (fix items (l : list json) : string :=
            match l with
            | [] => EmptyString
            | y :: l' => "," ++ nl (S level) ++ dump (S level) y ++ items l'
            end) l
      ++ nl level ++ "]"
  | JDict [] => "{}"
  | JDict ((k, x) :: d) =>
      "{" ++ nl (S level) ++ quoted k ++ ": " ++ dump (S level) x
      ++ (fix members (d : list (string * json)) : string :=
            match d with
            | [] => EmptyString
            | (k', y) :: d' =>
                "," ++ nl (S level) ++ quoted k' ++ ": " ++ dump (S level) y
                ++ members d'
            end) d
      ++ nl level ++ "}"
  end.

(** *** Reading JSON *)

(** The text of a string literal after its opening quote: the string and
    what follows the closing quote. *)
Fixpoint read_string (s : string) (acc : string) : option (string * string) :=
  match s with
  | EmptyString => None
  | String c s' =>
      let n := nat_of_ascii c in
      if Nat.eqb n 34 then Some (rev_string acc "", s')
      else if Nat.eqb n 92 then
        match s' with
        | String e s'' =>
            let m := nat_of_ascii e in
            if Nat.eqb m 34 then read_string s'' (String quote acc)
            else if Nat.eqb m 92 then read_string s'' (String backslash acc)
            else if Nat.eqb m 47 then read_string s'' (String "/" acc)
            else if Nat.eqb m 110 then read_string s'' (String newline acc)
            else if Nat.eqb m 114 then
              read_string s'' (String (ascii_of_nat 13) acc)
            else if Nat.eqb m 116 then
              read_string s'' (String (ascii_of_nat 9) acc)
            else None
        | EmptyString => None
        end
      else if Nat.ltb n 32 then None
      else read_string s' (String c acc)
  end.

Fixpoint read_digits (s : string) (acc : Z) : Z * string :=
  match s with
  | String c s' =>
      match IsoCalendar.digit c with
      | Some d => read_digits s' (10 * acc + d)
      | None => (acc, s)
      end
  | EmptyString => (acc, s)
  end.

Definition starts_digit (s : string) : bool :=
  match s with
  | String c _ =>
      match IsoCalendar.digit c with Some _ => true | None => false end
  | EmptyString => false
  end.

Fixpoint read_value (fuel : nat) (s : string) : option (json * string) :=
  match fuel with
  | O => None
  | S fuel' =>
      match lstrip s with
      | String "n" (String "u" (String "l" (String "l" r))) =>
          Some (JScalar VNull, r)
      | String "t" (String "r" (String "u" (String "e" r))) =>
          Some (JB true, r)
      | String "f" (String "a" (String "l" (String "s" (String "e" r)))) =>
          Some (JB false, r)
      | String "[" r =>
          match lstrip r with
          | String "]" r' => Some (JList [], r')
          | _ => read_items fuel' r []
          end
      | String "{" r =>
          match lstrip r with
          | String "}" r' => Some (JDict [], r')
          | _ => read_members fuel' r []
          end
      | String "-" r =>
          if starts_digit r then
            let '(z, r') := read_digits r 0 in Some (JI (- z), r')
          else None
      | String c r =>
          if Nat.eqb (nat_of_ascii c) 34 then
            match read_string r "" with
            | Some (t, r') => Some (JS t, r')
            | None => None
            end
          else if starts_digit (String c r) then
            let '(z, r') := read_digits (String c r) 0 in Some (JI z, r')
          else None
      | EmptyString => None
      end
  end
with read_items (fuel : nat) (s : string) (acc : list json)
  : option (json * string) :=
  match fuel with
  | O => None
  | S fuel' =>
      match read_value fuel' s with
      | None => None
      | Some (x, r) =>
          match lstrip r with
          | String "," r' => read_items fuel' r' (acc ++ [x])
          | String "]" r' => Some (JList (acc ++ [x]), r')
          | _ => None
          end
      end
  end
with read_members (fuel : nat) (s : string) (acc : dict json)
  : option (json * string) :=
  match fuel with
  | O => None
  | S fuel' =>
      match lstrip s with
      | String c r =>
          if Nat.eqb (nat_of_ascii c) 34 then
            match read_string r "" with
            | None => None
            | Some (k, r1) =>
                match lstrip r1 with
                | String ":" r2 =>
                    match read_value fuel' r2 with
                    | None => None
                    | Some (x, r3) =>
                        match lstrip r3 with
                        | String "," r4 => read_members fuel' r4 (dset k x acc)
                        | String "}" r4 => Some (JDict (dset k x acc), r4)
                        | _ => None
                        end
                    end
                | _ => None
                end
            end
          else None
      | EmptyString => None
      end
  end.

Definition load (s : string) : result json :=
  match read_value (2 * String.length s + 2) s with
  | Some (j, r) =>
      match lstrip r with
      | EmptyString => Ok j
      | _ => Raise (Exn JSONDecodeError "Extra data")
      end
  | None => Raise (Exn JSONDecodeError "Expecting value")
  end.

#[export] Instance codec : JsonCodec := {
  json_dumps := dump 0;
  json_loads := load
}.

End Concrete.

(** ** Sample documents and worlds *)

Module Samples.

(** New Year's Day 2025, the day of the sample runs. *)
Definition today : Z := 739252.

(** A disk with none of the three files, on which nothing fails. *)
Definition blank : Tk.world :=
  Tk.World None None None None None None None None [] [] 0.

(** A data file that has two of the keys. *)
Definition partial : dict json :=
  [("reminder_interval", JI 30); ("custom_reminders", JList [JS "tea"])].

Definition on_disk (d : json) : Tk.world :=
  Tk.World (Some (Concrete.dump 0 d)) None None None None None None None
           [] [] 0.

(** The disk is full: the data file can be opened, and writing to it
    raises after the file has been truncated. *)
Definition disk_full : Tk.world :=
  Tk.World (Some (Concrete.dump 0 (JDict partial))) None None None None
           (Some (Tk.DumpFails
                    (Exn OSError "[Errno 28] No space left on device") ""))
           None None [] [] 0.

(** A complete document. *)
Definition complete : dict json :=
  dset "reminder_interval" (JI 30) (Tk.default_data "orders_import").

(** An activation file written eight days before [today]. *)
Definition expired : dict json := [("trial_start", JS "2024-12-24")].

Definition activation_on_disk (d : json) : Tk.world :=
  Tk.World None None (Some (Concrete.dump 0 d)) None None None None None
           [] [] 0.

(** Orders. *)
Definition done_A1 : entry :=
  Rec [("order", VStr "A1"); ("remark", VStr ""); ("status", VStr "done")].
Definition paused_A2 : entry :=
  Rec [("order", VStr "A2"); ("remark", VStr "x"); ("status", VStr "paused")].
Definition done_A3 : entry :=
  Rec [("order", VStr "A3"); ("remark", VStr "urgent");
       ("status", VStr "done"); ("work_order", VStr "W7")].

Definition pending_sync : data :=
  Data (Some [("TBD", [done_A1]);
              ("2025-01-01", [done_A1; paused_A2; done_A3; Plain "A9"]);
              ("2025-01-02", [done_A1]);
              ("2024-12-31", [done_A3])])
       (Some [("2024-12-31", [Plain "A3"])]).

(** An order entered by hand, then listed again in a spreadsheet. *)
Definition entered_by_hand : data :=
  Data None
       (Some [("2025-01-01", [Rec [("order", VStr "A1"); ("remark", VStr "")]])]).

Definition sheet : xlsx :=
  Workbook [ [CStr "date"; CStr "order"; CStr "type"];
             [CStr "2025-01-01"; CStr "A1"; CStr "发货"] ].

Definition folder : excel_env :=
  ExcelEnv true (fun path => if String.eqb path "orders_import"
                             then Some [sheet] else None).



(** Life settings whose age is not a number. *)
Definition damaged_settings : json :=
  JDict [("life_settings",
          JDict [("current_age", JScalar VNull); ("ideal_age", JI 80);
                 ("remain_base_days", JI 100);
                 ("remain_base_date", JS "2025-01-01")])].

(** Life settings whose base date is the day after [today]. *)
Definition early_settings : json :=
  JDict [("life_settings",
          JDict [("current_age", JI 25); ("ideal_age", JI 80);
                 ("remain_base_days", JI 100);
                 ("remain_base_date", JS "2025-01-02")])].

(** The whole document of which [d] shows the two collections, when it
    has no other key. *)
Definition entry_json (e : entry) : json :=
  match e with
  | Plain s => JS s
  | Rec r => JDict (map (fun kv => (fst kv, JScalar (snd kv))) r)
  end.

Definition orders_json (m : orders) : json :=
  JDict (map (fun kv => (fst kv, JList (map entry_json (snd kv)))) m).

Definition document (d : data) : json :=
  JDict (match shipping_orders d with
         | Some m => [("shipping_orders", orders_json m)]
         | None => []
         end
         ++ match pre_shipping_orders d with
            | Some m => [("pre_shipping_orders", orders_json m)]
            | None => []
            end)%list.

(** The whole document of which [d] shows the two collections, when it
    has both: the other keys are those of the defaults, and the life
    settings hold a baseline. *)
Definition whole (d : data) : json :=
  JDict
    (dset "life_settings"
       (JDict [("current_age", JI 25); ("ideal_age", JI 80);
               ("remain_base_days", JI 20075);
               ("remain_base_date", JS "2025-01-01")])
       (dset "pre_shipping_orders"
          (orders_json
             (match pre_shipping_orders d with Some m => m | None => [] end))
          (dset "shipping_orders"
             (orders_json
                (match shipping_orders d with Some m => m | None => [] end))
             (Tk.default_data "orders_import")))).


End Samples.


(** ** Lists by position *)

Module Seq.

(** [l[i] = x] for [0 <= i < len(l)]; the list afterwards. *)
Fixpoint lset {A : Type} (i : nat) (x : A) (l : list A) : list A :=
  match l, i with
  | [], _ => []
  | _ :: l', O => x :: l'
  | y :: l', S i' => y :: lset i' x l'
  end.

(** [l.pop(i)] for [0 <= i < len(l)]; the list afterwards. *)
Fixpoint lpop {A : Type} (i : nat) (l : list A) : list A :=
  match l, i with
  | [], _ => []
  | _ :: l', O => l'
  | y :: l', S i' => y :: lpop i' l'
  end.

(** [if 0 <= idx < len(arr): arr.pop(idx)] for an [int]. *)
Definition pop_within {A : Type} (idx : Z) (arr : list A) : list A :=
  if (0 <=? idx) && (idx <? Z.of_nat (List.length arr))
  then lpop (Z.to_nat idx) arr else arr.

(** [l.sort(reverse=True)] on a list of [int]. *)
Fixpoint insert_desc (x : Z) (l : list Z) : list Z :=
  match l with
  | [] => [x]
  | y :: l' => if y <? x then x :: l else y :: insert_desc x l'
  end.

Definition sort_desc (l : list Z) : list Z := fold_right insert_desc [] l.

(** [l.index(x)] for a [str]: the first position, [None] when it raises
    [ValueError]. *)
Fixpoint index_of (x : string) (l : list string) : option nat :=
  match l with
  | [] => None
  | y :: l' =>
      if String.eqb y x then Some O else option_map S (index_of x l')
  end.

(** The entries of a list whose positions, counted from [off], are not
    among [sel]. *)
Fixpoint keep_from {A : Type} (off : Z) (sel : list Z) (l : list A) : list A :=
  match l with
  | [] => []
  | x :: l' =>
      if existsb (Z.eqb off) sel then keep_from (off + 1) sel l'
      else x :: keep_from (off + 1) sel l'
  end.

Definition unselected {A : Type} (sel : list Z) (l : list A) : list A :=
  keep_from 0 sel l.

End Seq.
Import Seq.

(** ** The PyQt6 program: what the user is shown

    The message boxes a window or dialog has shown, oldest first, and how
    often it has called [save_data]. *)

Module QtWidgets.

Inductive qbox := QWarning | QInformation | QCritical.

Record ui := Ui {
  shown : list (qbox * string * string);
  save_calls : nat
}.

Definition show (b : qbox) (title text : string) (u : ui) : ui :=
  Ui (shown u ++ [(b, title, text)])%list (save_calls u).

Definition call_save (u : ui) : ui := Ui (shown u) (S (save_calls u)).

End QtWidgets.
Import QtWidgets.

(** ** The PyQt6 program: the control panel

    [ControlPanelDialog] of [daily_reminder_qt61017.py]. The dialog works
    on [self.data], a copy of the document; the functions below take it
    and return it as it is afterwards. The redrawing of the tables and
    the clearing of the input fields are left out. *)

Module ControlPanelDialog.

(** [get_order_number] *)
Definition get_order_number (order : entry) : value :=
  match order with
  | Rec r => dget_default "order" (VStr "") r
  | Plain s => VStr s
  end.

(** [parse_order_data] *)
Definition parse_order_data (order : entry) : dict value :=
  match order with
  | Rec r =>
      [ ("order", dget_default "order" (VStr "") r);
        ("work_order", dget_default "work_order" (VStr "") r);
        ("remark", dget_default "remark" (VStr "") r);
        ("status", dget_default "status" (VStr Qt.ORDER_STATUS_PENDING) r) ]
  | Plain s =>
      [ ("order", VStr s); ("work_order", VStr ""); ("remark", VStr "");
        ("status", VStr Qt.ORDER_STATUS_PENDING) ]
  end.


Definition convert_original_date_to_display (original_date : string) : string :=
  if String.eqb original_date "TBD" then "待定" else original_date.

(** [for i, order in enumerate(orders):
       if self.get_order_number(order) == order_num: return ..., i, order],
    counting from [i]. *)
Fixpoint find_in_list (order_num : string) (orders : list entry) (i : nat)
  : option (nat * entry) :=
  match orders with
  | [] => None
  | order :: rest =>
      if py_eq (get_order_number order) (VStr order_num)
      then Some (i, order)
      else find_in_list order_num rest (S i)
  end.

(** [for date_key, orders in all_pre_orders.items(): ...] *)
Fixpoint find_in_dates (order_num : string)
    (items : list (string * list entry)) : option (string * nat * entry) :=
  match items with
  | [] => None
  | (date_key, orders) :: rest =>
      match find_in_list order_num orders 0 with
      | Some (i, order) => Some (date_key, i, order)
      | None => find_in_dates order_num rest
      end
  end.

(** [find_order_in_data(order_num, date_str)]: [Some (date_key, i, order)],
    or [None] for the triple [(None, -1, None)]. *)
Definition find_order_in_data (order_num : string) (date_str : option string)
    (d : data) : option (string * nat * entry) :=
  let all_pre_orders :=
    match pre_shipping_orders d with Some p => p | None => [] end in
  let dated :=
    match date_str with
    | Some s => negb (String.eqb s "") && dmem s all_pre_orders
    | None => false
    end in
  if dated then
    let s := match date_str with Some s => s | None => "" end in
    match find_in_list order_num (dget_default s [] all_pre_orders) 0 with
    | Some (i, order) => Some (s, i, order)
    | None => None
    end
  else find_in_dates order_num all_pre_orders.

(** [any(self.get_order_number(o) == order_num for o in orders)] *)
Definition numbered (order_num : string) (orders : list entry) : bool :=
  existsb (fun o => py_eq (get_order_number o) (VStr order_num)) orders.

Section Orders.
Context `{Builtins}.
(** What the call of [modules.data_manager.save_data], a module that is
    not among the sources, does: [None] when it returns. *)
Variable save_raises : option exn.

(** [save_data(self.data)] and the information box after it; when the
    call raises, the handler of the method shows [failed] and the text
    of the exception. *)
Definition save_and_tell (failed title done : string) (u : ui) : ui :=
  match save_raises with
  | None => show QInformation title done (call_save u)
  | Some e => show QCritical "错误" (failed ++ exn_msg e) (call_save u)
  end.

(** [add_shipping_order]; [date_str] is the date of the date field as
    [yyyy-MM-dd], the two texts are those of the input fields. *)
Definition add_shipping_order (date_str order_text remark_text : string)
    (d : data) (u : ui) : data * ui :=
  let order_num := str_strip order_text in
  let remark := str_strip remark_text in
  if String.eqb order_num "" then (d, show QWarning "提示" "请输入订单号" u)
  else
    let m := ensure_date date_str (shipping_orders d) in
    if numbered order_num (dget_default date_str [] m) then
      (set_collection true m d,
       show QWarning "重复订单" "该订单号已存在！" u)
    else
      (set_collection true
         (append_at date_str
            (Rec [("order", VStr order_num); ("remark", VStr remark)]) m) d,
       save_and_tell "添加失败：" "成功" "发货订单已添加！" u).

(** [edit_shipping_order]; [selected] is the row of the first selected
    item, [None] when nothing is selected. *)
Definition edit_shipping_order (selected : option Z)
    (date_str order_text remark_text : string) (d : data) (u : ui)
  : data * ui :=
  match selected with
  | None => (d, show QWarning "提示" "请先选择要修改的订单" u)
  | Some row =>
      let order_num := str_strip order_text in
      let remark := str_strip remark_text in
      if String.eqb order_num "" then
        (d, show QWarning "提示" "订单号不能为空" u)
      else
        let orders := orders_at (shipping_orders d) date_str in
        if (0 <=? row) && (row <? Z.of_nat (List.length orders)) then
          (* the list is the one stored under the date *)
          (set_collection true
             (dset date_str
                (lset (Z.to_nat row)
                   (Rec [("order", VStr order_num); ("remark", VStr remark)])
                   orders)
                (match shipping_orders d with Some m => m | None => [] end))
             d,
           save_and_tell "修改失败：" "成功" "订单已修改！" u)
        else (d, u)
  end.

(** [delete_shipping_order]; [reply_yes] is the answer to the question
    the method asks. *)
Definition delete_shipping_order (selected : option Z) (reply_yes : bool)
    (date_str : string) (d : data) (u : ui) : data * ui :=
  match selected with
  | None => (d, show QWarning "提示" "请先选择要删除的订单" u)
  | Some row =>
      if negb reply_yes then (d, u)
      else
        let orders := orders_at (shipping_orders d) date_str in
        if (0 <=? row) && (row <? Z.of_nat (List.length orders)) then
          let m := match shipping_orders d with Some m => m | None => [] end in
          let orders' := lpop (Z.to_nat row) orders in
          (set_collection true
             (match orders' with
              | [] => ddel date_str m
              | _ :: _ => dset date_str orders' m
              end) d,
           save_and_tell "删除失败：" "成功" "订单已删除！" u)
        else (d, u)
  end.

(** The record [add_pre_order] appends. *)
Definition new_pre_order (order_num work_order remark : string) : entry :=
  Rec [ ("order", VStr order_num); ("work_order", VStr work_order);
        ("remark", VStr remark); ("status", VStr Qt.ORDER_STATUS_PENDING) ].

(** [add_pre_order]; [tbd] tells whether the box "to be determined" is
    checked, [date_str] is the date of the date field. *)
Definition add_pre_order (tbd : bool)
    (date_str order_text work_order_text remark_text : string)
    (d : data) (u : ui) : data * ui :=
  let date_str := if tbd then "TBD" else date_str in
  let order_num := str_strip order_text in
  let work_order := str_strip work_order_text in
  let remark := str_strip remark_text in
  if String.eqb order_num "" then (d, show QWarning "提示" "请输入订单号" u)
  else
    let m := ensure_date date_str (pre_shipping_orders d) in
    if numbered order_num (dget_default date_str [] m) then
      (set_collection false m d,
       show QWarning "重复订单" "该订单号已存在！" u)
    else
      (set_collection false
         (append_at date_str (new_pre_order order_num work_order remark) m) d,
       save_and_tell "添加失败：" "成功" "预备订单已添加！" u).

(** The test of [edit_pre_order] for a number that another order has:
    [existing_order_num == new_order_num
     and existing_order_num != old_order_num] for some order of some
    date. *)
Definition taken (new_order_num old_order_num : string) (p : orders) : bool :=
  existsb
    (fun kv =>
       existsb
         (fun order =>
            py_eq (get_order_number order) (VStr new_order_num)
            && negb (py_eq (get_order_number order) (VStr old_order_num)))
         (snd kv))
    p.

(** [edit_pre_order]; [selected] holds the texts of the order number
    and of the date of the selected row, [None] when nothing is
    selected. *)
Definition edit_pre_order (selected : option (string * string))
    (order_text work_order_text remark_text : string) (d : data) (u : ui)
  : data * ui :=
  match selected with
  | None => (d, show QWarning "提示" "请先选择要修改的订单" u)
  | Some (old_order_num, display_date) =>
      if String.eqb old_order_num "" || String.eqb old_order_num "暂无预备订单"
      then (d, show QWarning "提示" "请选择有效的订单" u)
      else
        let new_order_num := str_strip order_text in
        let new_work_order := str_strip work_order_text in
        let new_remark := str_strip remark_text in
        if String.eqb new_order_num "" then
          (d, show QWarning "提示" "订单号不能为空" u)
        else
          let all_pre_orders :=
            match pre_shipping_orders d with Some p => p | None => [] end in
          if taken new_order_num old_order_num all_pre_orders then
            (d, show QWarning "重复订单" "该订单号已存在！" u)
          else
            match find_order_in_data old_order_num None d with
            | None => (d, u)
            | Some (date_key, order_index, old_order) =>
                let old_status :=
                  dget_default "status" (VStr Qt.ORDER_STATUS_PENDING)
                    (parse_order_data old_order) in
                (set_collection false
                   (dset date_key
                      (lset order_index
                         (Rec [ ("order", VStr new_order_num);
                                ("work_order", VStr new_work_order);
                                ("remark", VStr new_remark);
                                ("status", old_status) ])
                         (dget_default date_key [] all_pre_orders))
                      all_pre_orders) d,
                 save_and_tell "修改失败：" "成功" "订单已修改！" u)
            end
  end.

(** A row of the table of the pre-shipping orders: the check box of
    its first cell ([None] when the cell holds no check box) and the
    items of its date and order cells ([None] when there is no item). *)
Record row := Row {
  checkbox : option bool;
  date_item : option string;
  order_item : option string
}.





End Orders.

End ControlPanelDialog.

(** ** The PyQt6 program: the main window

    [MainWindow] of [daily_reminder_qt61017.py]. *)

Module MainWindow.

Definition ORDER_STATUS_DISPLAY : dict string :=
  [ (Qt.ORDER_STATUS_PENDING, "⏳ 未完成");
    (Qt.ORDER_STATUS_MAKING, "🔨 制作中");
    (Qt.ORDER_STATUS_DONE, "✅ 完成");
    (Qt.ORDER_STATUS_PAUSED, "⏸️ 暂停") ].

Definition newline : string := String (ascii_of_nat 10) EmptyString.




(** The box shown after the update. *)
Definition told (order_num date new_status new_date : string) (u : ui) : ui :=
  let status_text := dget_default new_status "未知" ORDER_STATUS_DISPLAY in
  if negb (String.eqb new_date date) then
    if String.eqb new_date "TBD" then
      show QInformation "订单更新"
        ("订单 '" ++ order_num ++ "' 已移动到待定日期" ++ newline
         ++ "状态：" ++ status_text) u
    else
      show QInformation "订单更新"
        ("订单 '" ++ order_num ++ "' 已移动到 " ++ new_date ++ newline
         ++ "状态：" ++ status_text) u
  else
    show QInformation "状态更新"
      ("订单 '" ++ order_num ++ "' 状态已更新为：" ++ newline ++ status_text) u.

Section Status.
Context `{Calendar}.
Variable today : Z.                 (* [datetime.date.today()] *)
(** What the call of [save_data] in [toggle_pre_order_status] does, and
    what the one in [auto_sync_pre_to_shipping] does. *)
Variable save_raises sync_save_raises : option exn.

End Status.

End MainWindow.

(** ** The PyQt6 program: the life settings

    [LifeSettingsDialog.get_data] of [daily_reminder_qt61017.py], called
    by [MainWindow.open_life_settings] when the dialog is accepted. *)

Module LifeSettingsDialog.

Section GetData.
Context `{Calendar}.

(** [get_data]: the document returned, or the exception raised, and
    the boxes shown. [birthday] is the date of the date field and [ia]
    the number of the spin box. *)
Definition get_data (today birthday ia : Z) (data : dict json) (u : ui)
  : result (dict json) * ui :=
  let ca := Qt.age_on today birthday in
  if ca <? 0 then
    (Ok data, show QWarning "提醒" "生日不能设置为未来日期！" u)
  else if ia <=? ca then
    (Ok data,
     show QWarning "提醒"
       ("根据生日计算当前年龄为" ++ str_of_int ca
        ++ "岁，不能大于或等于理想寿命" ++ str_of_int ia ++ "岁！") u)
  else
    let data1 := dsetdefault "life_settings" (JDict []) data in
    (match dget_default "life_settings" (JDict []) data1 with
     | JDict ls =>
         let ls1 :=
           dset "ideal_age" (JI ia)
             (dset "birthday" (JS (date_isoformat birthday)) ls) in
         let ls2 :=
           if dmem "current_age" ls1 then ddel "current_age" ls1 else ls1 in
         Ok (dset "life_settings"
               (JDict
                  (dset "remain_base_date" (JS (date_isoformat today))
                     (dset "remain_base_days"
                        (JI (Z.max (ia - ca) 0 * 365)) ls2)))
               data1)
     | JList _ =>
         Raise (Exn TypeError
                  "list indices must be integers or slices, not str")
     | JScalar _ =>
         Raise (Exn TypeError "object does not support item assignment")
     end, u).
End GetData.

End LifeSettingsDialog.

(** ** The Tkinter program: activation, and the methods of the window

    [activate_program] and methods of [DailyReminderApp] of
    [daily_reminder-20250926.py]. The methods that change the orders
    hold [self.data] as the two collections, give the whole document to
    [save_data] and then reload it from the disk, in
    [refresh_order_tables]. For [activate_program] and [save_life]
    the call of [update_reminder_text] that ends them is left out. *)

Module DailyReminderApp.

Import Tk.

Definition ACTIVATION_KEY : string := "YKJ-2025-KEY".
Definition MAX_AGE : Z := 100.

Section Activation.
Context `{JsonCodec} `{Builtins}.

(** [activate_program()]; [code] is what [simpledialog.askstring]
    returned, [None] when the dialog was cancelled. The function has no
    handler of its own. *)
Definition activate_program (code : option string) (w : world)
  : world * result unit :=
  match code with
  | None => (w, Ok tt)
  | Some c =>
      if String.eqb (str_strip c) ACTIVATION_KEY then
        match load_activation w with
        | (w1, Raise e) => (w1, Raise e)
        | (w1, Ok act_data) =>
            match py_setitem "activated" (JB true) act_data with
            | Raise e => (w1, Raise e)
            | Ok act_data' =>
                match save_activation act_data' w1 with
                | (w2, Raise e) => (w2, Raise e)
                | (w2, Ok _) =>
                    (messagebox Showinfo "Activation Successful"
                       "Program activated successfully!" w2, Ok tt)
                end
            end
        end
      else
        (messagebox Showerror "Activation Failed" "Invalid activation code!" w,
         Ok tt)
  end.
End Activation.

Section LifeDialog.
Context `{JsonCodec} `{Calendar}.
Variable DATA_FILE : string.

(** The statements of [save_life] that store the settings:
    [self.data.setdefault("life_settings", {})["current_age"] = ca]
    and the three that follow. *)
Definition store_life (today ca ia : Z) (data : dict json)
  : result (dict json) :=
  let data1 := dsetdefault "life_settings" (JDict []) data in
  match dget_default "life_settings" (JDict []) data1 with
  | JDict ls =>
      Ok (dset "life_settings"
            (JDict
               (dset "remain_base_date" (JS (date_isoformat today))
                  (dset "remain_base_days" (JI (Z.max (ia - ca) 0 * 365))
                     (dset "ideal_age" (JI ia)
                        (dset "current_age" (JI ca) ls)))))
            data1)
  | JList _ =>
      Raise (Exn TypeError "list indices must be integers or slices, not str")
  | JScalar _ =>
      Raise (Exn TypeError "object does not support item assignment")
  end.

(** [save_life], the function behind the button of the life dialog.
    [ca] and [ia] are the numbers the two fields hold, [cap] is the
    answer to the question asked when [ia] is above [MAX_AGE]. *)
Definition save_life (today ca ia : Z) (cap : bool) (data : dict json)
    (w : world) : dict json * world :=
  if (ca <? 0) || (MAX_AGE <? ca) then
    (data,
     logging ERROR ("Invalid current age: " ++ str_of_int ca)
       (messagebox Showerror "错误"
          ("当前年龄应在0-" ++ str_of_int MAX_AGE ++ "岁之间") w))
  else if (MAX_AGE <? ia) && negb cap then
    (data, logging INFO "User declined to set max age" w)
  else
    let ia := if MAX_AGE <? ia then MAX_AGE else ia in
    if ia <=? 0 then
      (data,
       logging ERROR "Ideal age is zero or negative"
         (messagebox Showerror "错误" "理想寿命必须大于0" w))
    else if ia <=? ca then
      (data,
       logging ERROR
         ("Current age " ++ str_of_int ca ++ " >= ideal age " ++ str_of_int ia)
         (messagebox Showwarning "提醒" "当前年龄不能大于或等于理想寿命！" w))
    else
      (* the two handlers of the function *)
      let failed e data' w' :=
        if isinstance e ValueError then
          (data',
           logging ERROR
             ("Invalid numeric input in life settings: " ++ exn_msg e)
             (messagebox Showerror "错误" "请输入有效的数字年龄" w'))
        else
          (data',
           logging ERROR ("Failed to save life settings: " ++ exn_msg e)
             (messagebox Showerror "错误" ("保存失败：" ++ exn_msg e) w')) in
      match store_life today ca ia data with
      | Raise e =>
          (* [setdefault] has been carried out *)
          failed e (dsetdefault "life_settings" (JDict []) data) w
      | Ok data' =>
          match save_data DATA_FILE (JDict data') w with
          | (w1, Raise e) => failed e data' w1
          | (w1, Ok _) =>
              (data',
               logging INFO
                 ("Life settings saved: current_age=" ++ str_of_int ca
                  ++ ", ideal_age=" ++ str_of_int ia)
                 (messagebox Showinfo "保存成功" "生命设置已保存！✨" w1))
          end
      end.
End LifeDialog.

(** *** Deleting orders by hand *)

(** The list of the form: a [Listbox], with the positions selected, or a
    [Treeview], with the ids of the items selected and of all its
    items. *)
Inductive listbox_widget :=
| Listbox (curselection : list Z)
| Treeview (selection children : list string).

Section DelOrder.
Context `{JsonCodec} `{Calendar} `{Builtins}.
Variable DATA_FILE : string.
Variable EXCEL_DIR : string.
Variable document : data -> json.

(** [for iid in sel_ids: try: sel.append(int(iid) - 1)
     except Exception: sel.append(children.index(iid))]; [None] when
    [index] raises. *)
Fixpoint iid_indexes (sel_ids children : list string) : option (list Z) :=
  match sel_ids with
  | [] => Some []
  | iid :: rest =>
      match
        match int_of_str iid with
        | Some z => Some (z - 1)
        | None => option_map Z.of_nat (index_of iid children)
        end
      with
      | None => None
      | Some idx => option_map (cons idx) (iid_indexes rest children)
      end
  end.

(** [sel]; an exception while the ids are read leaves it empty. *)
Definition selected (lw : listbox_widget) : list Z :=
  match lw with
  | Listbox sel => sel
  | Treeview sel_ids children =>
      match iid_indexes sel_ids children with
      | Some sel => sel
      | None => []
      end
  end.

(** [self.data] after the positions [sel] have been popped from the
    list of the date [d], the highest first, and the date has been
    removed when its list is left empty. *)
Definition without (is_shipping : bool) (d : string) (sel : list Z)
    (self_data : data) : data :=
  let c := get_collection is_shipping self_data in
  let arr :=
    fold_left (fun a idx => pop_within idx a) (sort_desc sel)
      (orders_at c d) in
  match c with
  | Some m =>
      (* a date that is missing gives a list of its own *)
      if dmem d m then
        match arr with
        | [] => set_collection is_shipping (ddel d m) self_data
        | _ :: _ => set_collection is_shipping (dset d arr m) self_data
        end
      else self_data
  | None => self_data
  end.

(** [DailyReminderApp.del_order]: [self.data], the whole document, and
    the world afterwards; [confirmed] is the answer to the question
    the method asks. *)
Definition del_order (today : Z) (is_shipping : bool)
    (widget : date_widget) (lw : listbox_widget) (confirmed : bool)
    (self_data : data) (w : world) : json * world :=
  match selected lw with
  | [] =>
      (document self_data,
       messagebox Showwarning "提示" "请先选择要删除的订单" w)
  | sel =>
      if negb confirmed then (document self_data, w)
      else
        let '(w1, d) := get_date_from_widget today widget w in
        let data' := without is_shipping d sel self_data in
        match save_data DATA_FILE (document data') w1 with
        | (w2, Ok _) =>
            let '(data1, w3) :=
              refresh_order_tables EXCEL_DIR (document data') w2 in
            let '(data2, w4) :=
              update_reminder_text DATA_FILE today data1 w3 in
            (data2, messagebox Showinfo "删除成功" "选中的订单已删除！" w4)
        | (w2, Raise e) =>
            (document data',
             messagebox Showerror "错误" ("删除订单失败：" ++ exn_msg e)
               (logging ERROR ("Failed to delete order: " ++ exn_msg e) w2))
        end
  end.
End DelOrder.

(** *** The state of a pre-shipping order, by double click *)

(** [s.split(sep)] for a separator of one character. *)
Fixpoint split_on (sep : ascii) (s : string) : list string :=
  match s with
  | EmptyString => [EmptyString]
  | String c s' =>
      if Ascii.eqb c sep then EmptyString :: split_on sep s'
      else match split_on sep s' with
           | [] => [String c EmptyString]
           | part :: parts => String c part :: parts
           end
  end.

(** [str(v)] *)
Definition py_str (v : value) : string :=
  match v with
  | VNull => "None"
  | VBool b => if b then "True" else "False"
  | VInt z => str_of_int z
  | VStr s => s
  end.

(** The table that was clicked: the ids of the items selected and of
    all items, and the values of the row of an item, [None] when
    [tree.item] raises. *)
Record tree := Tree {
  tree_selection : list string;
  tree_children : list string;
  tree_values : string -> option (list string)
}.

Section DoubleClick.
Context `{JsonCodec} `{Calendar} `{Builtins}.
Variable DATA_FILE : string.
Variable EXCEL_DIR : string.
Variable document : data -> json.

(** [_get_date_from_table_row] *)
Definition get_date_from_table_row (today : Z) (t : tree) (iid : string)
  : string :=
  match tree_values t iid with
  | Some (v :: _) => v
  | _ => date_isoformat today
  end.

(** The date and the position the id of the item is read as, or the
    exception [children.index] raises. *)
Definition read_iid (today : Z) (t : tree) (iid : string)
  : result (string * Z) :=
  let by_row :=
    match index_of iid (tree_children t) with
    | Some i => Ok (get_date_from_table_row today t iid, Z.of_nat i)
    | None => Raise (Exn ValueError "list.index(x): x not in list")
    end in
  if String.prefix "pre_" iid then
    match split_on "_" iid with
    | _ :: date_str :: idx_text :: _ =>
        match int_of_str idx_text with
        | Some z => Ok (date_str, z - 1)
        | None => by_row
        end
    | _ => Ok (date_isoformat today, 0)
    end
  else by_row.

(** [item["done"] = not item.get("done", False)] *)
Definition flipped (r : dict value) : dict value :=
  dset "done"
    (VBool (negb (truthy (dget_default "done" (VBool false) r)))) r.

(** The entry after the click: an entry of the old format becomes an
    object that is done. *)
Definition clicked (item : entry) : entry :=
  match item with
  | Rec r => Rec (flipped r)
  | Plain s => Rec [("order", VStr s); ("done", VBool true)]
  end.

(** The text of the box: the name and the state are read from the
    variable [item], which for an entry of the old format still holds
    its text. *)
Definition status_message (item : entry) : string :=
  match item with
  | Rec r =>
      "订单 '" ++ py_str (dget_default "order" (VStr "") (flipped r))
      ++ "' 状态已更新为: "
      ++ (if truthy (dget_default "done" (VBool false) (flipped r))
          then "完成" else "未完成")
  | Plain s => "订单 '" ++ s ++ "' 状态已更新为: 未完成"
  end.

(** [self.data] after the click on [item], the entry at the position
    [idx] of the date. *)
Definition clicked_at (date_str : string) (idx : Z) (item : entry)
    (self_data : data) : data :=
  let m := ensure_date date_str (pre_shipping_orders self_data) in
  set_collection false
    (dset date_str
       (lset (Z.to_nat idx) (clicked item) (dget_default date_str [] m)) m)
    self_data.

(** [DailyReminderApp.on_pre_order_double_click]: [self.data], the
    whole document, and the world afterwards. The log lines are left
    out but the one of the handler. *)
Definition on_pre_order_double_click (today : Z) (t : tree)
    (self_data : data) (w : world) : json * world :=
  let failed e data' w' :=
    (data',
     messagebox Showerror "错误" ("切换状态失败：" ++ exn_msg e)
       (logging ERROR ("Failed to toggle pre-shipping status: " ++ exn_msg e)
          w')) in
  match tree_selection t with
  | [] => (document self_data, w)
  | iid :: _ =>
      match read_iid today t iid with
      | Raise e => failed e (document self_data) w
      | Ok (date_str, idx) =>
          let m := ensure_date date_str (pre_shipping_orders self_data) in
          let arr := dget_default date_str [] m in
          match
            (if (0 <=? idx) && (idx <? Z.of_nat (List.length arr))
             then nth_error arr (Z.to_nat idx) else None)
          with
          | Some item =>
              let data' := clicked_at date_str idx item self_data in
              match save_data DATA_FILE (document data') w with
              | (w1, Ok _) =>
                  let '(data1, w2) :=
                    refresh_order_tables EXCEL_DIR (document data') w1 in
                  let '(data2, w3) :=
                    update_reminder_text DATA_FILE today data1 w2 in
                  (data2,
                   messagebox Showinfo "状态更新" (status_message item) w3)
              | (w1, Raise e) => failed e (document data') w1
              end
          | None => (document (set_collection false m self_data), w)
          end
      end
  end.
End DoubleClick.

(** *** Importing by hand *)

Section ManualImport.
Context `{JsonCodec} `{Calendar} `{Builtins} `{DateParser}.
Variable DATA_FILE : string.
Variable EXCEL_DIR : string.
Variable document : data -> json.

(** [DailyReminderApp.manual_import_excel]: [self.data], the whole
    document, and the world afterwards; [excel_dir] is
    [self.data.get("excel_dir")]. *)
Definition manual_import_excel (today : Z) (env : excel_env)
    (excel_dir : option string) (self_data : data) (w : world)
  : json * world :=
  let '(data', count) := import_orders_from_excel env excel_dir self_data in
  let told w' :=
    messagebox Showinfo "导入完成"
      ("Excel数据导入完成！共导入" ++ str_of_int (Z.of_nat count) ++ "个订单")
      w' in
  match count with
  | O => (document data', told w)
  | S _ =>
      match save_data DATA_FILE (document data') w with
      | (w1, Ok _) =>
          let '(data1, w2) :=
            refresh_order_tables EXCEL_DIR (document data') w1 in
          let '(data2, w3) :=
            update_reminder_text DATA_FILE today data1 w2 in
          (data2, told w3)
      | (w1, Raise e) =>
          (document data',
           messagebox Showerror "错误" ("导入失败：" ++ exn_msg e)
             (logging ERROR ("Failed to manual import Excel: " ++ exn_msg e)
                w1))
      end
  end.
End ManualImport.

End DailyReminderApp.

Local Open Scope list_scope.

(** * Properties *)

(** ** Dictionaries *)

Section DictFacts.
Variable V : Type.
Implicit Types (d : dict V) (k : string) (v : V).

Lemma dget_dset_eq d k v : dget k (dset k v d) = Some v.
Proof.
  induction d as [|[k' v'] d IH]; simpl.
  - now rewrite String.eqb_refl.
  - destruct (String.eqb k k') eqn:E; simpl; rewrite E; auto.
Qed.

Lemma dget_dset_ne d k k' v : k <> k' -> dget k (dset k' v d) = dget k d.
Proof.
  intros Hne. induction d as [|[k0 v0] d IH]; simpl.
  - apply String.eqb_neq in Hne. now rewrite Hne.
  - destruct (String.eqb k' k0) eqn:E; simpl.
    + apply String.eqb_eq in E. subst k0.
      apply String.eqb_neq in Hne. now rewrite Hne.
    + now rewrite IH.
Qed.

Lemma dget_dset d k k' v :
  dget k (dset k' v d) = if String.eqb k k' then Some v else dget k d.
Proof.
  destruct (String.eqb k k') eqn:E.
  - apply String.eqb_eq in E. subst. apply dget_dset_eq.
  - apply String.eqb_neq in E. now apply dget_dset_ne.
Qed.



Lemma dget_dsetdefault d k k' v :
  dget k (dsetdefault k' v d) =
  match dget k d with
  | Some x => Some x
  | None => if String.eqb k k' then Some v else None
  end.
Proof.
  unfold dsetdefault, dmem.
  destruct (dget k' d) eqn:E'.
  - destruct (dget k d) eqn:E; [reflexivity|].
    destruct (String.eqb k k') eqn:Ek; [|reflexivity].
    apply String.eqb_eq in Ek. congruence.
  - rewrite dget_dset.
    destruct (String.eqb k k') eqn:Ek.
    + apply String.eqb_eq in Ek. subst. now rewrite E'.
    + now destruct (dget k d).
Qed.

Lemma dget_default_dsetdefault d k v :
  dget_default k v (dsetdefault k v d) = dget_default k v d.
Proof.
  unfold dget_default. rewrite dget_dsetdefault, String.eqb_refl.
  now destruct (dget k d).
Qed.

Lemma dget_None_keys d k : dget k d = None <-> ~ In k (keys d).
Proof.
  induction d as [|[k' v'] d IH]; simpl.
  - tauto.
  - destruct (String.eqb k k') eqn:E.
    + apply String.eqb_eq in E. subst. split; [discriminate|].
      intros Hn. exfalso. apply Hn. now left.
    + apply String.eqb_neq in E. rewrite IH. split.
      * intros Hn [Hk|Hk]; [congruence|tauto].
      * intros Hn Hk. apply Hn. now right.
Qed.

Lemma dget_ddel_ne d k k' : k <> k' -> dget k (ddel k' d) = dget k d.
Proof.
  intros Hne. induction d as [|[k0 v0] d IH]; simpl; [reflexivity|].
  destruct (String.eqb k' k0) eqn:E; simpl.
  - apply String.eqb_eq in E. subst k0.
    apply String.eqb_neq in Hne. now rewrite Hne.
  - now rewrite IH.
Qed.

Lemma dget_ddel_eq d k : dict_wf d -> dget k (ddel k d) = None.
Proof.
  unfold dict_wf. induction d as [|[k0 v0] d IH]; simpl; [reflexivity|].
  intros Hnd. inversion Hnd as [|? ? Hnotin Hnd']; subst.
  destruct (String.eqb k k0) eqn:E; simpl.
  - apply String.eqb_eq in E. subst. now apply dget_None_keys.
  - rewrite E. now apply IH.
Qed.

Lemma keys_dset_present d k v : dmem k d = true -> keys (dset k v d) = keys d.
Proof.
  unfold dmem. induction d as [|[k0 v0] d IH]; simpl; [discriminate|].
  destruct (String.eqb k k0) eqn:E; simpl; [reflexivity|].
  intros Hm. now rewrite IH.
Qed.

Lemma keys_dset_absent d k v :
  dmem k d = false -> keys (dset k v d) = (keys d ++ [k])%list.
Proof.
  unfold dmem. induction d as [|[k0 v0] d IH]; simpl; [reflexivity|].
  destruct (String.eqb k k0) eqn:E; simpl; [discriminate|].
  intros Hm. now rewrite IH.
Qed.

Lemma dict_wf_dset d k v : dict_wf d -> dict_wf (dset k v d).
Proof.
  unfold dict_wf. intros Hnd. destruct (dmem k d) eqn:E.
  - now rewrite keys_dset_present.
  - rewrite keys_dset_absent by assumption.
    apply NoDup_app; [assumption|repeat constructor; simpl; tauto|].
    intros x Hx [Hk|[]]. subst x. unfold dmem in E.
    destruct (dget k d) eqn:G; [discriminate|].
    now apply dget_None_keys in G.
Qed.

Lemma keys_ddel_incl d k x : In x (keys (ddel k d)) -> In x (keys d).
Proof.
  induction d as [|[k0 v0] d IH]; simpl; [tauto|].
  destruct (String.eqb k k0); simpl; tauto.
Qed.

Lemma dict_wf_ddel d k : dict_wf d -> dict_wf (ddel k d).
Proof.
  unfold dict_wf. induction d as [|[k0 v0] d IH]; simpl; [auto|].
  intros Hnd. inversion Hnd as [|? ? Hnotin Hnd']; subst.
  destruct (String.eqb k k0); simpl; [assumption|].
  constructor; [|now apply IH].
  intros Hx. apply Hnotin. eapply keys_ddel_incl; eauto.
Qed.
End DictFacts.

(** ** The two collections *)

Section CollectionFacts.
Implicit Types (m : orders) (c : option orders) (d : data).

Lemma set_get_collection (is_shipping : bool) (d : data) (m : orders) :
  get_collection is_shipping d = Some m ->
  set_collection is_shipping m d = d.
Proof.
  destruct d as [pre ship], is_shipping; simpl; now intros ->.
Qed.

Lemma get_set_collection (is_shipping : bool) (d : data) (m : orders) :
  get_collection is_shipping (set_collection is_shipping m d) = Some m.
Proof. now destruct is_shipping. Qed.

Lemma get_set_collection_other (is_shipping : bool) (d : data) (m : orders) :
  get_collection (negb is_shipping) (set_collection is_shipping m d)
  = get_collection (negb is_shipping) d.
Proof. now destruct is_shipping. Qed.

(** [setdefault] leaves the list of the date as it was. *)
Lemma orders_at_ensure_date (c : option orders) (date k : string) :
  dget_default k [] (ensure_date date c) = orders_at c k.
Proof.
  unfold ensure_date, orders_at, dget_default.
  rewrite dget_dsetdefault.
  destruct c as [m|]; simpl.
  - destruct (dget k m); [reflexivity|]. now destruct (String.eqb k date).
  - now destruct (String.eqb k date).
Qed.


Lemma orders_at_append_at (m : orders) (date k : string) (e : entry) :
  dget_default k [] (append_at date e m)
  = if String.eqb k date then (dget_default date [] m ++ [e])%list
    else dget_default k [] m.
Proof.
  unfold append_at, dget_default at 1. rewrite dget_dset.
  now destruct (String.eqb k date).
Qed.
End CollectionFacts.

(** ** The automatic synchronisation *)

Lemma py_eq_refl (v : value) : py_eq v v = true.
Proof.
  destruct v as [| b | z | s]; simpl.
  - reflexivity.
  - now destruct b.
  - apply Z.eqb_refl.
  - apply String.eqb_refl.
Qed.

Lemma py_eq_str (v : value) (s : string) :
  py_eq v (VStr s) = true <-> v = VStr s.
Proof.
  destruct v as [| b | z | t]; simpl; split; try discriminate.
  - intros E. apply String.eqb_eq in E. now subst.
  - intros [= ->]. apply String.eqb_refl.
Qed.

(** Every entry the loop over one date adds to the shipping list is the
    copy of a [done] object of that date. *)
Lemma sync_date_added (l : list entry) (st st' : Qt.date_state)
    (raised : option exn) (e : entry) :
  Qt.sync_date l st = (st', raised) ->
  In e (Qt.ds_shipping st') ->
  In e (Qt.ds_shipping st)
  \/ exists r rem,
       In (Rec r) l
       /\ Qt.order_status r = VStr Qt.ORDER_STATUS_DONE
       /\ Qt.auto_remark (Qt.remark_of r) = Ok rem
       /\ e = Qt.synced (Qt.order_num r) rem.
Proof.
  revert st. induction l as [|pre_order rest IH]; intros st; simpl.
  - intros [= <- <-]. now left.
  - assert (Hkeep :
      Qt.sync_date rest
        (Qt.DateState (Qt.ds_shipping st) (Qt.ds_paused st ++ [pre_order])
           (Qt.ds_count st)) = (st', raised) ->
      In e (Qt.ds_shipping st') ->
      In e (Qt.ds_shipping st)
      \/ exists r rem,
           (pre_order = Rec r \/ In (Rec r) rest)
           /\ Qt.order_status r = VStr Qt.ORDER_STATUS_DONE
           /\ Qt.auto_remark (Qt.remark_of r) = Ok rem
           /\ e = Qt.synced (Qt.order_num r) rem).
    { intros Hrun Hin. destruct (IH _ Hrun Hin) as [Hold|(r & rem & Hr & Hrest)].
      - now left.
      - right. exists r, rem. tauto. }
    destruct pre_order as [s|r]; [exact Hkeep|].
    destruct (py_eq (Qt.order_status r) (VStr Qt.ORDER_STATUS_PAUSED));
      [exact Hkeep|].
    destruct (py_eq (Qt.order_status r) (VStr Qt.ORDER_STATUS_DONE)) eqn:Hdone;
      simpl; [|exact Hkeep].
    apply py_eq_str in Hdone.
    destruct (Qt.exists_in (Qt.order_num r) (Qt.ds_shipping st)).
    + intros Hrun Hin. destruct (IH _ Hrun Hin) as [Hold|(r' & rem & Hr & Hrest)].
      * now left.
      * right. exists r', rem. tauto.
    + destruct (Qt.auto_remark (Qt.remark_of r)) as [rem|ex] eqn:Hrem.
      * intros Hrun Hin.
        destruct (IH _ Hrun Hin) as [Hold|(r' & rem' & Hr & Hrest)].
        -- simpl in Hold. apply in_app_or in Hold.
           destruct Hold as [Hold|[<-|[]]]; [now left|].
           right. exists r, rem. tauto.
        -- right. exists r', rem'. tauto.
      * intros [= <- <-]. now left.
Qed.

Section SyncFacts.
Context `{Calendar}.
Variable today : Z.

Lemma due_iff (k : string) :
  Qt.due today k = true <->
  k <> "TBD"
  /\ exists order_date, date_fromisoformat k = Some order_date
                        /\ order_date <= today.
Proof.
  unfold Qt.due. destruct (String.eqb k "TBD") eqn:E.
  - apply String.eqb_eq in E. split; [discriminate|tauto].
  - apply String.eqb_neq in E.
    destruct (date_fromisoformat k) as [od|].
    + rewrite negb_true_iff, Z.ltb_ge. split.
      * intros Hle. split; [assumption|]. now exists od.
      * intros (_ & od' & [= <-] & Hle). assumption.
    + split; [discriminate|]. intros (_ & od & Hf & _). discriminate.
Qed.

(** The list of a date in the shipping orders, once the date has been
    given a list and that list been replaced. *)
Lemma orders_at_replaced (c : option orders) (date k : string)
    (l : list entry) :
  orders_at
    (Some (dset date l
             (dsetdefault date []
                match c with Some s => s | None => [] end))) k
  = if String.eqb k date then l else orders_at c k.
Proof.
  unfold orders_at, dget_default. rewrite dget_dset.
  destruct (String.eqb k date) eqn:E; [reflexivity|].
  rewrite dget_dsetdefault, E.
  destruct c as [s|]; simpl; [|reflexivity]. now destruct (dget k s).
Qed.

Lemma orders_at_ensured (c : option orders) (date : string) :
  dget_default date []
    (dsetdefault date [] match c with Some s => s | None => [] end)
  = orders_at c date.
Proof.
  rewrite dget_default_dsetdefault. now destruct c.
Qed.

(** Every entry the loop over the dates adds to the shipping orders is
    the copy of a [done] object of a due date, under that date. *)
Lemma sync_loop_added (items : list (string * list entry))
    (st st' : Qt.sync_state) (raised : option exn) (k : string)
    (e : entry) :
  Qt.sync_loop today items st = (st', raised) ->
  In e (orders_at (shipping_orders (Qt.ss_data st')) k) ->
  In e (orders_at (shipping_orders (Qt.ss_data st)) k)
  \/ exists l r rem,
       In (k, l) items /\ In (Rec r) l
       /\ Qt.order_status r = VStr Qt.ORDER_STATUS_DONE
       /\ Qt.due today k = true
       /\ Qt.auto_remark (Qt.remark_of r) = Ok rem
       /\ e = Qt.synced (Qt.order_num r) rem.
Proof.
  revert st. induction items as [|[date_str l] rest IH]; intros st; simpl.
  - intros [= <- <-]. now left.
  - assert (Hskip : forall st1,
      shipping_orders (Qt.ss_data st1) = shipping_orders (Qt.ss_data st) ->
      Qt.sync_loop today rest st1 = (st', raised) ->
      In e (orders_at (shipping_orders (Qt.ss_data st')) k) ->
      In e (orders_at (shipping_orders (Qt.ss_data st)) k)
      \/ exists l0 r rem,
           ((date_str, l) = (k, l0) \/ In (k, l0) rest) /\ In (Rec r) l0
           /\ Qt.order_status r = VStr Qt.ORDER_STATUS_DONE
           /\ Qt.due today k = true
           /\ Qt.auto_remark (Qt.remark_of r) = Ok rem
           /\ e = Qt.synced (Qt.order_num r) rem).
    { intros st1 Hsame Hrun Hin.
      destruct (IH _ Hrun Hin) as [Hold|(l0 & r & rem & Hl0 & Hrest)].
      - left. now rewrite <- Hsame.
      - right. exists l0, r, rem. tauto. }
    assert (Hdue : Qt.due today date_str
                   = if String.eqb date_str "TBD" then false
                     else match date_fromisoformat date_str with
                          | None => false
                          | Some od => negb (today <? od)
                          end) by reflexivity.
    destruct (String.eqb date_str "TBD"); [now apply Hskip|].
    destruct (date_fromisoformat date_str) as [od|]; [|now apply Hskip].
    destruct (today <? od); [now apply Hskip|]. simpl in Hdue.
    destruct l as [|x l']; [now apply Hskip|].
    set (l := x :: l') in *.
    destruct (Qt.sync_date l _) as [ds ex] eqn:Hdate.
    assert (Hhere : forall st1,
      shipping_orders (Qt.ss_data st1)
      = Some (dset date_str (Qt.ds_shipping ds)
                (dsetdefault date_str []
                   match shipping_orders (Qt.ss_data st) with
                   | Some s => s
                   | None => []
                   end)) ->
      In e (orders_at (shipping_orders (Qt.ss_data st1)) k) ->
      In e (orders_at (shipping_orders (Qt.ss_data st)) k)
      \/ exists l0 r rem,
           ((date_str, l) = (k, l0) \/ In (k, l0) rest) /\ In (Rec r) l0
           /\ Qt.order_status r = VStr Qt.ORDER_STATUS_DONE
           /\ Qt.due today k = true
           /\ Qt.auto_remark (Qt.remark_of r) = Ok rem
           /\ e = Qt.synced (Qt.order_num r) rem).
    { intros st1 Hship Hin. rewrite Hship, orders_at_replaced in Hin.
      destruct (String.eqb k date_str) eqn:Ek; [|now left].
      apply String.eqb_eq in Ek. subst k.
      destruct (sync_date_added _ _ _ Hdate Hin)
        as [Hold|(r & rem & Hr & Hdone & Hrem & He)].
      - left. simpl in Hold. now rewrite orders_at_ensured in Hold.
      - right. exists l, r, rem. tauto. }
    destruct ex as [ex|].
    + intros [= <- <-]. apply Hhere. reflexivity.
    + destruct (Qt.ds_paused ds) as [|y paused];
        intros Hrun Hin;
        (destruct (IH _ Hrun Hin) as [Hold|(l0 & r & rem & Hl0 & Hrest)];
         [ eapply Hhere; [|exact Hold]; reflexivity
         | right; exists l0, r, rem; tauto ]).
Qed.
End SyncFacts.

(** C1. Auto-sync eligibility: an entry that [auto_sync_pre_to_shipping]
    adds to the shipping orders of a date is the copy of an object that
    the pre-shipping orders held under that date, whose status is
    ["done"], and the date is not ["TBD"], is an ISO date and is not
    after today. So nothing under ["TBD"], under a date to come or under
    a key that is no date, no object whose status is ["paused"],
    ["pending"] or ["making"], and no plain string is migrated. *)
Theorem auto_sync_only_due_done `{Calendar} (today : Z)
    (save_raises : option exn) (d : data) (k : string) (e : entry) :
  let d' := fst (Qt.auto_sync_pre_to_shipping today save_raises d) in
  In e (orders_at (shipping_orders d') k) ->
  ~ In e (orders_at (shipping_orders d) k) ->
  exists pre_orders l r order_date rem,
    pre_shipping_orders d = Some pre_orders
    /\ In (k, l) pre_orders /\ In (Rec r) l
    /\ Qt.order_status r = VStr Qt.ORDER_STATUS_DONE
    /\ k <> "TBD"
    /\ date_fromisoformat k = Some order_date /\ order_date <= today
    /\ Qt.auto_remark (Qt.remark_of r) = Ok rem
    /\ e = Qt.synced (Qt.order_num r) rem.
Proof.
  intros d'. unfold d', Qt.auto_sync_pre_to_shipping.
  destruct (pre_shipping_orders d) as [[|item pre]|] eqn:Hpre;
    try (simpl; tauto).
  set (pre_orders := item :: pre) in *.
  destruct (Qt.sync_loop today pre_orders (Qt.SyncState d 0 []))
    as [st raised] eqn:Hloop.
  intros Hin Hnew.
  assert (Hin' : In e (orders_at (shipping_orders (Qt.ss_data st)) k)).
  { destruct raised as [ex|]; [exact Hin|].
    destruct (Qt.ss_count st), save_raises; exact Hin. }
  destruct (@sync_loop_added _ _ _ _ _ _ _ _ Hloop Hin')
    as [Hold|(l & r & rem & Hl & Hr & Hdone & Hdue & Hrem & He)].
  - simpl in Hold. tauto.
  - apply due_iff in Hdue. destruct Hdue as (Htbd & od & Hod & Hle).
    exists pre_orders, l, r, od, rem. tauto.
Qed.

(** The copy of the order A3 that the run on the sample document adds on
    New Year's Day comes from a [done] object of that day. *)
Lemma auto_sync_only_due_done_witness :
  exists r,
    In (Rec r) [Samples.done_A1; Samples.paused_A2; Samples.done_A3;
                Plain "A9"]
    /\ Qt.order_status r = VStr "done"
    /\ Qt.synced (VStr "A3") "urgent [自动同步]"
       = Qt.synced (Qt.order_num r) "urgent [自动同步]".
Proof.
  destruct (@auto_sync_only_due_done IsoCalendar.calendar Samples.today None
              Samples.pending_sync "2025-01-01"
              (Qt.synced (VStr "A3") "urgent [自动同步]"))
    as (pre_orders & l & r & od & rem & Hpre & Hl & Hr & Hdone & _ & _ & _
        & Hrem & He).
  - vm_compute. tauto.
  - vm_compute. intros [].
  - exists r. injection Hpre as <-.
    assert (Hl' : l = [Samples.done_A1; Samples.paused_A2; Samples.done_A3;
                       Plain "A9"]).
    { simpl in Hl.
      destruct Hl as [Hl|[Hl|[Hl|[Hl|[]]]]]; try discriminate.
      now injection Hl as <-. }
    subst l. split; [exact Hr|]. split; [exact Hdone|].
    rewrite He. f_equal. unfold Qt.synced in He. now injection He as _ ->.
Defined.

(** *** What a run without exception does *)

Lemma exists_in_app (num : value) (a b : list entry) :
  Qt.exists_in num (a ++ b) = Qt.exists_in num a || Qt.exists_in num b.
Proof. apply existsb_app. Qed.

Lemma exists_in_synced (num : value) (rem : string) :
  Qt.exists_in num [Qt.synced num rem] = true.
Proof.
  unfold Qt.exists_in. simpl. unfold dget_default. simpl.
  now rewrite py_eq_refl.
Qed.

Lemma is_done_iff (r : dict value) :
  Qt.is_done (Rec r) = true <-> Qt.order_status r = VStr Qt.ORDER_STATUS_DONE.
Proof. apply py_eq_str. Qed.

(** The loop over one date, when every remark can be tagged: the entries
    that are not [done] are kept, in their order; the shipping list grows
    by copies of [done] objects, and ends with an entry for the order
    number of every [done] object. *)
Lemma sync_date_run (l : list entry) (st : Qt.date_state) :
  (forall r, In (Rec r) l ->
             exists rem, Qt.auto_remark (Qt.remark_of r) = Ok rem) ->
  exists added,
    Qt.sync_date l st
    = (Qt.DateState (Qt.ds_shipping st ++ added)
         (Qt.ds_paused st ++ filter (fun e => negb (Qt.is_done e)) l)
         (Qt.ds_count st + List.length added)%nat, None)
    /\ (forall e, In e added ->
          exists r rem,
            In (Rec r) l
            /\ Qt.order_status r = VStr Qt.ORDER_STATUS_DONE
            /\ Qt.auto_remark (Qt.remark_of r) = Ok rem
            /\ e = Qt.synced (Qt.order_num r) rem)
    /\ (forall r, In (Rec r) l ->
          Qt.order_status r = VStr Qt.ORDER_STATUS_DONE ->
          Qt.exists_in (Qt.order_num r) (Qt.ds_shipping st ++ added) = true).
Proof.
  revert st. induction l as [|pre_order rest IH]; intros st Htag.
  - exists []. simpl. rewrite !app_nil_r, Nat.add_0_r.
    destruct st; simpl. repeat split; intros; contradiction.
  - assert (Htag' : forall r, In (Rec r) rest ->
                      exists rem, Qt.auto_remark (Qt.remark_of r) = Ok rem).
    { intros r Hr. apply Htag. now right. }
    (* an entry that is kept *)
    assert (Hkeep : Qt.is_done pre_order = false ->
      exists added,
        Qt.sync_date rest
          (Qt.DateState (Qt.ds_shipping st) (Qt.ds_paused st ++ [pre_order])
             (Qt.ds_count st))
        = (Qt.DateState (Qt.ds_shipping st ++ added)
             (Qt.ds_paused st
              ++ filter (fun e => negb (Qt.is_done e)) (pre_order :: rest))
             (Qt.ds_count st + List.length added)%nat, None)
        /\ (forall e, In e added ->
              exists r rem,
                In (Rec r) (pre_order :: rest)
                /\ Qt.order_status r = VStr Qt.ORDER_STATUS_DONE
                /\ Qt.auto_remark (Qt.remark_of r) = Ok rem
                /\ e = Qt.synced (Qt.order_num r) rem)
        /\ (forall r, In (Rec r) (pre_order :: rest) ->
              Qt.order_status r = VStr Qt.ORDER_STATUS_DONE ->
              Qt.exists_in (Qt.order_num r) (Qt.ds_shipping st ++ added)
              = true)).
    { intros Hnot.
      destruct (IH (Qt.DateState (Qt.ds_shipping st)
                      (Qt.ds_paused st ++ [pre_order]) (Qt.ds_count st)) Htag')
        as (added & Hrun & Hfrom & Hall).
      exists added. simpl in *. rewrite Hnot. simpl.
      rewrite <- app_assoc in Hrun. split; [exact Hrun|]. split.
      - intros e He. destruct (Hfrom e He) as (r & rem & Hr & Hrest).
        exists r, rem. simpl. tauto.
      - intros r [Hr|Hr] Hdone; [|now apply Hall].
        subst pre_order. apply is_done_iff in Hdone. congruence. }
    destruct pre_order as [s|r]; cbn [Qt.sync_date]; [now apply Hkeep|].
    destruct (py_eq (Qt.order_status r) (VStr Qt.ORDER_STATUS_PAUSED))
      eqn:Hpaused.
    { apply Hkeep. apply py_eq_str in Hpaused. simpl. now rewrite Hpaused. }
    destruct (py_eq (Qt.order_status r) (VStr Qt.ORDER_STATUS_DONE))
      eqn:Hdone; cbn [negb]; [|apply Hkeep; exact Hdone].
    assert (Hisdone : Qt.is_done (Rec r) = true) by exact Hdone.
    cbn [filter]. rewrite Hisdone. cbn [negb].
    destruct (Qt.exists_in (Qt.order_num r) (Qt.ds_shipping st)) eqn:Hex.
    + destruct (IH st Htag') as (added & Hrun & Hfrom & Hall).
      exists added. split; [exact Hrun|]. split.
      * intros e He. destruct (Hfrom e He) as (r' & rem & Hr & Hrest).
        exists r', rem. simpl. tauto.
      * intros r' [Hr|Hr] Hd; [|now apply Hall].
        injection Hr as <-. now rewrite exists_in_app, Hex.
    + destruct (Htag r (or_introl eq_refl)) as (rem & Hrem). rewrite Hrem.
      destruct (IH (Qt.DateState
                      (Qt.ds_shipping st ++ [Qt.synced (Qt.order_num r) rem])
                      (Qt.ds_paused st) (S (Qt.ds_count st))) Htag')
        as (added & Hrun & Hfrom & Hall).
      exists (Qt.synced (Qt.order_num r) rem :: added). simpl in *.
      rewrite <- app_assoc in Hrun. simpl in Hrun.
      rewrite Nat.add_succ_r. split; [exact Hrun|]. split.
      * intros e [<-|He].
        -- exists r, rem. apply py_eq_str in Hdone. simpl. tauto.
        -- destruct (Hfrom e He) as (r' & rem' & Hr & Hrest).
           exists r', rem'. simpl. tauto.
      * intros r' [Hr|Hr] Hd.
        -- injection Hr as <-.
           change (Qt.synced (Qt.order_num r) rem :: added)
             with ([Qt.synced (Qt.order_num r) rem] ++ added).
           rewrite !exists_in_app, exists_in_synced.
           now rewrite orb_true_r.
        -- specialize (Hall r' Hr Hd). rewrite <- app_assoc in Hall.
           exact Hall.
Qed.

Section SyncRun.
Context `{Calendar}.
Variable today : Z.

(** A key the loop has left alone, between two states. *)
#[local, warnings="-inconsistent-scopes"]
Abbreviation untouched st st' p p' k :=
  (dget k p' = dget k p
   /\ orders_at (shipping_orders (Qt.ss_data st')) k
      = orders_at (shipping_orders (Qt.ss_data st)) k
   /\ (In k (Qt.ss_remove st') <-> In k (Qt.ss_remove st))).

(** A due key whose list [l] the loop has gone through. *)
#[local, warnings="-inconsistent-scopes"]
Abbreviation synchronised st st' p p' k l :=
  ((exists added,
      orders_at (shipping_orders (Qt.ss_data st')) k
      = orders_at (shipping_orders (Qt.ss_data st)) k ++ added
      /\ (forall e, In e added ->
            exists r rem,
              In (Rec r) l
              /\ Qt.order_status r = VStr Qt.ORDER_STATUS_DONE
              /\ Qt.auto_remark (Qt.remark_of r) = Ok rem
              /\ e = Qt.synced (Qt.order_num r) rem)
      /\ (forall r, In (Rec r) l ->
            Qt.order_status r = VStr Qt.ORDER_STATUS_DONE ->
            Qt.exists_in (Qt.order_num r)
              (orders_at (shipping_orders (Qt.ss_data st)) k ++ added)
            = true))
   /\ (filter (fun e => negb (Qt.is_done e)) l = [] ->
       dget k p' = dget k p /\ In k (Qt.ss_remove st'))
   /\ (filter (fun e => negb (Qt.is_done e)) l <> [] ->
       dget k p' = Some (filter (fun e => negb (Qt.is_done e)) l)
       /\ (In k (Qt.ss_remove st') <-> In k (Qt.ss_remove st)))).

(** One turn of the loop over the dates. *)
Lemma sync_loop_turn (k0 : string) (l0 : list entry)
    (rest : list (string * list entry)) (st : Qt.sync_state) (p : orders) :
  pre_shipping_orders (Qt.ss_data st) = Some p ->
  dict_wf p ->
  (forall r, In (Rec r) l0 ->
             exists rem, Qt.auto_remark (Qt.remark_of r) = Ok rem) ->
  exists st1 p1,
    Qt.sync_loop today ((k0, l0) :: rest) st = Qt.sync_loop today rest st1
    /\ pre_shipping_orders (Qt.ss_data st1) = Some p1
    /\ dict_wf p1
    /\ (forall k, k <> k0 -> untouched st st1 p p1 k)
    /\ (Qt.due today k0 = false -> untouched st st1 p p1 k0)
    /\ (Qt.due today k0 = true -> synchronised st st1 p p1 k0 l0).
Proof.
  intros Hp Hwf Htag.
  assert (Hskip : Qt.due today k0 = false ->
    exists st1 p1,
      Qt.sync_loop today rest st = Qt.sync_loop today rest st1
      /\ pre_shipping_orders (Qt.ss_data st1) = Some p1
      /\ dict_wf p1
      /\ (forall k, k <> k0 -> untouched st st1 p p1 k)
      /\ (Qt.due today k0 = false -> untouched st st1 p p1 k0)
      /\ (Qt.due today k0 = true -> synchronised st st1 p p1 k0 l0)).
  { intros Hdue. exists st, p. rewrite Hdue.
    repeat split; auto; discriminate. }
  cbn [Qt.sync_loop]. unfold Qt.due in Hskip |- *.
  destruct (String.eqb k0 "TBD"); [now apply Hskip|].
  destruct (date_fromisoformat k0) as [od|]; [|now apply Hskip].
  destruct (today <? od); [now apply Hskip|]. clear Hskip. cbn [negb].
  destruct l0 as [|x l'].
  - (* an empty list: the date is marked for removal *)
    eexists (Qt.SyncState _ _ _), p. split; [reflexivity|]. cbn.
    split; [exact Hp|]. split; [exact Hwf|]. split; [|split].
    + intros k Hk. repeat split; auto.
      * rewrite in_app_iff. intros [Hin|[Heq|[]]]; [assumption|congruence].
      * intros Hin. apply in_or_app. now left.
    + discriminate.
    + intros _. split; [|split].
      * exists []. rewrite app_nil_r. repeat split; intros; contradiction.
      * intros _. split; [reflexivity|]. apply in_or_app. right. now left.
      * intros Hne. now contradiction Hne.
  - set (l0 := x :: l') in *.
    destruct (sync_date_run l0
                (Qt.DateState
                   (dget_default k0 []
                      (dsetdefault k0 []
                         match shipping_orders (Qt.ss_data st) with
                         | Some s => s
                         | None => []
                         end)) [] (Qt.ss_count st)) Htag)
      as (added & Hrun & Hfrom & Hall).
    rewrite Hrun. cbn [Qt.ds_shipping Qt.ds_paused Qt.ds_count app].
    rewrite orders_at_ensured in *. cbn [Qt.ds_shipping] in Hall.
    remember (filter (fun e => negb (Qt.is_done e)) l0) as kept eqn:Hkept.
    set (ship' :=
           dset k0 (orders_at (shipping_orders (Qt.ss_data st)) k0 ++ added)
             (dsetdefault k0 []
                match shipping_orders (Qt.ss_data st) with
                | Some s => s
                | None => []
                end)).
    assert (Hship : forall k,
      orders_at (Some ship') k
      = if String.eqb k k0
        then orders_at (shipping_orders (Qt.ss_data st)) k0 ++ added
        else orders_at (shipping_orders (Qt.ss_data st)) k).
    { intros k. apply orders_at_replaced. }
    clearbody ship'.
    destruct kept as [|y kept'].
    + (* everything was synchronised: the date is marked for removal *)
      exists (Qt.SyncState
                (Data (pre_shipping_orders (Qt.ss_data st)) (Some ship'))
                (Qt.ss_count st + List.length added)
                (Qt.ss_remove st ++ [k0])), p.
      split; [reflexivity|]. cbn.
      split; [exact Hp|]. split; [exact Hwf|]. split; [|split].
      * intros k Hk. split; [reflexivity|]. split.
        -- change (dget_default k [] ship') with (orders_at (Some ship') k).
           rewrite Hship. apply String.eqb_neq in Hk. now rewrite Hk.
        -- rewrite in_app_iff. split.
           ++ intros [Hin|[Heq|[]]]; [assumption|congruence].
           ++ intros Hin. now left.
      * discriminate.
      * intros _. split; [|split].
        -- exists added.
           change (dget_default k0 [] ship') with (orders_at (Some ship') k0).
           rewrite Hship, String.eqb_refl. auto.
        -- intros _. split; [reflexivity|]. apply in_or_app. right. now left.
        -- intros Hne. now contradiction Hne.
    + (* some entries stay: they are the new list of the date *)
      exists (Qt.SyncState
                (Data (option_map (dset k0 (y :: kept'))
                         (pre_shipping_orders (Qt.ss_data st)))
                      (Some ship'))
                (Qt.ss_count st + List.length added)
                (Qt.ss_remove st)), (dset k0 (y :: kept') p).
      split; [reflexivity|]. cbn. rewrite Hp. cbn.
      split; [reflexivity|]. split; [now apply dict_wf_dset|].
      split; [|split].
      * intros k Hk. split; [now apply dget_dset_ne|]. split.
        -- change (dget_default k [] ship') with (orders_at (Some ship') k).
           rewrite Hship. apply String.eqb_neq in Hk. now rewrite Hk.
        -- tauto.
      * discriminate.
      * intros _. split; [|split].
        -- exists added.
           change (dget_default k0 [] ship') with (orders_at (Some ship') k0).
           rewrite Hship, String.eqb_refl. auto.
        -- discriminate.
        -- intros _. split; [apply dget_dset_eq|tauto].
Qed.

(** The whole loop, over bindings with distinct keys. *)
Lemma sync_loop_run (items : list (string * list entry))
    (st : Qt.sync_state) (p : orders) :
  NoDup (keys items) ->
  (forall k l r, In (k, l) items -> In (Rec r) l ->
                 exists rem, Qt.auto_remark (Qt.remark_of r) = Ok rem) ->
  pre_shipping_orders (Qt.ss_data st) = Some p ->
  dict_wf p ->
  exists st' p',
    Qt.sync_loop today items st = (st', None)
    /\ pre_shipping_orders (Qt.ss_data st') = Some p'
    /\ dict_wf p'
    /\ forall k,
         match dget k items with
         | Some l =>
             (Qt.due today k = false -> untouched st st' p p' k)
             /\ (Qt.due today k = true -> synchronised st st' p p' k l)
         | None => untouched st st' p p' k
         end.
Proof.
  revert st p. induction items as [|[k0 l0] rest IH];
    intros st p Hnd Htag Hp Hwf.
  - exists st, p. simpl. repeat split; auto.
  - inversion Hnd as [|? ? Hfresh Hnd']; subst.
    destruct (@sync_loop_turn k0 l0 rest st p Hp Hwf)
      as (st1 & p1 & Hturn & Hp1 & Hwf1 & Hothers & Hidle & Hsync).
    { intros r Hr. apply (Htag k0 l0); [now left|assumption]. }
    destruct (IH st1 p1 Hnd') as (st' & p' & Hrun & Hp' & Hwf' & Hkeys);
      try assumption.
    { intros k l r Hl Hr. apply (Htag k l); [now right|assumption]. }
    exists st', p'. rewrite Hturn. split; [exact Hrun|].
    split; [exact Hp'|]. split; [exact Hwf'|].
    intros k. cbn [dget]. destruct (String.eqb k k0) eqn:Ek.
    + apply String.eqb_eq in Ek. subst k.
      specialize (Hkeys k0). apply dget_None_keys in Hfresh.
      rewrite Hfresh in Hkeys. destruct Hkeys as (Hg & Hs & Hr).
      split.
      * intros Hdue. destruct (Hidle Hdue) as (Hg1 & Hs1 & Hr1).
        split; [congruence|]. split; [congruence|]. tauto.
      * intros Hdue.
        destruct (Hsync Hdue) as ((added & Hs1 & Hfrom & Hall) & Hnone & Hsome).
        split; [|split].
        -- exists added. split; [congruence|]. auto.
        -- intros Hk. destruct (Hnone Hk) as (Hg1 & Hr1).
           split; [congruence|]. tauto.
        -- intros Hk. destruct (Hsome Hk) as (Hg1 & Hr1).
           split; [congruence|]. tauto.
    + apply String.eqb_neq in Ek.
      destruct (Hothers k Ek) as (Hg1 & Hs1 & Hr1).
      specialize (Hkeys k). destruct (dget k rest) as [l|].
      * destruct Hkeys as (Hidle' & Hsync'). split.
        -- intros Hdue. destruct (Hidle' Hdue) as (Hg & Hs & Hr).
           split; [congruence|]. split; [congruence|]. tauto.
        -- intros Hdue.
           destruct (Hsync' Hdue)
             as ((added & Hs & Hfrom & Hall) & Hnone & Hsome).
           split; [|split].
           ++ exists added. rewrite <- Hs1. auto.
           ++ intros Hk. destruct (Hnone Hk) as (Hg & Hr).
              split; [congruence|]. tauto.
           ++ intros Hk. destruct (Hsome Hk) as (Hg & Hr).
              split; [congruence|]. tauto.
      * destruct Hkeys as (Hg & Hs & Hr).
        split; [congruence|]. split; [congruence|]. tauto.
Qed.

(** The dates marked are removed, the others stay. *)
Lemma dget_remove_dates (rm : list string) (p : orders) (k : string) :
  dict_wf p ->
  (In k rm -> dget k (fold_left (fun q k' => ddel k' q) rm p) = None)
  /\ (~ In k rm ->
      dget k (fold_left (fun q k' => ddel k' q) rm p) = dget k p).
Proof.
  revert p. induction rm as [|k' rm IH]; intros p Hwf; simpl.
  - tauto.
  - destruct (IH (ddel k' p) (dict_wf_ddel k' Hwf)) as (Hin & Hout).
    split.
    + intros [->|Hk].
      * destruct (in_dec string_dec k rm) as [Hk|Hk]; [now apply Hin|].
        rewrite (Hout Hk). now apply dget_ddel_eq.
      * now apply Hin.
    + intros Hk. rewrite Hout by tauto. apply dget_ddel_ne.
      intros ->. tauto.
Qed.
End SyncRun.




(** ** Loading and saving the document *)

Section PersistenceFacts.
Context `{JsonCodec}.
Variable DATA_FILE : string.
Variable EXCEL_DIR : string.

(** On an object the merge never raises: it gives an object that binds
    the keys of the file as the file does and the other keys as
    [defaults] does. *)
Lemma merge_defaults_object (defaults o : dict json) :
  exists m,
    Tk.merge_defaults defaults (JDict o) = Ok (JDict m)
    /\ forall k, dget k m = match dget k o with
                            | Some v => Some v
                            | None => dget k defaults
                            end.
Proof.
  revert o. induction defaults as [|[key value] rest IH]; intros o; simpl.
  - exists o. split; [reflexivity|]. intros k. now destruct (dget k o).
  - destruct (dmem key o) eqn:Hmem.
    + destruct (IH o) as (m & Hm & Hget). exists m. split; [assumption|].
      intros k. rewrite Hget. destruct (dget k o) eqn:Hk; [reflexivity|].
      destruct (String.eqb k key) eqn:E; [|reflexivity].
      apply String.eqb_eq in E. subst k. unfold dmem in Hmem.
      now rewrite Hk in Hmem.
    + destruct (IH (dset key value o)) as (m & Hm & Hget). exists m.
      split; [assumption|]. intros k. rewrite Hget, dget_dset.
      destruct (String.eqb k key) eqn:E.
      * apply String.eqb_eq in E. subst k. unfold dmem in Hmem.
        now destruct (dget key o).
      * reflexivity.
Qed.

(** A document that has every key of [defaults] goes through the merge
    as it is. *)
Lemma merge_defaults_complete (defaults o : dict json) :
  (forall k, dmem k defaults = true -> dmem k o = true) ->
  Tk.merge_defaults defaults (JDict o) = Ok (JDict o).
Proof.
  induction defaults as [|[key value] rest IH]; intros Hall; simpl.
  - reflexivity.
  - rewrite (Hall key).
    + apply IH. intros k Hk. apply Hall. unfold dmem in *. simpl.
      now destruct (String.eqb k key).
    + unfold dmem. simpl. now rewrite String.eqb_refl.
Qed.

(** Every class of exception of the model is caught by
    [except Exception]. *)
Lemma isinstance_Exception (e : exn) : isinstance e Exception = true.
Proof. destruct e as [[] msg]; reflexivity. Qed.

(** [load_data] returns whatever the file and the disk do. *)
Lemma load_data_returns (w : Tk.world) :
  exists w' j, Tk.load_data EXCEL_DIR w = (w', Ok j).
Proof.
  unfold Tk.load_data. destruct (Tk.data_file w) as [t|] eqn:Hf.
  - unfold Tk.load_data_body, try. rewrite Hf.
    destruct (Tk.data_read_fault w) as [e|].
    + simpl. destruct (isinstance e JSONDecodeError); [eauto|].
      rewrite isinstance_Exception. eauto.
    + destruct (json_loads t) as [j|e].
      * destruct (Tk.merge_defaults _ j) as [j'|e]; [eauto|].
        simpl. destruct (isinstance e JSONDecodeError); [eauto|].
        rewrite isinstance_Exception. eauto.
      * simpl. destruct (isinstance e JSONDecodeError); [eauto|].
        rewrite isinstance_Exception. eauto.
  - eauto.
Qed.

(** A file that cannot be read or that holds no JSON document gives the
    defaults, and one line in the log. *)
Lemma load_data_corrupt (w : Tk.world) (t : string) (e : exn) :
  Tk.data_file w = Some t ->
  Tk.data_read_fault w = Some e
  \/ (Tk.data_read_fault w = None /\ json_loads t = Raise e) ->
  exists line,
    Tk.load_data EXCEL_DIR w
    = (Tk.logging Tk.ERROR line w, Ok (JDict (Tk.default_data EXCEL_DIR))).
Proof.
  intros Hf Hbad. unfold Tk.load_data, Tk.load_data_body, try. rewrite Hf.
  destruct Hbad as [Hr|[Hr Hl]]; rewrite Hr; [|rewrite Hl]; simpl;
    (destruct (isinstance e JSONDecodeError); [eauto|]);
    rewrite isinstance_Exception; eauto.
Qed.
(** A readable file that holds a complete document is loaded as it is. *)
Lemma load_data_complete (w : Tk.world) (t : string) (o : dict json) :
  Tk.data_file w = Some t ->
  Tk.data_read_fault w = None ->
  json_loads t = Ok (JDict o) ->
  (forall k, dmem k (Tk.default_data EXCEL_DIR) = true -> dmem k o = true) ->
  Tk.load_data EXCEL_DIR w = (w, Ok (JDict o)).
Proof.
  intros Hf Hr Hl Hkeys. unfold Tk.load_data, Tk.load_data_body.
  rewrite Hf, Hr, Hl. rewrite merge_defaults_complete by exact Hkeys.
  reflexivity.
Qed.
(** The world a successful [save_data] leaves. *)
Lemma save_data_succeeds (d : json) (w : Tk.world) :
  Tk.data_copy_fault w = None ->
  Tk.data_write_fault w = None ->
  Tk.save_data DATA_FILE d w
  = (Tk.set_data_file (json_dumps d)
       match Tk.data_file w with
       | Some previous => Tk.set_backup_file previous (Tk.count_save w)
       | None => Tk.count_save w
       end,
     Ok tt).
Proof.
  intros Hc Hw. unfold Tk.save_data, Tk.save_data_body. simpl.
  rewrite Hc. destruct (Tk.data_file w); simpl; rewrite Hw; reflexivity.
Qed.
(** Every call of [save_data] is counted, and nothing else changes the
    count. *)
Lemma save_data_counts (d : json) (w : Tk.world) :
  Tk.saves (fst (Tk.save_data DATA_FILE d w)) = S (Tk.saves w).
Proof.
  unfold Tk.save_data, Tk.save_data_body. simpl.
  destruct (Tk.data_file w) as [t|]; simpl.
  - destruct (Tk.data_copy_fault w) as [e|]; simpl.
    + destruct (isinstance e PermissionError); reflexivity.
    + destruct (Tk.data_write_fault w) as [[e|e partial]|]; simpl;
        try destruct (isinstance e PermissionError); reflexivity.
  - destruct (Tk.data_write_fault w) as [[e|e partial]|]; simpl;
      try destruct (isinstance e PermissionError); reflexivity.
Qed.
End PersistenceFacts.

(** C3. Default-merge on load: when the data file holds a JSON object,
    [load_data] returns an object in which every key of [default_data] is
    present, a key of the file keeps the value stored and a key missing
    from the file has its default value; when there is no data file,
    [load_data] returns [default_data]. *)
Theorem load_data_default_merge `{JsonCodec} (EXCEL_DIR : string)
    (w : Tk.world) :
  (Tk.data_file w = None ->
   Tk.load_data EXCEL_DIR w = (w, Ok (JDict (Tk.default_data EXCEL_DIR))))
  /\ (forall t o,
        Tk.data_file w = Some t ->
        Tk.data_read_fault w = None ->
        json_loads t = Ok (JDict o) ->
        exists m,
          Tk.load_data EXCEL_DIR w = (w, Ok (JDict m))
          /\ (forall k, dmem k (Tk.default_data EXCEL_DIR) = true ->
                        dmem k m = true)
          /\ (forall k v, dget k o = Some v -> dget k m = Some v)
          /\ (forall k, dget k o = None ->
                        dget k m = dget k (Tk.default_data EXCEL_DIR))).
Proof.
  split.
  - intros Hf. unfold Tk.load_data. now rewrite Hf.
  - intros t o Hf Hr Hl.
    destruct (merge_defaults_object (Tk.default_data EXCEL_DIR) o)
      as (m & Hm & Hget).
    exists m. split; [|split; [|split]].
    + unfold Tk.load_data, Tk.load_data_body. rewrite Hf, Hr, Hl, Hm.
      reflexivity.
    + intros k Hk. unfold dmem in *. rewrite Hget.
      destruct (dget k o); [reflexivity|assumption].
    + intros k v Hk. now rewrite Hget, Hk.
    + intros k Hk. now rewrite Hget, Hk.
Qed.

(** A data file with two keys: the interval stored is kept and the
    start-up flag comes from the defaults. *)
Lemma load_data_default_merge_witness :
  exists m,
    Tk.load_data (H := Concrete.codec) "orders_import"
      (Samples.on_disk (JDict Samples.partial))
    = (Samples.on_disk (JDict Samples.partial), Ok (JDict m))
    /\ dget "reminder_interval" m = Some (JI 30)
    /\ dget "startup_enabled" m = Some (JB false).
Proof.
  destruct (proj2 (@load_data_default_merge Concrete.codec
                     "orders_import" (Samples.on_disk (JDict Samples.partial)))
              _ Samples.partial eq_refl eq_refl
              ltac:(vm_compute; reflexivity))
    as (m & Hload & _ & Hkept & Hdefault).
  exists m. split; [exact Hload|]. split.
  - apply Hkept. reflexivity.
  - rewrite Hdefault; reflexivity.
Defined.

(** C4. Backup on save: when copying and writing succeed, [save_data]
    returns with the data file holding the serialization of the new
    document; the backup file then holds what the data file held before
    when there was a data file, and is untouched when there was none. *)
Theorem save_data_backup `{JsonCodec} (DATA_FILE : string) (d : json)
    (w : Tk.world) :
  Tk.data_copy_fault w = None ->
  Tk.data_write_fault w = None ->
  exists w',
    Tk.save_data DATA_FILE d w = (w', Ok tt)
    /\ Tk.data_file w' = Some (json_dumps d)
    /\ Tk.backup_file w' = match Tk.data_file w with
                           | Some previous => Some previous
                           | None => Tk.backup_file w
                           end
    /\ Tk.log w' = Tk.log w /\ Tk.boxes w' = Tk.boxes w.
Proof.
  intros Hc Hw. eexists. split.
  - now apply save_data_succeeds.
  - destruct (Tk.data_file w); repeat split.
Qed.

(** A save over an existing data file: the backup holds what the file
    held. *)
Lemma save_data_backup_witness :
  exists w',
    Tk.save_data (H := Concrete.codec) "data.json" (JDict Samples.complete)
      (Samples.on_disk (JDict Samples.partial)) = (w', Ok tt)
    /\ Tk.backup_file w' = Some (Concrete.dump 0 (JDict Samples.partial)).
Proof.
  destruct (@save_data_backup Concrete.codec "data.json"
              (JDict Samples.complete)
              (Samples.on_disk (JDict Samples.partial)) eq_refl eq_refl)
    as (w' & Hsave & _ & Hbackup & _).
  exists w'. split; [exact Hsave|exact Hbackup].
Defined.



(** C6, the run that shows the defect. The disk is full: [json.dump]
    raises [OSError]. The first handler of [save_data] does not match, the
    second names [json.JSONEncodeError], which the module does not have,
    and the [AttributeError] of that lookup leaves [save_data]: nothing is
    logged and no message box is shown. *)
Theorem save_data_disk_full :
  Tk.save_data (H := Concrete.codec) "data.json" (JDict Samples.complete)
    Samples.disk_full
  = (Tk.World (Some "") (Some (Concrete.dump 0 (JDict Samples.partial)))
       None None None
       (Some (Tk.DumpFails
                (Exn OSError "[Errno 28] No space left on device") ""))
       None None [] [] 1,
     Raise (Exn AttributeError
              "module 'json' has no attribute 'JSONEncodeError'")).
Proof. reflexivity. Qed.

(** The same for every failure that is not a [PermissionError]. *)
Lemma save_data_lets_through `{JsonCodec} (DATA_FILE : string) (d : json)
    (w : Tk.world) (e : exn) :
  Tk.data_copy_fault w = None ->
  Tk.data_write_fault w = Some (Tk.OpenFails e) ->
  isinstance e PermissionError = false ->
  exists w',
    Tk.save_data DATA_FILE d w
    = (w', Raise (Exn AttributeError
                    "module 'json' has no attribute 'JSONEncodeError'"))
    /\ Tk.log w' = Tk.log w /\ Tk.boxes w' = Tk.boxes w.
Proof.
  intros Hc Hw He. unfold Tk.save_data, Tk.save_data_body. simpl.
  rewrite Hc. destruct (Tk.data_file w); simpl; rewrite Hw; simpl;
    rewrite He; eexists; repeat split.
Qed.

(** A [PermissionError] is handled as the specification says. *)
Lemma save_data_permission_denied `{JsonCodec} (DATA_FILE : string)
    (d : json) (w : Tk.world) (e : exn) :
  Tk.data_copy_fault w = None ->
  Tk.data_write_fault w = Some (Tk.OpenFails e) ->
  isinstance e PermissionError = true ->
  exists w',
    Tk.save_data DATA_FILE d w = (w', Ok tt)
    /\ Tk.data_file w' = Tk.data_file w
    /\ Tk.log w'
       = (Tk.log w
          ++ [(Tk.ERROR,
               ("Permission denied saving data to " ++ DATA_FILE)%string)])%list
    /\ Tk.boxes w'
       = (Tk.boxes w
          ++ [(Tk.Showerror, "Error",
               ("No permission to save data to " ++ DATA_FILE)%string)])%list.
Proof.
  intros Hc Hw He. unfold Tk.save_data, Tk.save_data_body. simpl.
  rewrite Hc. destruct (Tk.data_file w) eqn:Hf; simpl; rewrite Hw; simpl;
    rewrite He; eexists; (split; [reflexivity|]); simpl; auto.
Qed.


(** ** After a change: what is saved is what is held *)

Section ReloadFacts.
Context `{JsonCodec} `{Calendar} `{Builtins}.
Variable DATA_FILE : string.
Variable EXCEL_DIR : string.

Lemma load_activation_side (w : Tk.world) :
  Tk.data_side (fst (Tk.load_activation w)) = Tk.data_side w.
Proof.
  unfold Tk.load_activation. destruct (Tk.act_file w) as [t|]; [|reflexivity].
  destruct (Tk.act_read_fault w) as [e|].
  - unfold try, json_attr. cbn [String.eqb Ascii.eqb Bool.eqb except].
    destruct (isinstance e JSONDecodeError); [reflexivity|].
    now rewrite isinstance_Exception.
  - destruct (json_loads t) as [j|e]; [reflexivity|].
    unfold try, json_attr. cbn [String.eqb Ascii.eqb Bool.eqb except].
    destruct (isinstance e JSONDecodeError); [reflexivity|].
    now rewrite isinstance_Exception.
Qed.

Lemma save_activation_side (act_data : json) (w : Tk.world) :
  Tk.data_side (fst (Tk.save_activation act_data w)) = Tk.data_side w.
Proof.
  unfold Tk.save_activation.
  destruct (Tk.act_write_fault w) as [[e|e partial]|]; simpl;
    try rewrite isinstance_Exception; reflexivity.
Qed.

Lemma restart_trial_side (today : Z) (act_data : json) (w : Tk.world) :
  Tk.data_side (fst (Tk.restart_trial today act_data w)) = Tk.data_side w.
Proof.
  unfold Tk.restart_trial.
  destruct (py_setitem "trial_start" _ act_data) as [act_data'|e];
    [|reflexivity].
  pose proof (save_activation_side act_data' w) as Hs.
  now destruct (Tk.save_activation act_data' w) as [w' [[]|e]].
Qed.

(** [check_trial] works on the activation file only. *)
Lemma check_trial_side (today : Z) (parent : bool) (w : Tk.world) :
  Tk.data_side (fst (Tk.check_trial today parent w)) = Tk.data_side w.
Proof.
  unfold Tk.check_trial. pose proof (load_activation_side w) as Hl.
  destruct (Tk.load_activation w) as [w1 [act_data|e]]; cbn [fst] in Hl;
    [|exact Hl].
  destruct (py_get "activated" _ act_data) as [activated|e]; [|exact Hl].
  destruct (truthy_json activated); [exact Hl|].
  destruct (py_get "trial_start" _ act_data) as [start|e]; [|exact Hl].
  destruct (negb (truthy_json start)).
  { now rewrite restart_trial_side. }
  destruct start as [[| | |s]|l|o]; try exact Hl.
  destruct (date_fromisoformat s) as [start_date|].
  - destruct (today - start_date <? Tk.TRIAL_DAYS); [exact Hl|].
    now destruct parent.
  - now rewrite restart_trial_side.
Qed.

(** A document that is settled has the keys of the defaults, and life
    settings with the two keys of the baseline. *)
Lemma settled_inv (j : json) :
  Tk.settled EXCEL_DIR j = true ->
  exists o ls,
    j = JDict o
    /\ (forall k, dmem k (Tk.default_data EXCEL_DIR) = true ->
                  dmem k o = true)
    /\ dget "life_settings" o = Some (JDict ls)
    /\ dmem "remain_base_days" ls = true
    /\ dmem "remain_base_date" ls = true.
Proof.
  unfold Tk.settled. destruct j as [v|l|o]; try discriminate.
  intros Hs. apply andb_true_iff in Hs. destruct Hs as [Hkeys Hls].
  destruct (dget "life_settings" o) as [[v|l|ls]|] eqn:Hget;
    try discriminate.
  apply andb_true_iff in Hls. destruct Hls as [Hdays Hdate].
  exists o, ls. split; [reflexivity|]. split; [|now repeat split].
  clear Hget.
  intros k Hk. rewrite forallb_forall in Hkeys. apply Hkeys.
  unfold dmem in Hk. destruct (dget k (Tk.default_data EXCEL_DIR)) eqn:Hget;
    [|discriminate].
  unfold keys. clear -Hget.
  induction (Tk.default_data EXCEL_DIR) as [|[k' v'] rest IH];
    simpl in *; [discriminate|].
  destruct (String.eqb k k') eqn:E.
  - left. symmetry. now apply String.eqb_eq.
  - right. now apply IH.
Qed.

(** On a settled document [compute_life_ui] stores nothing. *)
Lemma compute_life_ui_settled (today : Z) (j : json) (w : Tk.world) :
  Tk.settled EXCEL_DIR j = true ->
  exists w',
    fst (Tk.compute_life_ui DATA_FILE today j w) = (j, w')
    /\ Tk.data_side w' = Tk.data_side w
    /\ Tk.boxes w' = Tk.boxes w.
Proof.
  intros Hs. destruct (settled_inv _ Hs) as (o & ls & -> & _ & Hls & Hdays & Hdate).
  unfold Tk.compute_life_ui, Tk.compute_life_ui_body.
  cbn [as_dict bind]. unfold dget_default at 1. rewrite Hls.
  cbn [as_dict bind].
  destruct (py_int (dget_default "current_age" (JI 36) ls)) as [age|e];
    cbn [bind try except fst snd].
  2:{ rewrite isinstance_Exception. eexists. cbn [fst snd].
      now repeat split. }
  destruct (py_int (dget_default "ideal_age" (JI 70) ls)) as [ideal|e];
    cbn [bind try except fst snd].
  2:{ rewrite isinstance_Exception. eexists. cbn [fst snd].
      now repeat split. }
  rewrite Hdays, Hdate. cbn [negb orb andb].
  destruct (base_date_of today _) as [bd|e]; cbn [bind try except fst snd].
  2:{ rewrite isinstance_Exception. eexists. cbn [fst snd].
      now repeat split. }
  destruct (py_int (dget_default "remain_base_days" (JI 0) ls)) as [b|e];
    cbn [bind try except fst snd].
  2:{ rewrite isinstance_Exception. eexists. cbn [fst snd].
      now repeat split. }
  destruct (stage age) as [icon text]. exists w. now repeat split.
Qed.

(** And [update_reminder_text] leaves it, and the data file, as they
    are. *)
Lemma update_reminder_text_settled (today : Z) (j : json) (w : Tk.world) :
  Tk.settled EXCEL_DIR j = true ->
  exists w',
    Tk.update_reminder_text DATA_FILE today j w = (j, w')
    /\ Tk.data_side w' = Tk.data_side w.
Proof.
  intros Hs. unfold Tk.update_reminder_text.
  pose proof (check_trial_side today true w) as Ht.
  destruct (Tk.check_trial today true w) as [w1 [[|]|e]]; cbn [fst] in Ht.
  - destruct (compute_life_ui_settled today _ w1 Hs) as (w' & Hc & Hside & _).
    exists w'. split; [exact Hc|]. now rewrite Hside.
  - now exists w1.
  - now exists w1.
Qed.

(** The date is read off the form without a look at the data file. *)
Lemma get_date_from_widget_side (today : Z) (widget : Tk.date_widget)
    (w : Tk.world) :
  Tk.data_side (fst (Tk.get_date_from_widget today widget w))
  = Tk.data_side w.
Proof.
  unfold Tk.get_date_from_widget. destruct widget as [d0|text]; simpl;
    [reflexivity|].
  now destruct (date_fromisoformat (str_strip text)).
Qed.

Lemma disk_sound_side (w w' : Tk.world) :
  Tk.data_side w' = Tk.data_side w -> Tk.disk_sound w' = Tk.disk_sound w.
Proof.
  unfold Tk.data_side, Tk.disk_sound. intros [= _ _ -> -> -> _]. reflexivity.
Qed.
(** On a sound disk a settled document that the [json] module reads
    back is written once, and is what the method holds after it has
    reloaded [self.data] and redrawn the reminder text. *)
Lemma saved_and_reloaded (today : Z) (j held : json) (w : Tk.world) :
  Tk.disk_sound w = true ->
  Tk.settled EXCEL_DIR j = true ->
  json_loads (json_dumps j) = Ok j ->
  exists w2 w4,
    Tk.save_data DATA_FILE j w = (w2, Ok tt)
    /\ Tk.refresh_order_tables EXCEL_DIR held w2 = (j, w2)
    /\ Tk.update_reminder_text DATA_FILE today j w2 = (j, w4)
    /\ Tk.boxes w2 = Tk.boxes w
    /\ Tk.saves w4 = S (Tk.saves w)
    /\ Tk.data_file w4 = Some (json_dumps j)
    /\ Tk.disk_sound w4 = true.
Proof.
  intros Hdisk Hs Hback.
  assert (Hfaults : Tk.data_read_fault w = None
                    /\ Tk.data_copy_fault w = None
                    /\ Tk.data_write_fault w = None).
  { unfold Tk.disk_sound in Hdisk.
    destruct (Tk.data_read_fault w), (Tk.data_copy_fault w),
      (Tk.data_write_fault w); try discriminate. auto. }
  destruct Hfaults as (Hr & Hc & Hw).
  destruct (settled_inv _ Hs) as (o & ls & Hj & Hkeys & _).
  rewrite (save_data_succeeds DATA_FILE j w Hc Hw).
  set (w2 := Tk.set_data_file (json_dumps j) _).
  assert (Hfile : Tk.data_file w2 = Some (json_dumps j)) by reflexivity.
  assert (Hread : Tk.data_read_fault w2 = None).
  { unfold w2. now destruct (Tk.data_file w). }
  assert (Hsaves : Tk.saves w2 = S (Tk.saves w)).
  { unfold w2. now destruct (Tk.data_file w). }
  assert (Hboxes : Tk.boxes w2 = Tk.boxes w).
  { unfold w2. now destruct (Tk.data_file w). }
  assert (Hload : Tk.load_data EXCEL_DIR w2 = (w2, Ok j)).
  { subst j. apply load_data_complete with (t := json_dumps (JDict o));
      assumption. }
  destruct (update_reminder_text_settled today _ w2 Hs) as (w4 & Hu & Hside).
  exists w2, w4. split; [reflexivity|]. split.
  { unfold Tk.refresh_order_tables. now rewrite Hload. }
  split; [exact Hu|]. split; [exact Hboxes|].
  assert (Hsound : Tk.disk_sound w4 = true).
  { rewrite (disk_sound_side Hside). unfold Tk.disk_sound.
    unfold w2. destruct (Tk.data_file w); simpl; now rewrite Hr, Hc, Hw. }
  unfold Tk.data_side in Hside. injection Hside as Hf _ _ _ _ Hn.
  split; [now rewrite Hn|]. split; [now rewrite Hf|exact Hsound].
Qed.

End ReloadFacts.

(** ** The Excel import *)

Section CountFacts.
Implicit Types (m : orders) (c : option orders) (d : data).



Lemma dmem_ensure_date c (date : string) :
dmem date (ensure_date date c) = true.
Proof.
unfold ensure_date, dmem. rewrite dget_dsetdefault, String.eqb_refl.
now destruct (dget date _).
Qed.



End CountFacts.

Section ImportFacts.
Context `{Calendar} `{Builtins} `{DateParser}.
Variable listed : string -> list entry -> bool.

(** A row that is taken: what [import_row] comes to. *)
Lemma import_row_taken (row : list cell) (d : data) (n : nat) (date_obj : Z) :
cell_truthy (hd CNone row) = true ->
parse_date (row_date_str (hd CNone row)) = Ok date_obj ->
row_order row <> "" ->
import_row listed row (d, n)
= let date_iso := date_isoformat date_obj in
  let is_shipping := substring_in "发货" (row_typ row) in
  let m := ensure_date date_iso (get_collection is_shipping d) in
  if listed (row_order row) (dget_default date_iso [] m)
  then ((set_collection is_shipping m d, n), None)
  else ((set_collection is_shipping
           (append_at date_iso (Plain (row_order row)) m) d, S n), None).
Proof.
intros Hcell Hparse Horder. unfold import_row.
destruct row as [|date_cell row']; [discriminate|]. simpl in Hcell, Hparse.
rewrite Hcell, Hparse. simpl. apply String.eqb_neq in Horder.
now rewrite Horder.
Qed.




End ImportFacts.



(** The duplicate test of the Tkinter program misses the orders stored
    as objects. The order A1 was entered by hand, so the shipping list of
    its date holds an object, and a spreadsheet lists it again: the
    Tkinter program compares the order number with the entries
    themselves, finds no equal string, appends the number and counts one
    new order; the PyQt6 program, which compares it with the ["order"] of
    the objects, as [add_order] does, changes nothing. *)
Lemma import_relists_order_entered_by_hand :
  Tk.import_orders_from_excel (H := IsoCalendar.calendar)
    (H0 := Concrete.builtins) (H1 := Concrete.strptime)
    Samples.folder (Some "orders_import") Samples.entered_by_hand
  = (Data None
       (Some [("2025-01-01",
               [Rec [("order", VStr "A1"); ("remark", VStr "")];
                Plain "A1"])]),
     1%nat)
  /\ Qt.import_orders_from_excel (H := IsoCalendar.calendar)
       (H0 := Concrete.builtins) (H1 := Concrete.strptime)
       Samples.folder (Some "orders_import") Samples.entered_by_hand
     = (Samples.entered_by_hand, 0%nat).
Proof. split; reflexivity. Qed.

(** ** Adding an order by hand *)

Section AddOrderFacts.
Context `{JsonCodec} `{Calendar} `{Builtins}.


(** The date of the form is no empty string. *)
Lemma get_date_from_widget_nonempty (today : Z) (widget : Tk.date_widget)
    (w : Tk.world) :
  String.eqb (snd (Tk.get_date_from_widget today widget w)) "" = false.
Proof.
  apply String.eqb_neq. unfold Tk.get_date_from_widget.
  destruct widget as [d0|text]; simpl.
  - apply date_isoformat_nonempty.
  - destruct (date_fromisoformat (str_strip text)) eqn:Hp; simpl.
    + intros Hempty. rewrite Hempty, date_fromisoformat_empty in Hp.
      discriminate.
    + apply date_isoformat_nonempty.
Qed.

(** An order number that is new and not blank, on a sound disk: what
    is held afterwards is the document with the record appended. *)
Lemma add_order_kept (DATA_FILE EXCEL_DIR : string)
    (document : data -> json) (today : Z) (is_shipping : bool)
    (widget : Tk.date_widget) (entry_text : string)
    (remark_text : option string) (self_data : data) (w : Tk.world) :
  let d := snd (Tk.get_date_from_widget today widget w) in
  let o := str_strip entry_text in
  let remark :=
    match remark_text with Some t => str_strip t | None => "" end in
  let appended :=
    set_collection is_shipping
      (append_at d (Tk.new_record is_shipping o remark)
         (ensure_date d (get_collection is_shipping self_data)))
      self_data in
  o <> "" ->
  Tk.duplicate o (orders_at (get_collection is_shipping self_data) d)
  = false ->
  Tk.disk_sound w = true ->
  Tk.settled EXCEL_DIR (document appended) = true ->
  json_loads (json_dumps (document appended)) = Ok (document appended) ->
  exists w4,
    Tk.add_order DATA_FILE EXCEL_DIR document today is_shipping widget
      entry_text remark_text self_data w
    = (document appended,
       Tk.messagebox Tk.Showinfo "添加成功"
         ((if is_shipping then "发货订单" else "预备订单") ++ "已添加！")%string
         w4)
    /\ Tk.saves w4 = S (Tk.saves w)
    /\ Tk.data_file w4 = Some (json_dumps (document appended))
    /\ Tk.disk_sound w4 = true.
Proof.
  intros d o remark appended Ho Hnew Hdisk Hsettled Hback.
  pose proof (get_date_from_widget_side today widget w) as Hside.
  pose proof (get_date_from_widget_nonempty today widget w) as Hd.
  unfold Tk.add_order. unfold appended, d, o, remark in *.
  destruct (Tk.get_date_from_widget today widget w) as [w1 d1].
  cbn [fst snd] in *. apply String.eqb_neq in Ho.
  rewrite Hd, Ho. cbn [orb]. cbv zeta.
  rewrite orders_at_ensure_date, Hnew.
  assert (Hdisk1 : Tk.disk_sound w1 = true).
  { now rewrite (disk_sound_side Hside). }
  match type of Hsettled with
  | Tk.settled _ ?j = true =>
      destruct (@saved_and_reloaded _ _ _ DATA_FILE EXCEL_DIR today j j w1
                  Hdisk1 Hsettled Hback)
        as (w2 & w4 & Hsave & Hload & Hupdate & _ & Hsaves & Hfile & Hsound)
  end.
  rewrite Hsave, Hload, Hupdate. exists w4.
  split; [reflexivity|]. split; [|now split].
  unfold Tk.data_side in Hside. injection Hside as _ _ _ _ _ Hn.
  now rewrite <- Hn.
Qed.
End AddOrderFacts.




(** ** The life countdown *)

Lemma progress_bounds (ideal_age_years remaining_days : Z) :
  (0 <= progress ideal_age_years remaining_days
   /\ progress ideal_age_years remaining_days <= 1)%Q.
Proof.
  unfold progress. split.
  - apply Q.min_glb; [apply Q.le_max_r|discriminate].
  - apply Q.le_min_r.
Qed.

Lemma fallback_bounds :
  (0 <= progress_value fallback /\ progress_value fallback <= 1)%Q.
Proof. split; discriminate. Qed.

(** What a run of [compute_life_ui] that meets no error returns: [r] is
    computed from the baseline held by the settings [ls], and [ls] is
    what the document holds afterwards when it has life settings. *)
Section LifeFacts.
Context `{JsonCodec} `{Calendar} `{Builtins}.
Variable DATA_FILE : string.

Lemma Tk_compute_life_ui_body_ok (today : Z) (data data' : json)
    (w w' : Tk.world) (r : life_ui) :
  Tk.compute_life_ui_body DATA_FILE today data w = ((data', w'), Ok r) ->
  exists d ls b bd,
    data = JDict d
    /\ (dmem "life_settings" d = true ->
        exists d', data' = JDict d'
                   /\ dget "life_settings" d' = Some (JDict ls))
    /\ py_int (dget_default "remain_base_days" (JI 0) ls) = Ok b
    /\ base_date_of today
         (dget_default "remain_base_date" (JS (date_isoformat today)) ls)
       = Ok bd
    /\ days_text r = days_label (Z.max (b - Z.max (today - bd) 0) 0)
    /\ (0 <= progress_value r /\ progress_value r <= 1)%Q.
Proof.
  unfold Tk.compute_life_ui_body.
  destruct data as [v|l|d]; simpl; try discriminate.
  destruct (as_dict (dget_default "life_settings" (JDict []) d))
    as [ls|e] eqn:Hls; simpl; [|discriminate].
  destruct (py_int (dget_default "current_age" (JI 36) ls))
    as [age|e]; simpl; [|discriminate].
  destruct (py_int (dget_default "ideal_age" (JI 70) ls))
    as [ideal|e]; simpl; [|discriminate].
  set (fresh := negb (dmem "remain_base_days" ls)
                || negb (dmem "remain_base_date" ls)).
  set (ls' := if fresh then _ else ls).
  set (doc := if fresh && dmem "life_settings" d then _ else JDict d).
  destruct (if fresh then Tk.save_data DATA_FILE doc w else (w, Ok tt))
    as [w2 [[]|e]]; [|discriminate].
  destruct (base_date_of today _) as [bd|e] eqn:Hbd; simpl; [|discriminate].
  destruct (py_int (dget_default "remain_base_days" (JI 0) ls'))
    as [b|e] eqn:Hb; simpl; [|discriminate].
  destruct (stage age) as [icon text].
  intros [= <- <- <-].
  exists d, ls', b, bd. repeat split; try assumption.
  - intros Hmem. unfold doc. rewrite Hmem, andb_true_r.
    destruct fresh eqn:Hfresh.
    + eexists. split; [reflexivity|]. apply dget_dset_eq.
    + exists d. split; [reflexivity|]. unfold ls'.
      unfold dmem in Hmem. unfold dget_default in Hls.
      destruct (dget "life_settings" d) as [[v|l|x]|]; try discriminate.
      simpl in Hls. now injection Hls as ->.
  - apply progress_bounds.
  - apply progress_bounds.
Qed.

Lemma Qt_compute_life_ui_body_ok (save_raises : option exn) (today : Z)
    (data data' : json) (r : life_ui) :
  Qt.compute_life_ui_body save_raises today data = (data', Ok r) ->
  exists d ls b bd,
    data = JDict d
    /\ (dmem "life_settings" d = true ->
        exists d', data' = JDict d'
                   /\ dget "life_settings" d' = Some (JDict ls))
    /\ py_int (dget_default "remain_base_days" (JI 0) ls) = Ok b
    /\ base_date_of today
         (dget_default "remain_base_date" (JS (date_isoformat today)) ls)
       = Ok bd
    /\ days_text r = days_label (Z.max (b - Z.max (today - bd) 0) 0)
    /\ (0 <= progress_value r /\ progress_value r <= 1)%Q.
Proof.
  unfold Qt.compute_life_ui_body.
  destruct data as [v|l|d]; simpl; try discriminate.
  destruct (as_dict (dget_default "life_settings" (JDict []) d))
    as [ls|e] eqn:Hls; simpl; [|discriminate].
  destruct (py_int (dget_default "ideal_age" (JI 80) ls))
    as [ideal|e]; simpl; [|discriminate].
  destruct (Qt.current_age today ls) as [age|e]; simpl; [|discriminate].
  set (fresh := negb (dmem "remain_base_days" ls)
                || negb (dmem "remain_base_date" ls)).
  set (ls' := if fresh then _ else ls).
  set (doc := if fresh && dmem "life_settings" d then _ else JDict d).
  destruct (if fresh then save_raises else None) as [e|]; [discriminate|].
  destruct (base_date_of today _) as [bd|e] eqn:Hbd; simpl; [|discriminate].
  destruct (py_int (dget_default "remain_base_days" (JI 0) ls'))
    as [b|e] eqn:Hb; simpl; [|discriminate].
  destruct (stage age) as [icon text].
  intros [= <- <-].
  exists d, ls', b, bd. repeat split; try assumption.
  - intros Hmem. unfold doc. rewrite Hmem, andb_true_r.
    destruct fresh eqn:Hfresh.
    + eexists. split; [reflexivity|]. apply dget_dset_eq.
    + exists d. split; [reflexivity|]. unfold ls'.
      unfold dmem in Hmem. unfold dget_default in Hls.
      destruct (dget "life_settings" d) as [[v|l|x]|]; try discriminate.
      simpl in Hls. now injection Hls as ->.
  - apply progress_bounds.
  - apply progress_bounds.
Qed.

(** The try body raises on each of the errors below, and with it
    [compute_life_ui] returns the tuple of the handler. *)
Lemma Tk_compute_life_ui_raises (today : Z) (data : json) (w : Tk.world)
    (e : exn) (st : json * Tk.world) :
  Tk.compute_life_ui_body DATA_FILE today data w = (st, Raise e) ->
  Tk.compute_life_ui DATA_FILE today data w
  = ((fst st,
      Tk.logging Tk.ERROR ("Failed to compute life UI: " ++ exn_msg e)
        (snd st)),
     Ok fallback).
Proof.
  intros Hbody. unfold Tk.compute_life_ui. rewrite Hbody. simpl.
  now rewrite isinstance_Exception.
Qed.

Lemma Tk_compute_life_ui_errors (today : Z) (d ls : dict json)
    (w : Tk.world) :
  dget_default "life_settings" (JDict []) d = JDict ls ->
  (exists e, py_int (dget_default "current_age" (JI 36) ls) = Raise e)
  \/ (exists e, py_int (dget_default "ideal_age" (JI 70) ls) = Raise e)
  \/ (dmem "remain_base_days" ls = true
      /\ dmem "remain_base_date" ls = true
      /\ ((exists e,
             base_date_of today
               (dget_default "remain_base_date" (JS (date_isoformat today))
                  ls) = Raise e)
          \/ exists e,
               py_int (dget_default "remain_base_days" (JI 0) ls)
               = Raise e))
  \/ ((dmem "remain_base_days" ls = false
       \/ dmem "remain_base_date" ls = false)
      /\ forall j, exists e, snd (Tk.save_data DATA_FILE j w) = Raise e) ->
  snd (Tk.compute_life_ui DATA_FILE today (JDict d) w) = Ok fallback.
Proof.
  intros Hls Herr.
  destruct (Tk.compute_life_ui_body DATA_FILE today (JDict d) w)
    as [st [r|e]] eqn:Hbody.
  2:{ now rewrite (Tk_compute_life_ui_raises _ _ _ Hbody). }
  exfalso. revert Hbody. unfold Tk.compute_life_ui_body.
  cbn [as_dict bind]. rewrite Hls. cbn [as_dict bind].
  destruct (py_int (dget_default "current_age" (JI 36) ls))
    as [age|e1] eqn:Hage; cbn [bind]; [|discriminate].
  destruct (py_int (dget_default "ideal_age" (JI 70) ls))
    as [ideal|e2] eqn:Hideal; cbn [bind]; [|discriminate].
  destruct Herr as [(e & He)|[(e & He)|[(Hdays & Hdate & Hbad)|(Hmiss & Hsave)]]];
    try discriminate.
  - rewrite Hdays, Hdate. cbn [negb orb andb].
    destruct Hbad as [(e & He)|(e & He)].
    + rewrite He. cbn [bind]. discriminate.
    + rewrite He.
      destruct (base_date_of today _) as [bd|e3]; cbn [bind]; discriminate.
  - assert (Hfresh : negb (dmem "remain_base_days" ls)
                     || negb (dmem "remain_base_date" ls) = true).
    { destruct Hmiss as [-> | ->]; [reflexivity|apply orb_true_r]. }
    rewrite Hfresh.
    match goal with
    | |- context [Tk.save_data DATA_FILE ?j w] =>
        destruct (Hsave j) as (e & He);
        destruct (Tk.save_data DATA_FILE j w) as [w' r']
    end.
    simpl in He. rewrite He. discriminate.
Qed.

Lemma Qt_compute_life_ui_errors (save_raises : option exn) (today : Z)
    (d ls : dict json) :
  dget_default "life_settings" (JDict []) d = JDict ls ->
  (exists e, py_int (dget_default "ideal_age" (JI 80) ls) = Raise e)
  \/ (exists e, Qt.current_age today ls = Raise e)
  \/ (dmem "remain_base_days" ls = true
      /\ dmem "remain_base_date" ls = true
      /\ ((exists e,
             base_date_of today
               (dget_default "remain_base_date" (JS (date_isoformat today))
                  ls) = Raise e)
          \/ exists e,
               py_int (dget_default "remain_base_days" (JI 0) ls)
               = Raise e))
  \/ ((dmem "remain_base_days" ls = false
       \/ dmem "remain_base_date" ls = false)
      /\ exists e, save_raises = Some e) ->
  snd (Qt.compute_life_ui save_raises today (JDict d)) = Ok fallback.
Proof.
  intros Hls Herr. unfold Qt.compute_life_ui.
  destruct (Qt.compute_life_ui_body save_raises today (JDict d))
    as [st [r|e]] eqn:Hbody.
  2:{ simpl. now rewrite isinstance_Exception. }
  exfalso. revert Hbody. unfold Qt.compute_life_ui_body.
  cbn [as_dict bind]. rewrite Hls. cbn [as_dict bind].
  destruct (py_int (dget_default "ideal_age" (JI 80) ls))
    as [ideal|e2] eqn:Hideal; cbn [bind]; [|discriminate].
  destruct (Qt.current_age today ls) as [age|e1] eqn:Hage; cbn [bind];
    [|discriminate].
  destruct Herr as [(e & He)|[(e & He)|[(Hdays & Hdate & Hbad)|(Hmiss & e & Hsave)]]];
    try discriminate.
  - rewrite Hdays, Hdate. cbn [negb orb andb].
    destruct Hbad as [(e & He)|(e & He)].
    + rewrite He. cbn [bind]. discriminate.
    + rewrite He.
      destruct (base_date_of today _) as [bd|e3]; cbn [bind]; discriminate.
  - assert (Hfresh : negb (dmem "remain_base_days" ls)
                     || negb (dmem "remain_base_date" ls) = true).
    { destruct Hmiss as [-> | ->]; [reflexivity|apply orb_true_r]. }
    rewrite Hfresh, Hsave. discriminate.
Qed.

(** The countdown on a document whose life settings hold a baseline. *)
Lemma Qt_compute_life_ui_settled (save_raises : option exn) (today : Z)
    (d ls : dict json) (ia birthday base base_date : Z) (b s : string) :
  dget "life_settings" d = Some (JDict ls) ->
  dget "ideal_age" ls = Some (JI ia) -> 0 < ia ->
  dget "birthday" ls = Some (JS b) -> date_fromisoformat b = Some birthday ->
  dget "remain_base_days" ls = Some (JI base) ->
  dget "remain_base_date" ls = Some (JS s) ->
  date_fromisoformat s = Some base_date ->
  Qt.compute_life_ui save_raises today (JDict d)
  = (JDict d,
     Ok (let rem := remaining base (today - base_date) in
         let age := Qt.age_on today birthday in
         LifeUi (progress ia rem) (fst (stage age)) (snd (stage age))
                (days_label rem))).
Proof.
  intros Hls Hia Hpos Hb Hbd Hbase Hs Hsd.
  assert (Hget : forall (q : dict json) k v dflt,
            dget k q = Some v -> dget_default k dflt q = v).
  { intros q k v dflt Hq. unfold dget_default. now rewrite Hq. }
  assert (Hne : truthy_json (JS b) = true).
  { simpl. destruct (String.eqb b "") eqn:E; [|reflexivity].
    apply String.eqb_eq in E. subst b.
    rewrite date_fromisoformat_empty in Hbd. discriminate. }
  assert (Hle : (ia <=? 0) = false) by (apply Z.leb_gt; lia).
  unfold Qt.compute_life_ui, Qt.compute_life_ui_body, Qt.current_age, dmem.
  cbn [as_dict bind].
  rewrite (Hget _ _ _ _ Hls). cbn [as_dict bind].
  rewrite (Hget _ _ _ _ Hia), !(Hget _ _ _ _ Hb), Hne.
  unfold JS, JI. cbn [py_int bind]. rewrite Hbd. cbn [bind].
  rewrite Hbase, Hs, Hle. cbn [negb orb andb].
  rewrite (Hget _ _ _ _ Hbase), (Hget _ _ _ _ Hs).
  unfold JS, JI. cbn [base_date_of]. rewrite Hsd. cbn [bind py_int try].
  destruct (stage (Qt.age_on today birthday)) as [icon text]. reflexivity.
Qed.

Lemma Tk_compute_life_ui_settled (today : Z)
    (d ls : dict json) (ca ia base base_date : Z) (s : string) (w : Tk.world) :
  dget "life_settings" d = Some (JDict ls) ->
  dget "current_age" ls = Some (JI ca) ->
  dget "ideal_age" ls = Some (JI ia) -> 0 < ia ->
  dget "remain_base_days" ls = Some (JI base) ->
  dget "remain_base_date" ls = Some (JS s) ->
  date_fromisoformat s = Some base_date ->
  Tk.compute_life_ui DATA_FILE today (JDict d) w
  = ((JDict d, w),
     Ok (let rem := remaining base (today - base_date) in
         LifeUi (progress ia rem) (fst (stage ca)) (snd (stage ca))
                (days_label rem))).
Proof.
  intros Hls Hca Hia Hpos Hbase Hs Hsd.
  assert (Hget : forall (q : dict json) k v dflt,
            dget k q = Some v -> dget_default k dflt q = v).
  { intros q k v dflt Hq. unfold dget_default. now rewrite Hq. }
  assert (Hle : (ia <=? 0) = false) by (apply Z.leb_gt; lia).
  unfold Tk.compute_life_ui, Tk.compute_life_ui_body, dmem.
  cbn [as_dict bind].
  rewrite (Hget _ _ _ _ Hls). cbn [as_dict bind].
  rewrite (Hget _ _ _ _ Hca), (Hget _ _ _ _ Hia).
  unfold JS, JI. cbn [py_int bind].
  rewrite Hbase, Hs, Hle. cbn [negb orb andb].
  rewrite (Hget _ _ _ _ Hbase), (Hget _ _ _ _ Hs).
  unfold JS, JI. cbn [base_date_of]. rewrite Hsd. cbn [bind py_int try].
  destruct (stage ca) as [icon text]. reflexivity.
Qed.
End LifeFacts.

(** C9, as amended. In both programs [compute_life_ui] returns, for every
    document, a tuple whose progress value lies in the interval from 0 to
    1. When no error occurs inside, that is when the body of the [try]
    returns, the tuple is the one the body returns, and its text shows
    the count [max(b - max(today - bd, 0), 0)], which is not negative,
    where [b] is the base count and [bd] the base date of the life
    settings the run has used and, when the document had life settings,
    stored; so it is for life settings that hold two ages, a base count
    that is a number and a base date that is an ISO date. When an error
    occurs inside, the fixed tuple is returned; so it is when an age or
    the stored base count is no number, when the stored base date is no
    string, and when the baseline is missing and [save_data] raises. *)
Theorem compute_life_ui_total_clamped `{JsonCodec} `{Calendar} `{Builtins}
    (DATA_FILE : string) (save_raises : option exn) (today : Z)
    (data : json) (w : Tk.world) :
  ((exists r,
      snd (Tk.compute_life_ui DATA_FILE today data w) = Ok r
      /\ (0 <= progress_value r /\ progress_value r <= 1)%Q)
   /\ (forall st r,
         Tk.compute_life_ui_body DATA_FILE today data w = (st, Ok r) ->
         Tk.compute_life_ui DATA_FILE today data w = (st, Ok r)
         /\ exists d ls b bd,
              data = JDict d
              /\ (dmem "life_settings" d = true ->
                  exists d',
                    fst st = JDict d'
                    /\ dget "life_settings" d' = Some (JDict ls))
              /\ py_int (dget_default "remain_base_days" (JI 0) ls) = Ok b
              /\ base_date_of today
                   (dget_default "remain_base_date"
                      (JS (date_isoformat today)) ls) = Ok bd
              /\ 0 <= Z.max (b - Z.max (today - bd) 0) 0
              /\ days_text r
                 = days_label (Z.max (b - Z.max (today - bd) 0) 0))
   /\ (forall st e,
         Tk.compute_life_ui_body DATA_FILE today data w = (st, Raise e) ->
         snd (Tk.compute_life_ui DATA_FILE today data w) = Ok fallback)
   /\ (forall d ls ca ia base base_date s,
         data = JDict d ->
         dget "life_settings" d = Some (JDict ls) ->
         dget "current_age" ls = Some (JI ca) ->
         dget "ideal_age" ls = Some (JI ia) -> 0 < ia ->
         dget "remain_base_days" ls = Some (JI base) ->
         dget "remain_base_date" ls = Some (JS s) ->
         date_fromisoformat s = Some base_date ->
         Tk.compute_life_ui DATA_FILE today data w
         = ((data, w),
            Ok (let rem := Z.max (base - Z.max (today - base_date) 0) 0 in
                LifeUi (progress ia rem) (fst (stage ca)) (snd (stage ca))
                       (days_label rem))))
   /\ (forall d ls,
         data = JDict d ->
         dget_default "life_settings" (JDict []) d = JDict ls ->
         (exists e, py_int (dget_default "current_age" (JI 36) ls) = Raise e)
         \/ (exists e, py_int (dget_default "ideal_age" (JI 70) ls) = Raise e)
         \/ (dmem "remain_base_days" ls = true
             /\ dmem "remain_base_date" ls = true
             /\ ((exists e,
                    base_date_of today
                      (dget_default "remain_base_date"
                         (JS (date_isoformat today)) ls) = Raise e)
                 \/ exists e,
                      py_int (dget_default "remain_base_days" (JI 0) ls)
                      = Raise e))
         \/ ((dmem "remain_base_days" ls = false
              \/ dmem "remain_base_date" ls = false)
             /\ forall j, exists e,
                  snd (Tk.save_data DATA_FILE j w) = Raise e) ->
         snd (Tk.compute_life_ui DATA_FILE today data w) = Ok fallback))
  /\ ((exists r,
         snd (Qt.compute_life_ui save_raises today data) = Ok r
         /\ (0 <= progress_value r /\ progress_value r <= 1)%Q)
      /\ (forall data' r,
            Qt.compute_life_ui_body save_raises today data = (data', Ok r) ->
            Qt.compute_life_ui save_raises today data = (data', Ok r)
            /\ exists d ls b bd,
                 data = JDict d
                 /\ (dmem "life_settings" d = true ->
                     exists d',
                       data' = JDict d'
                       /\ dget "life_settings" d' = Some (JDict ls))
                 /\ py_int (dget_default "remain_base_days" (JI 0) ls) = Ok b
                 /\ base_date_of today
                      (dget_default "remain_base_date"
                         (JS (date_isoformat today)) ls) = Ok bd
                 /\ 0 <= Z.max (b - Z.max (today - bd) 0) 0
                 /\ days_text r
                    = days_label (Z.max (b - Z.max (today - bd) 0) 0))
      /\ (forall data' e,
            Qt.compute_life_ui_body save_raises today data = (data', Raise e) ->
            snd (Qt.compute_life_ui save_raises today data) = Ok fallback)
      /\ (forall d ls ia birthday base base_date b s,
            data = JDict d ->
            dget "life_settings" d = Some (JDict ls) ->
            dget "ideal_age" ls = Some (JI ia) -> 0 < ia ->
            dget "birthday" ls = Some (JS b) ->
            date_fromisoformat b = Some birthday ->
            dget "remain_base_days" ls = Some (JI base) ->
            dget "remain_base_date" ls = Some (JS s) ->
            date_fromisoformat s = Some base_date ->
            Qt.compute_life_ui save_raises today data
            = (data,
               Ok (let rem := Z.max (base - Z.max (today - base_date) 0) 0 in
                   let age := Qt.age_on today birthday in
                   LifeUi (progress ia rem) (fst (stage age))
                          (snd (stage age)) (days_label rem))))
      /\ (forall d ls,
            data = JDict d ->
            dget_default "life_settings" (JDict []) d = JDict ls ->
            (exists e, py_int (dget_default "ideal_age" (JI 80) ls) = Raise e)
            \/ (exists e, Qt.current_age today ls = Raise e)
            \/ (dmem "remain_base_days" ls = true
                /\ dmem "remain_base_date" ls = true
                /\ ((exists e,
                       base_date_of today
                         (dget_default "remain_base_date"
                            (JS (date_isoformat today)) ls) = Raise e)
                    \/ exists e,
                         py_int (dget_default "remain_base_days" (JI 0) ls)
                         = Raise e))
            \/ ((dmem "remain_base_days" ls = false
                 \/ dmem "remain_base_date" ls = false)
                /\ exists e, save_raises = Some e) ->
            snd (Qt.compute_life_ui save_raises today data) = Ok fallback)).
Proof.
  split.
  - split; [|split; [|split; [|split]]].
    + unfold Tk.compute_life_ui.
      destruct (Tk.compute_life_ui_body DATA_FILE today data w)
        as [[data' w'] [r|e]] eqn:Hbody; simpl.
      * destruct (Tk_compute_life_ui_body_ok _ _ _ _ Hbody)
          as (d & ls & b & bd & _ & _ & _ & _ & _ & Hq).
        exists r. now split.
      * rewrite isinstance_Exception. exists fallback. simpl.
        split; [reflexivity|apply fallback_bounds].
    + intros [data' w'] r Hbody. split.
      * unfold Tk.compute_life_ui. now rewrite Hbody.
      * destruct (Tk_compute_life_ui_body_ok _ _ _ _ Hbody)
          as (d & ls & b & bd & Hd & Hstored & Hb & Hbd & Htext & Hq).
        exists d, ls, b, bd. repeat split; try assumption. lia.
    + intros st e Hbody.
      now rewrite (Tk_compute_life_ui_raises _ _ _ _ Hbody).
    + intros d ls ca ia base base_date s -> Hls Hca Hia Hpos Hbase Hs Hsd.
      now apply Tk_compute_life_ui_settled with (ls := ls) (s := s).
    + intros d ls -> Hls Herr.
      now apply Tk_compute_life_ui_errors with (ls := ls).
  - split; [|split; [|split; [|split]]].
    + unfold Qt.compute_life_ui.
      destruct (Qt.compute_life_ui_body save_raises today data)
        as [data' [r|e]] eqn:Hbody; simpl.
      * destruct (Qt_compute_life_ui_body_ok _ _ _ Hbody)
          as (d & ls & b & bd & _ & _ & _ & _ & _ & Hq).
        exists r. now split.
      * rewrite isinstance_Exception. exists fallback. simpl.
        split; [reflexivity|apply fallback_bounds].
    + intros data' r Hbody. split.
      * unfold Qt.compute_life_ui. now rewrite Hbody.
      * destruct (Qt_compute_life_ui_body_ok _ _ _ Hbody)
          as (d & ls & b & bd & Hd & Hstored & Hb & Hbd & Htext & Hq).
        exists d, ls, b, bd. repeat split; try assumption. lia.
    + intros data' e Hbody. unfold Qt.compute_life_ui. rewrite Hbody. simpl.
      now rewrite isinstance_Exception.
    + intros d ls ia birthday base base_date b s -> Hls Hia Hpos Hb Hbd
        Hbase Hs Hsd.
      now apply Qt_compute_life_ui_settled with (ls := ls) (b := b) (s := s).
    + intros d ls -> Hls Herr.
      now apply Qt_compute_life_ui_errors with (ls := ls).
Qed.


(** C9, the runs that refute the claim as it stands. In the first the
    document stores a base count of 100 days as of today and an age that
    is no number: [int(None)] raises, the tuple of the [except] branch is
    returned and its text shows 20,075 days, not 100. In the second the
    base date is tomorrow: the days elapsed are counted as none, and the
    text shows 100 days, not the 101 that subtracting the difference of
    the dates gives. *)
Lemma compute_life_ui_count_differs :
  ~ (exists r,
       snd (Tk.compute_life_ui (H := Concrete.codec)
              (H0 := IsoCalendar.calendar) (H1 := Concrete.builtins)
              "data.json" Samples.today Samples.damaged_settings
              Samples.blank) = Ok r
       /\ days_text r = days_label (Z.max (100 - (Samples.today - 739252)) 0))
  /\ ~ (exists r,
          snd (Tk.compute_life_ui (H := Concrete.codec)
                 (H0 := IsoCalendar.calendar) (H1 := Concrete.builtins)
                 "data.json" Samples.today Samples.early_settings
                 Samples.blank) = Ok r
          /\ days_text r
             = days_label (Z.max (100 - (Samples.today - 739253)) 0)).
Proof.
  split; intros (r & Hrun & Htext); vm_compute in Hrun;
    injection Hrun as <-; vm_compute in Htext; discriminate.
Qed.

(** ** The trial period *)

Section TrialFacts.
Context `{JsonCodec} `{Calendar}.




End TrialFacts.


(** ** Lists by position, and dictionaries of lists *)

Section SeqFacts.
Variable A : Type.
Implicit Types (l : list A) (i : nat).

Lemma length_lset i (x : A) l : List.length (lset i x l) = List.length l.
Proof.
  revert i. induction l as [|y l IH]; intros [|i]; simpl; auto.
Qed.

Lemma nth_error_lset i j (x : A) l :
  (i < List.length l)%nat ->
  nth_error (lset i x l) j = if Nat.eqb j i then Some x else nth_error l j.
Proof.
  revert i j. induction l as [|y l IH]; intros [|i] [|j] Hi; simpl in *;
    try lia; auto.
  apply IH. lia.
Qed.

Lemma map_lset (B : Type) (f : A -> B) i (x y : A) l :
  nth_error l i = Some y -> f x = f y -> map f (lset i x l) = map f l.
Proof.
  revert i. induction l as [|z l IH]; intros [|i]; simpl; try discriminate.
  - intros [= ->] ->. reflexivity.
  - intros Hn Hf. now rewrite (IH i Hn Hf).
Qed.


Lemma lpop_app_last l (x : A) : lpop (List.length l) (l ++ [x]) = l.
Proof. induction l as [|y l IH]; simpl; [reflexivity|now rewrite IH]. Qed.

Lemma nth_error_lpop i j l :
  nth_error (lpop i l) j
  = if Nat.ltb j i then nth_error l j else nth_error l (S j).
Proof.
  revert i j. induction l as [|y l IH]; intros i j.
  - destruct (Nat.ltb j i); destruct i, j; reflexivity.
  - destruct i as [|i], j as [|j]; simpl; try reflexivity.
    rewrite IH. reflexivity.
Qed.

End SeqFacts.

Section ListsOfDates.
Implicit Types (p : orders) (k : string) (l : list entry).

Lemma orders_at_dset p k k' l :
  orders_at (Some (dset k l p)) k'
  = if String.eqb k' k then l else orders_at (Some p) k'.
Proof.
  unfold orders_at, dget_default. rewrite dget_dset.
  now destruct (String.eqb k' k).
Qed.

Lemma orders_at_ddel p k k' :
  dict_wf p ->
  orders_at (Some (ddel k p)) k'
  = if String.eqb k' k then [] else orders_at (Some p) k'.
Proof.
  intros Hwf. unfold orders_at, dget_default.
  destruct (String.eqb k' k) eqn:E.
  - apply String.eqb_eq in E. subst. now rewrite dget_ddel_eq.
  - apply String.eqb_neq in E. now rewrite dget_ddel_ne.
Qed.

Lemma count_dset p k l :
  dmem k p = true ->
  (count_orders (Some (dset k l p)) + List.length (dget_default k [] p)
   = count_orders (Some p) + List.length l)%nat.
Proof.
  unfold dmem, dget_default, count_orders.
  induction p as [|[k0 l0] p IH]; simpl; [discriminate|].
  destruct (String.eqb k k0); simpl; [lia|].
  intros Hm. specialize (IH Hm). lia.
Qed.


End ListsOfDates.
(** ** The control panel of the PyQt6 program *)

Section PanelFacts.
Import ControlPanelDialog.

(** The search in one list: the first position that carries the number. *)
Lemma find_in_list_spec (order_num : string) (orders : list entry) (i0 : nat) :
  match find_in_list order_num orders i0 with
  | Some (i, order) =>
      (i0 <= i)%nat
      /\ nth_error orders (i - i0) = Some order
      /\ py_eq (get_order_number order) (VStr order_num) = true
      /\ numbered order_num (firstn (i - i0) orders) = false
  | None => numbered order_num orders = false
  end.
Proof.
  revert i0. induction orders as [|o rest IH]; intros i0; simpl; [reflexivity|].
  destruct (py_eq (get_order_number o) (VStr order_num)) eqn:Ho.
  - rewrite Nat.sub_diag. simpl. auto.
  - specialize (IH (S i0)).
    destruct (find_in_list order_num rest (S i0)) as [[i order]|].
    + destruct IH as (Hle & Hnth & Heq & Hbefore).
      assert (Hi : (i - i0 = S (i - S i0))%nat) by lia.
      rewrite Hi. simpl. rewrite Ho. simpl. repeat split; auto; lia.
    + simpl. exact IH.
Qed.

Lemma find_in_list_found (order_num : string) (orders : list entry) :
  numbered order_num orders = true ->
  exists i order, find_in_list order_num orders 0 = Some (i, order).
Proof.
  intros Hn. pose proof (find_in_list_spec order_num orders 0) as Hs.
  destruct (find_in_list order_num orders 0) as [[i order]|]; [eauto|].
  congruence.
Qed.

(** The search over the dates: the first date, in the order of the
    dictionary, one of whose orders carries the number. *)
Lemma find_in_dates_spec (order_num : string) (p : orders) :
  dict_wf p ->
  match find_in_dates order_num p with
  | Some (date_key, i, order) =>
      nth_error (dget_default date_key [] p) i = Some order
      /\ py_eq (get_order_number order) (VStr order_num) = true
      /\ numbered order_num (firstn i (dget_default date_key [] p)) = false
      /\ dmem date_key p = true
      /\ exists earlier later,
           p = earlier ++ (date_key, dget_default date_key [] p) :: later
           /\ forall k0 l0, In (k0, l0) earlier ->
                            numbered order_num l0 = false
  | None => forall k, numbered order_num (dget_default k [] p) = false
  end.
Proof.
  unfold dict_wf. induction p as [|[k0 l0] rest IH]; intros Hwf; simpl.
  - intros k. reflexivity.
  - inversion Hwf as [|? ? Hfresh Hwf']; subst.
    pose proof (find_in_list_spec order_num l0 0) as Hl.
    destruct (find_in_list order_num l0 0) as [[i order]|].
    + rewrite Nat.sub_0_r in Hl. destruct Hl as (_ & Hnth & Heq & Hbefore).
      unfold dget_default, dmem. simpl. rewrite String.eqb_refl.
      do 4 (split; [auto|]). exists [], rest. split; [reflexivity|].
      intros k1 l1 [].
    + specialize (IH Hwf').
      destruct (find_in_dates order_num rest) as [[[date_key i] order]|].
      * destruct IH as (Hnth & Heq & Hbefore & Hmem & earlier & later & Hp & He).
        assert (Hne : String.eqb date_key k0 = false).
        { apply String.eqb_neq. intros ->. unfold dmem in Hmem.
          apply (dget_None_keys rest k0) in Hfresh. now rewrite Hfresh in Hmem. }
        unfold dget_default, dmem in *. simpl. rewrite Hne.
        do 4 (split; [auto|]). exists ((k0, l0) :: earlier), later.
        split; [simpl; now rewrite <- Hp|].
        intros k1 l1 [[= <- <-]|Hin]; [exact Hl|now apply (He k1)].
      * intros k. unfold dget_default in *. simpl.
        destruct (String.eqb k k0); [exact Hl|apply IH].
Qed.

(** The binding of a key splits the dictionary at its first occurrence. *)
Lemma dget_split (V : Type) (k : string) (v : V) (q : dict V) :
  dget k q = Some v ->
  exists earlier later,
    q = earlier ++ (k, v) :: later /\ forall v0, ~ In (k, v0) earlier.
Proof.
  induction q as [|[k0 v0] rest IH]; simpl; [discriminate|].
  destruct (String.eqb k k0) eqn:E.
  - apply String.eqb_eq in E. subst k0. intros [= ->].
    exists [], rest. split; [reflexivity|]. intros v1 [].
  - intros Hget. destruct (IH Hget) as (earlier & later & -> & Hno).
    exists ((k0, v0) :: earlier), later. split; [reflexivity|].
    intros v1 [[= -> _]|Hin]; [now rewrite String.eqb_refl in E|].
    now apply (Hno v1).
Qed.

End PanelFacts.

(** X1. [find_order_in_data], over pre-shipping orders with distinct
    dates. The dates in scope are all of them, or the one date passed
    when it is not empty and the orders have it. When the method finds
    an order, the order sits at the position returned under the date
    returned, the date is in scope, the order carries the number, no
    order before it in that list does, and no order of a date in scope
    that comes before that date in the dictionary does: it is the first
    in the order of the dates. When it finds none, no order of any date
    in scope carries the number: with a date passed, an order that
    carries the number under another date is not looked for. *)
Theorem find_order_in_data_first (order_num : string)
    (date_str : option string) (d : data) :
  (forall p, pre_shipping_orders d = Some p -> dict_wf p) ->
  let in_scope k :=
    forall s, date_str = Some s -> s <> "" ->
              dmem s (match pre_shipping_orders d with
                      | Some p => p | None => [] end) = true ->
              k = s in
  match ControlPanelDialog.find_order_in_data order_num date_str d with
  | Some (date_key, i, order) =>
      nth_error (orders_at (pre_shipping_orders d) date_key) i = Some order
      /\ in_scope date_key
      /\ py_eq (ControlPanelDialog.get_order_number order) (VStr order_num)
         = true
      /\ ControlPanelDialog.numbered order_num
           (firstn i (orders_at (pre_shipping_orders d) date_key)) = false
      /\ exists earlier later,
           pre_shipping_orders d
           = Some (earlier
                   ++ (date_key, orders_at (pre_shipping_orders d) date_key)
                      :: later)
           /\ forall k0 l0, In (k0, l0) earlier -> in_scope k0 ->
                            ControlPanelDialog.numbered order_num l0 = false
  | None =>
      forall k, in_scope k ->
        ControlPanelDialog.numbered order_num
          (orders_at (pre_shipping_orders d) k) = false
  end.
Proof.
  intros Hwf in_scope. unfold ControlPanelDialog.find_order_in_data.
  subst in_scope. unfold orders_at.
  destruct (pre_shipping_orders d) as [p|].
  2:{ destruct date_str as [s|]; simpl; [|reflexivity].
      rewrite andb_false_r. reflexivity. }
  specialize (Hwf p eq_refl).
  set (in_scope := fun k : string =>
         forall s, date_str = Some s -> s <> "" -> dmem s p = true -> k = s).
  assert (Hall : (forall k, in_scope k) ->
    match ControlPanelDialog.find_in_dates order_num p with
    | Some (date_key, i, order) =>
        nth_error (dget_default date_key [] p) i = Some order
        /\ in_scope date_key
        /\ py_eq (ControlPanelDialog.get_order_number order) (VStr order_num)
           = true
        /\ ControlPanelDialog.numbered order_num
             (firstn i (dget_default date_key [] p)) = false
        /\ exists earlier later,
             Some p
             = Some (earlier ++ (date_key, dget_default date_key [] p) :: later)
             /\ forall k0 l0, In (k0, l0) earlier -> in_scope k0 ->
                              ControlPanelDialog.numbered order_num l0 = false
    | None =>
        forall k, in_scope k ->
          ControlPanelDialog.numbered order_num (dget_default k [] p) = false
    end).
  { intros Hscope. pose proof (find_in_dates_spec order_num Hwf) as Hs.
    destruct (ControlPanelDialog.find_in_dates order_num p)
      as [[[date_key i] order]|].
    - destruct Hs as (Hnth & Heq & Hbefore & _ & earlier & later & Hp & He).
      do 4 (split; [auto|]). exists earlier, later.
      split; [now rewrite <- Hp|]. intros k0 l0 Hin _. now apply (He k0).
    - intros k _. apply Hs. }
  destruct date_str as [s|]; cbn [negb andb].
  2:{ apply Hall. intros k s Hs. discriminate. }
  destruct (String.eqb s "") eqn:Hempty; cbn [negb andb].
  { apply Hall. intros k s' Hs' Hne. injection Hs' as <-.
    apply String.eqb_eq in Hempty. contradiction. }
  destruct (dmem s p) eqn:Hmem.
  2:{ apply Hall. intros k s' Hs' _ Hm. injection Hs' as <-. congruence. }
  pose proof (find_in_list_spec order_num (dget_default s [] p) 0) as Hl.
  destruct (ControlPanelDialog.find_in_list order_num (dget_default s [] p) 0)
    as [[i order]|].
  - rewrite Nat.sub_0_r in Hl. destruct Hl as (_ & Hnth & Heq & Hbefore).
    split; [exact Hnth|]. split.
    { intros s' Hs' _ _. now injection Hs' as <-. }
    split; [exact Heq|]. split; [exact Hbefore|].
    assert (Hget : dget s p = Some (dget_default s [] p)).
    { unfold dget_default, dmem in *. now destruct (dget s p). }
    destruct (dget_split _ _ Hget) as (earlier & later & Hp & Hno).
    exists earlier, later. split; [now rewrite <- Hp|].
    intros k0 l0 Hin Hk0. exfalso. apply (Hno l0).
    rewrite <- (Hk0 s eq_refl); [exact Hin| |exact Hmem].
    apply String.eqb_neq. exact Hempty.
  - intros k Hk.
    rewrite (Hk s eq_refl); [exact Hl| |exact Hmem].
    apply String.eqb_neq. exact Hempty.
Qed.

(** On the sample document the order A3 is looked for under the second
    of January, which has orders: none of them carries the number, and
    the A3 of New Year's Day is not found. *)
Lemma find_order_in_data_first_witness :
  ControlPanelDialog.find_order_in_data "A3" (Some "2025-01-02")
    Samples.pending_sync = None
  /\ ControlPanelDialog.numbered "A3"
       (orders_at (pre_shipping_orders Samples.pending_sync) "2025-01-02")
     = false
  /\ ControlPanelDialog.numbered "A3"
       (orders_at (pre_shipping_orders Samples.pending_sync) "2025-01-01")
     = true.
Proof.
  split; [reflexivity|]. split; [|reflexivity].
  assert (Hwf : forall p, pre_shipping_orders Samples.pending_sync = Some p ->
                          dict_wf p).
  { intros p Hp. injection Hp as <-. unfold dict_wf. simpl.
    repeat constructor; simpl; intuition discriminate. }
  pose proof (@find_order_in_data_first "A3" (Some "2025-01-02")
                Samples.pending_sync Hwf) as Hfind.
  cbv zeta in Hfind.
  change (ControlPanelDialog.find_order_in_data "A3" (Some "2025-01-02")
            Samples.pending_sync) with (@None (string * nat * entry)) in Hfind.
  apply Hfind. intros s Hs _ _. now injection Hs as <-.
Defined.

Section AddFacts.
Import ControlPanelDialog.

(** [setdefault] on the collection, then maybe [append]: the lists of the
    collection afterwards, and the other collection. *)
Lemma orders_at_ensured_collection (b : bool) (k k' : string) (d : data) :
  orders_at
    (get_collection b
       (set_collection b (ensure_date k (get_collection b d)) d)) k'
  = orders_at (get_collection b d) k'.
Proof.
  rewrite get_set_collection. unfold orders_at at 1.
  apply orders_at_ensure_date.
Qed.

Lemma orders_at_appended_collection (b : bool) (k k' : string) (e : entry)
    (d : data) :
  orders_at
    (get_collection b
       (set_collection b
          (append_at k e (ensure_date k (get_collection b d))) d)) k'
  = if String.eqb k' k then orders_at (get_collection b d) k ++ [e]
    else orders_at (get_collection b d) k'.
Proof.
  rewrite get_set_collection. unfold orders_at at 1.
  rewrite orders_at_append_at, !orders_at_ensure_date. reflexivity.
Qed.

(** The number of entries of a list that carry a number. *)
Lemma numbered_false_filter (n : string) (l : list entry) :
  numbered n l = false ->
  filter (fun e => py_eq (get_order_number e) (VStr n)) l = [].
Proof.
  unfold numbered. induction l as [|e l IH]; simpl; [reflexivity|].
  destruct (py_eq (get_order_number e) (VStr n)); simpl; [discriminate|].
  exact IH.
Qed.

Lemma carried_once (o n : string) (e : entry) (l : list entry) :
  get_order_number e = VStr o ->
  numbered o l = false ->
  (List.length (filter (fun x => py_eq (get_order_number x) (VStr n)) l) <= 1)%nat ->
  (List.length
     (filter (fun x => py_eq (get_order_number x) (VStr n)) (l ++ [e])) <= 1)%nat.
Proof.
  intros He Hnew Hone. rewrite filter_app, length_app. simpl. rewrite He.
  simpl. destruct (String.eqb o n) eqn:Eon; simpl; [|lia].
  apply String.eqb_eq in Eon. subst n.
  rewrite (numbered_false_filter _ _ Hnew). simpl. lia.
Qed.
End AddFacts.

(** X2. [add_pre_order] and [add_shipping_order] of the control panel.
    The order goes under ["TBD"] when that box is checked, under the date
    of the date field otherwise. When the number typed, stripped, is
    empty or an order of that date carries it already, every list of
    orders stays as it was and [save_data] is not called. Otherwise one
    record is appended to the list of that date, for a pre-shipping
    order with the status ["pending"], the other dates stay as they
    were, and [save_data] is called once. The other collection is never
    touched, and a number carried at most once under the date is still
    carried at most once there. *)
Theorem add_order_appends_once `{Builtins} (save_raises : option exn)
    (is_shipping tbd : bool)
    (date_str order_text work_order_text remark_text : string)
    (d : data) (u : ui) :
  let k := if is_shipping then date_str
           else if tbd then "TBD" else date_str in
  let o := str_strip order_text in
  let record :=
    if is_shipping
    then Rec [("order", VStr o); ("remark", VStr (str_strip remark_text))]
    else Rec [("order", VStr o);
              ("work_order", VStr (str_strip work_order_text));
              ("remark", VStr (str_strip remark_text));
              ("status", VStr "pending")] in
  let after :=
    if is_shipping
    then ControlPanelDialog.add_shipping_order save_raises date_str
           order_text remark_text d u
    else ControlPanelDialog.add_pre_order save_raises tbd date_str
           order_text work_order_text remark_text d u in
  let before := orders_at (get_collection is_shipping d) k in
  get_collection (negb is_shipping) (fst after)
  = get_collection (negb is_shipping) d
  /\ (forall k', k' <> k ->
        orders_at (get_collection is_shipping (fst after)) k'
        = orders_at (get_collection is_shipping d) k')
  /\ (if String.eqb o "" || ControlPanelDialog.numbered o before
      then orders_at (get_collection is_shipping (fst after)) k = before
           /\ save_calls (snd after) = save_calls u
      else orders_at (get_collection is_shipping (fst after)) k
           = before ++ [record]
           /\ save_calls (snd after) = S (save_calls u))
  /\ (forall n,
        (List.length
           (filter (fun e => py_eq (ControlPanelDialog.get_order_number e)
                               (VStr n)) before) <= 1)%nat ->
        (List.length
           (filter (fun e => py_eq (ControlPanelDialog.get_order_number e)
                               (VStr n))
              (orders_at (get_collection is_shipping (fst after)) k)) <= 1)%nat).
Proof.
  intros k o record after before.
  assert (Hafter : after =
    if String.eqb o "" then
      (d, show QWarning "提示" "请输入订单号" u)
    else
      let m := ensure_date k (get_collection is_shipping d) in
      if ControlPanelDialog.numbered o (dget_default k [] m) then
        (set_collection is_shipping m d,
         show QWarning "重复订单" "该订单号已存在！" u)
      else
        (set_collection is_shipping (append_at k record m) d,
         ControlPanelDialog.save_and_tell save_raises "添加失败："
           "成功" (if is_shipping then "发货订单已添加！" else "预备订单已添加！")
           u)).
  { unfold after, k, record, o. destruct is_shipping.
    - unfold ControlPanelDialog.add_shipping_order.
      destruct (String.eqb (str_strip order_text) ""); [reflexivity|].
      cbv zeta. cbn [get_collection].
      now destruct (ControlPanelDialog.numbered _ _).
    - unfold ControlPanelDialog.add_pre_order,
        ControlPanelDialog.new_pre_order.
      destruct (String.eqb (str_strip order_text) ""); [reflexivity|].
      cbv zeta. cbn [get_collection].
      now destruct (ControlPanelDialog.numbered _ _). }
  assert (Hsaved : forall failed title done,
    save_calls (ControlPanelDialog.save_and_tell save_raises failed title done u)
    = S (save_calls u)).
  { intros. unfold ControlPanelDialog.save_and_tell.
    now destruct save_raises. }
  clearbody after. subst after.
  destruct (String.eqb o "") eqn:Hblank; cbn [orb fst snd].
  { repeat split; auto. }
  cbv zeta. rewrite orders_at_ensure_date. fold before.
  destruct (ControlPanelDialog.numbered o before) eqn:Hdup; cbn [fst snd].
  - rewrite get_set_collection_other.
    split; [reflexivity|]. split.
    { intros k' _. apply orders_at_ensured_collection. }
    rewrite orders_at_ensured_collection. fold before. auto.
  - rewrite get_set_collection_other.
    split; [reflexivity|]. split.
    { intros k' Hk. rewrite orders_at_appended_collection.
      apply String.eqb_neq in Hk. now rewrite Hk. }
    rewrite orders_at_appended_collection, String.eqb_refl. fold before.
    split; [split; [reflexivity|apply Hsaved]|].
    intros n Hone. apply (carried_once (o := o)); auto.
    unfold record. now destruct is_shipping.
Qed.

(** X3. [edit_pre_order] of the control panel, over pre-shipping orders
    with distinct dates. Whatever is typed and selected, the shipping
    orders stay as they are, the number of orders stays the same, and
    every order of every date keeps its status, an order of the old
    format counting as ["pending"]. A new number that another order
    carries is refused: nothing changes and [save_data] is not called.
    Otherwise the order edited is the first one, in the order of the
    dates, that carries the old number: it becomes an object with the
    new number, work order and remark and with the status it had. *)
Theorem edit_pre_order_keeps_status `{Builtins} (save_raises : option exn)
    (selected : option (string * string))
    (order_text work_order_text remark_text : string) (d : data) (u : ui) :
  (forall p, pre_shipping_orders d = Some p -> dict_wf p) ->
  let after :=
    ControlPanelDialog.edit_pre_order save_raises selected order_text
      work_order_text remark_text d u in
  let status_of e :=
    dget_default "status" (VStr "pending")
      (ControlPanelDialog.parse_order_data e) in
  let all_pre_orders :=
    match pre_shipping_orders d with Some p => p | None => [] end in
  shipping_orders (fst after) = shipping_orders d
  /\ total_orders (fst after) = total_orders d
  /\ (forall k,
        map status_of (orders_at (pre_shipping_orders (fst after)) k)
        = map status_of (orders_at (pre_shipping_orders d) k))
  /\ (forall old date_text,
        selected = Some (old, date_text) ->
        ControlPanelDialog.taken (str_strip order_text) old all_pre_orders
        = true ->
        fst after = d /\ save_calls (snd after) = save_calls u)
  /\ (forall old date_text k i o,
        selected = Some (old, date_text) ->
        old <> "" -> old <> "暂无预备订单" -> str_strip order_text <> "" ->
        ControlPanelDialog.taken (str_strip order_text) old all_pre_orders
        = false ->
        ControlPanelDialog.find_order_in_data old None d = Some (k, i, o) ->
        nth_error (orders_at (pre_shipping_orders (fst after)) k) i
        = Some (Rec [ ("order", VStr (str_strip order_text));
                      ("work_order", VStr (str_strip work_order_text));
                      ("remark", VStr (str_strip remark_text));
                      ("status", status_of o) ])
        /\ (forall k' j, (k', j) <> (k, i) ->
              nth_error (orders_at (pre_shipping_orders (fst after)) k') j
              = nth_error (orders_at (pre_shipping_orders d) k') j)
        /\ save_calls (snd after) = S (save_calls u)).
Proof.
  intros Hwf after status_of all_pre_orders.
  set (new_record o :=
         Rec [ ("order", VStr (str_strip order_text));
               ("work_order", VStr (str_strip work_order_text));
               ("remark", VStr (str_strip remark_text));
               ("status", status_of o) ]).
  assert (Hsaved : forall failed title done,
    save_calls (ControlPanelDialog.save_and_tell save_raises failed title done u)
    = S (save_calls u)).
  { intros. unfold ControlPanelDialog.save_and_tell. now destruct save_raises. }
  assert (Hfound : forall old k i o,
    ControlPanelDialog.find_order_in_data old None d = Some (k, i, o) ->
    exists p,
      pre_shipping_orders d = Some p
      /\ nth_error (dget_default k [] p) i = Some o
      /\ dmem k p = true).
  { intros old k i o Hf.
    unfold ControlPanelDialog.find_order_in_data in Hf. cbn [negb andb] in Hf.
    destruct (pre_shipping_orders d) as [p|] eqn:Hp; [|discriminate].
    exists p. split; [reflexivity|].
    pose proof (find_in_dates_spec old (Hwf p eq_refl)) as Hs.
    rewrite Hf in Hs. tauto. }
  assert (Hrun : forall old k i o,
    ControlPanelDialog.find_order_in_data old None d = Some (k, i, o) ->
    let d' :=
      set_collection false
        (dset k (lset i (new_record o) (dget_default k [] all_pre_orders))
           all_pre_orders) d in
    shipping_orders d' = shipping_orders d
    /\ total_orders d' = total_orders d
    /\ (forall k',
          map status_of (orders_at (pre_shipping_orders d') k')
          = map status_of (orders_at (pre_shipping_orders d) k'))
    /\ nth_error (orders_at (pre_shipping_orders d') k) i = Some (new_record o)
    /\ (forall k' j, (k', j) <> (k, i) ->
          nth_error (orders_at (pre_shipping_orders d') k') j
          = nth_error (orders_at (pre_shipping_orders d) k') j)).
  { intros old k i o Hf d'.
    destruct (Hfound old k i o Hf) as (p & Hp & Hnth & Hmem).
    assert (Hi : (i < List.length (dget_default k [] p))%nat).
    { apply nth_error_Some. congruence. }
    unfold d', all_pre_orders. rewrite Hp. cbn [set_collection].
    cbn [shipping_orders pre_shipping_orders].
    split; [reflexivity|]. split; [|split; [|split]].
    - unfold total_orders. cbn [shipping_orders pre_shipping_orders].
      rewrite Hp.
      pose proof (count_dset p k
                    (lset i (new_record o) (dget_default k [] p)) Hmem) as Hc.
      rewrite length_lset in Hc. apply Nat.add_cancel_r in Hc.
      f_equal. exact Hc.
    - intros k'. rewrite orders_at_dset.
      destruct (String.eqb k' k) eqn:E; [|reflexivity].
      apply String.eqb_eq in E. subst k'.
      apply map_lset with (y := o); [exact Hnth|reflexivity].
    - rewrite orders_at_dset, String.eqb_refl, nth_error_lset by exact Hi.
      now rewrite Nat.eqb_refl.
    - intros k' j Hne. rewrite orders_at_dset.
      destruct (String.eqb k' k) eqn:E; [|reflexivity].
      apply String.eqb_eq in E. subst k'.
      rewrite nth_error_lset by exact Hi.
      destruct (Nat.eqb j i) eqn:Ej; [|reflexivity].
      apply Nat.eqb_eq in Ej. subst j. now contradiction Hne. }
  unfold after, ControlPanelDialog.edit_pre_order.
  fold all_pre_orders.
  destruct selected as [[old date_text]|]; cbn [fst snd].
  2:{ do 3 (split; [reflexivity|]). split; intros; discriminate. }
  destruct (String.eqb old "" || String.eqb old "暂无预备订单") eqn:Hvalid;
    cbn [fst snd].
  { do 3 (split; [reflexivity|]). split; [now intros|].
    intros old' dt k i o [= <- <-] Ho1 Ho2.
    apply String.eqb_neq in Ho1, Ho2. rewrite Ho1, Ho2 in Hvalid.
    discriminate. }
  destruct (String.eqb (str_strip order_text) "") eqn:Hblank; cbn [fst snd].
  { do 3 (split; [reflexivity|]). split; [now intros|].
    intros old' dt k i o _ _ _ Hne. apply String.eqb_neq in Hne. congruence. }
  destruct (ControlPanelDialog.taken (str_strip order_text) old all_pre_orders)
    eqn:Htaken; cbn [fst snd].
  { do 3 (split; [reflexivity|]). split; [now intros|].
    intros old' dt k i o [= <- <-] _ _ _ Hf. congruence. }
  destruct (ControlPanelDialog.find_order_in_data old None d)
    as [[[k i] o]|] eqn:Hf; cbn [fst snd].
  2:{ do 3 (split; [reflexivity|]). split; [now intros|].
      intros old' dt k i o [= <- <-]. congruence. }
  destruct (Hrun old k i o Hf) as (Hship & Htotal & Hstatus & Hnew & Hrest).
  split; [exact Hship|]. split; [exact Htotal|]. split; [exact Hstatus|].
  split.
  - intros old' dt [= <- <-]. congruence.
  - intros old' dt k' i' o' [= <- <-] _ _ _ _ Hf'.
    rewrite Hf in Hf'. injection Hf' as <- <- <-.
    split; [exact Hnew|]. split; [exact Hrest|apply Hsaved].
Qed.

(** On the sample document the paused order A2 of New Year's Day is
    given a new number: it stays paused. *)
Lemma edit_pre_order_keeps_status_witness :
  nth_error
    (orders_at
       (pre_shipping_orders
          (fst (ControlPanelDialog.edit_pre_order (H := Concrete.builtins)
                  None (Some ("A2", "2025-01-01")) " A2-b " "W1" "" 
                  Samples.pending_sync (Ui [] 0))))
       "2025-01-01") 1
  = Some (Rec [ ("order", VStr "A2-b"); ("work_order", VStr "W1");
                ("remark", VStr ""); ("status", VStr "paused") ]).
Proof.
  assert (Hwf : forall p, pre_shipping_orders Samples.pending_sync = Some p ->
                          dict_wf p).
  { intros p Hp. injection Hp as <-. unfold dict_wf. simpl.
    repeat constructor; simpl; intuition discriminate. }
  pose proof (@edit_pre_order_keeps_status Concrete.builtins None
                (Some ("A2", "2025-01-01")) " A2-b " "W1" ""
                Samples.pending_sync (Ui [] 0) Hwf) as Hedit.
  cbv zeta in Hedit.
  destruct Hedit as (_ & _ & _ & _ & Hedit).
  destruct (Hedit "A2" "2025-01-01" "2025-01-01" 1%nat Samples.paused_A2
              eq_refl) as (Hnew & _);
    [discriminate|discriminate|discriminate|reflexivity|reflexivity|].
  exact Hnew.
Defined.

Section DeleteFacts.
Import ControlPanelDialog.


End DeleteFacts.



Section ShippingFacts.
Import ControlPanelDialog.

Lemma dict_wf_ensure_date (c : option orders) (k : string) :
  (forall m, c = Some m -> dict_wf m) -> dict_wf (ensure_date k c).
Proof.
  intros Hwf. unfold ensure_date, dsetdefault.
  assert (Hm : dict_wf match c with Some m => m | None => [] end).
  { destruct c as [m|]; [now apply Hwf|constructor]. }
  destruct (dmem k _); [exact Hm|now apply dict_wf_dset].
Qed.

Lemma dict_wf_append_at (m : orders) (k : string) (e : entry) :
  dict_wf m -> dict_wf (append_at k e m).
Proof. intros Hwf. unfold append_at. now apply dict_wf_dset. Qed.
End ShippingFacts.

(** X5. Adding a shipping order in the control panel and deleting it
    again. Take shipping orders with distinct dates and a number that is
    not blank and that no order of the date carries. After
    [add_shipping_order] the order is the last row of the date; when
    that row is selected and the question answered with yes,
    [delete_shipping_order] gives back, under every date, the list of
    orders there was, and the pre-shipping orders are as they were. A
    row outside the list deletes nothing and [save_data] is not
    called. *)
Theorem add_then_delete_shipping_order `{Builtins}
    (save_raises save_raises' : option exn)
    (date_str order_text remark_text : string) (d : data) (u : ui) :
  (forall m, shipping_orders d = Some m -> dict_wf m) ->
  str_strip order_text <> "" ->
  ControlPanelDialog.numbered (str_strip order_text)
    (orders_at (shipping_orders d) date_str) = false ->
  let added :=
    ControlPanelDialog.add_shipping_order save_raises date_str order_text
      remark_text d u in
  let last_row :=
    Z.of_nat (List.length (orders_at (shipping_orders d) date_str)) in
  let deleted :=
    ControlPanelDialog.delete_shipping_order save_raises' (Some last_row)
      true date_str (fst added) (snd added) in
  (forall k, orders_at (shipping_orders (fst deleted)) k
             = orders_at (shipping_orders d) k)
  /\ pre_shipping_orders (fst deleted) = pre_shipping_orders d
  /\ save_calls (snd deleted) = S (S (save_calls u))
  /\ (forall row,
        row < 0 \/ last_row < row ->
        ControlPanelDialog.delete_shipping_order save_raises' (Some row)
          true date_str (fst added) (snd added) = added).
Proof.
  intros Hwf Hblank Hnew added last_row deleted.
  set (before := orders_at (shipping_orders d) date_str) in *.
  set (e := Rec [("order", VStr (str_strip order_text));
                 ("remark", VStr (str_strip remark_text))]).
  set (m := append_at date_str e (ensure_date date_str (shipping_orders d))).
  assert (Hadded : added
    = (set_collection true m d,
       ControlPanelDialog.save_and_tell save_raises "添加失败：" "成功"
         "发货订单已添加！" u)).
  { unfold added, ControlPanelDialog.add_shipping_order.
    apply String.eqb_neq in Hblank. rewrite Hblank. cbv zeta.
    rewrite orders_at_ensure_date. fold before. rewrite Hnew. reflexivity. }
  assert (Hm : forall k, orders_at (Some m) k
                         = if String.eqb k date_str then before ++ [e]
                           else orders_at (shipping_orders d) k).
  { intros k. unfold m, orders_at at 1.
    rewrite orders_at_append_at, !orders_at_ensure_date. reflexivity. }
  assert (Hwfm : dict_wf m).
  { unfold m. apply dict_wf_append_at, dict_wf_ensure_date. exact Hwf. }
  assert (Hsaved : forall r failed title done u0,
    save_calls (ControlPanelDialog.save_and_tell r failed title done u0)
    = S (save_calls u0)).
  { intros. unfold ControlPanelDialog.save_and_tell. now destruct r. }
  assert (Hlen : List.length (orders_at (Some m) date_str)
                 = S (List.length before)).
  { rewrite Hm, String.eqb_refl, length_app. simpl. lia. }
  assert (Hdel : forall row,
    ControlPanelDialog.delete_shipping_order save_raises' (Some row) true
      date_str (fst added) (snd added)
    = if (0 <=? row) && (row <? Z.of_nat (S (List.length before))) then
        (set_collection true
           (match lpop (Z.to_nat row) (before ++ [e]) with
            | [] => ddel date_str m
            | _ :: _ => dset date_str (lpop (Z.to_nat row) (before ++ [e])) m
            end) (set_collection true m d),
         ControlPanelDialog.save_and_tell save_raises' "删除失败：" "成功"
           "订单已删除！" (snd added))
      else added).
  { intros row. rewrite Hadded. cbn [fst snd].
    unfold ControlPanelDialog.delete_shipping_order. cbn [negb].
    cbn [set_collection shipping_orders pre_shipping_orders].
    rewrite Hlen. rewrite Hm, String.eqb_refl. reflexivity. }
  split; [|split; [|split]].
  - intros k. unfold deleted. rewrite Hdel. unfold last_row.
    assert (Hin : (0 <=? Z.of_nat (List.length before))
                  && (Z.of_nat (List.length before)
                      <? Z.of_nat (S (List.length before))) = true).
    { apply andb_true_iff. split; [apply Z.leb_le|apply Z.ltb_lt]; lia. }
    rewrite Hin, Nat2Z.id, lpop_app_last. cbn [fst].
    cbn [set_collection shipping_orders].
    destruct before as [|x rest] eqn:Hbefore.
    + rewrite orders_at_ddel by exact Hwfm.
      destruct (String.eqb k date_str) eqn:E.
      * apply String.eqb_eq in E. subst k. symmetry. exact Hbefore.
      * now rewrite Hm, E.
    + rewrite orders_at_dset. destruct (String.eqb k date_str) eqn:E.
      * apply String.eqb_eq in E. subst k. symmetry. exact Hbefore.
      * now rewrite Hm, E.
  - unfold deleted. rewrite Hdel.
    destruct (_ && _); [reflexivity|]. now rewrite Hadded.
  - unfold deleted. rewrite Hdel. unfold last_row.
    assert (Hin : (0 <=? Z.of_nat (List.length before))
                  && (Z.of_nat (List.length before)
                      <? Z.of_nat (S (List.length before))) = true).
    { apply andb_true_iff. split; [apply Z.leb_le|apply Z.ltb_lt]; lia. }
    rewrite Hin. cbn [snd]. rewrite Hsaved, Hadded. cbn [snd].
    now rewrite Hsaved.
  - intros row Hrow. rewrite Hdel.
    assert (Hout : (0 <=? row) && (row <? Z.of_nat (S (List.length before)))
                   = false).
    { apply andb_false_iff. unfold last_row in Hrow.
      destruct Hrow as [Hrow|Hrow]; [left; apply Z.leb_gt|right; apply Z.ltb_ge];
        lia. }
    now rewrite Hout.
Qed.

(** On an empty document: the order B1 is added under New Year's Day
    and deleted again, and the list of the day is empty as before. *)
Lemma add_then_delete_shipping_order_witness :
  let added :=
    ControlPanelDialog.add_shipping_order (H := Concrete.builtins) None
      "2025-01-01" " B1 " "" (Data None None) (Ui [] 0) in
  orders_at (shipping_orders (fst added)) "2025-01-01"
  = [Rec [("order", VStr "B1"); ("remark", VStr "")]]
  /\ orders_at
       (shipping_orders
          (fst (ControlPanelDialog.delete_shipping_order None (Some 0) true
                  "2025-01-01" (fst added) (snd added)))) "2025-01-01"
     = [].
Proof.
  intros added. split; [reflexivity|].
  assert (Hwf : forall m, shipping_orders (Data None None) = Some m ->
                          dict_wf m) by discriminate.
  assert (Hblank : str_strip (Builtins := Concrete.builtins) " B1 " <> "")
    by discriminate.
  destruct (@add_then_delete_shipping_order Concrete.builtins None None
              "2025-01-01" " B1 " "" (Data None None) (Ui [] 0) Hwf Hblank
              eq_refl) as (Hback & _).
  exact (Hback "2025-01-01").
Defined.

(** ** The automatic synchronisation, run after run *)

Section SyncSummary.
Context `{Calendar}.
Variable today : Z.

Lemma dict_wf_remove (rm : list string) (p : orders) :
  dict_wf p -> dict_wf (fold_left (fun q k' => ddel k' q) rm p).
Proof.
  revert p. induction rm as [|k rm IH]; intros p Hwf; simpl; [exact Hwf|].
  apply IH. now apply dict_wf_ddel.
Qed.

(** A run on pre-shipping orders with distinct dates whose remarks are
    text, date by date. *)
Lemma auto_sync_dates (save_raises : option exn) (d : data) (p : orders) :
  pre_shipping_orders d = Some p ->
  dict_wf p ->
  (forall k l r, In (k, l) p -> In (Rec r) l ->
                 exists rem, Qt.auto_remark (Qt.remark_of r) = Ok rem) ->
  let d' := fst (Qt.auto_sync_pre_to_shipping today save_raises d) in
  exists p',
    pre_shipping_orders d' = Some p'
    /\ dict_wf p'
    /\ forall k,
         match dget k p with
         | None =>
             dget k p' = None
             /\ orders_at (shipping_orders d') k
                = orders_at (shipping_orders d) k
         | Some l =>
             (Qt.due today k = false ->
              dget k p' = Some l
              /\ orders_at (shipping_orders d') k
                 = orders_at (shipping_orders d) k)
             /\ (Qt.due today k = true ->
                 dget k p'
                 = match filter (fun e => negb (Qt.is_done e)) l with
                   | [] => None
                   | kept => Some kept
                   end
                 /\ exists added,
                      orders_at (shipping_orders d') k
                      = orders_at (shipping_orders d) k ++ added
                      /\ (forall e, In e added ->
                            exists r rem,
                              In (Rec r) l
                              /\ Qt.order_status r = VStr Qt.ORDER_STATUS_DONE
                              /\ Qt.auto_remark (Qt.remark_of r) = Ok rem
                              /\ e = Qt.synced (Qt.order_num r) rem)
                      /\ (forall r, In (Rec r) l ->
                            Qt.order_status r = VStr Qt.ORDER_STATUS_DONE ->
                            Qt.exists_in (Qt.order_num r)
                              (orders_at (shipping_orders d) k ++ added)
                            = true))
         end.
Proof.
  intros Hpre Hwf Htag d'.
  destruct p as [|item rest].
  { exists []. unfold d', Qt.auto_sync_pre_to_shipping. rewrite Hpre.
    cbn [fst]. split; [exact Hpre|]. split; [exact Hwf|]. intros k. now simpl. }
  remember (item :: rest) as p eqn:Hp.
  destruct (@sync_loop_run _ today p (Qt.SyncState d 0 []) p Hwf Htag Hpre Hwf)
    as (st & p1 & Hloop & Hp1 & Hwf1 & Hkeys).
  assert (Hd' : d' = Qt.remove_dates (Qt.ss_remove st) (Qt.ss_data st)).
  { unfold d', Qt.auto_sync_pre_to_shipping. rewrite Hpre, Hp, <- Hp.
    rewrite Hloop. now destruct (Qt.ss_count st), save_raises. }
  exists (fold_left (fun q k' => ddel k' q) (Qt.ss_remove st) p1).
  split; [|split].
  - rewrite Hd'. unfold Qt.remove_dates. cbn. now rewrite Hp1.
  - now apply dict_wf_remove.
  - intros k. specialize (Hkeys k).
    assert (Hship : shipping_orders d' = shipping_orders (Qt.ss_data st)).
    { now rewrite Hd'. }
    rewrite Hship.
    destruct (dget_remove_dates (Qt.ss_remove st) k Hwf1) as (Hgone & Hstays).
    cbn [Qt.ss_data Qt.ss_remove] in Hkeys.
    destruct (dget k p) as [l|].
    + destruct Hkeys as (Hidle & Hsync). split.
      * intros Hdue. destruct (Hidle Hdue) as (Hg & Hs & Hr).
        rewrite Hstays by (cbn [In] in Hr; tauto). split; congruence.
      * intros Hdue. destruct (Hsync Hdue) as (Hadded & Hnone & Hsome).
        split; [|exact Hadded].
        destruct (filter (fun e => negb (Qt.is_done e)) l) as [|y kept'].
        -- destruct (Hnone eq_refl) as (_ & Hin). now apply Hgone.
        -- destruct (Hsome ltac:(discriminate)) as (Hg & Hr).
           rewrite Hstays by (cbn [In] in Hr; tauto). exact Hg.
    + destruct Hkeys as (Hg & Hs & Hr).
      rewrite Hstays by (cbn [In] in Hr; tauto). split; congruence.
Qed.

(** *** A run that finds nothing [done] *)

Lemma sync_date_nothing_done (l : list entry) (st : Qt.date_state) :
  (forall e, In e l -> Qt.is_done e = false) ->
  Qt.sync_date l st
  = (Qt.DateState (Qt.ds_shipping st) (Qt.ds_paused st ++ l) (Qt.ds_count st),
     None).
Proof.
  revert st. induction l as [|e l IH]; intros st Hnone.
  - simpl. rewrite app_nil_r. now destruct st.
  - assert (Hl : forall e', In e' l -> Qt.is_done e' = false).
    { intros e' He'. apply Hnone. now right. }
    assert (Hkeep :
      Qt.sync_date l
        (Qt.DateState (Qt.ds_shipping st) (Qt.ds_paused st ++ [e])
           (Qt.ds_count st))
      = (Qt.DateState (Qt.ds_shipping st) (Qt.ds_paused st ++ e :: l)
           (Qt.ds_count st), None)).
    { rewrite (IH _ Hl). cbn [Qt.ds_shipping Qt.ds_paused Qt.ds_count].
      now rewrite <- app_assoc. }
    pose proof (Hnone e (or_introl eq_refl)) as He.
    destruct e as [s|r]; cbn [Qt.sync_date]; [exact Hkeep|].
    destruct (py_eq (Qt.order_status r) (VStr Qt.ORDER_STATUS_PAUSED));
      [exact Hkeep|].
    simpl in He. rewrite He. cbn [negb]. exact Hkeep.
Qed.

Lemma dset_same (V : Type) (k : string) (v : V) (q : dict V) :
  dget k q = Some v -> dset k v q = q.
Proof.
  induction q as [|[k0 v0] q IH]; simpl; [discriminate|].
  destruct (String.eqb k k0).
  - now intros [= ->].
  - intros Hq. now rewrite IH.
Qed.

(** The loop over the dates, when every date that is due has orders and
    none of them is [done]: the pre-shipping orders stay as they are,
    nothing is counted or marked, and the shipping orders hold the lists
    they held. *)
Lemma sync_loop_nothing_done (items : list (string * list entry))
    (p : orders) (c : option orders) (n : nat) (rm : list string) :
  (forall k l, In (k, l) items -> dget k p = Some l) ->
  (forall k l, In (k, l) items -> Qt.due today k = true ->
               l <> [] /\ forall e, In e l -> Qt.is_done e = false) ->
  exists c',
    Qt.sync_loop today items (Qt.SyncState (Data (Some p) c) n rm)
    = (Qt.SyncState (Data (Some p) c') n rm, None)
    /\ forall k, orders_at c' k = orders_at c k.
Proof.
  revert c. induction items as [|[k0 l0] rest IH]; intros c Hin Hnone.
  - exists c. split; [reflexivity|auto].
  - assert (Hin' : forall k l, In (k, l) rest -> dget k p = Some l).
    { intros k l Hk. apply Hin. now right. }
    assert (Hnone' : forall k l, In (k, l) rest -> Qt.due today k = true ->
                       l <> [] /\ forall e, In e l -> Qt.is_done e = false).
    { intros k l Hk. apply Hnone. now right. }
    assert (Hskip : Qt.due today k0 = false ->
      exists c',
        Qt.sync_loop today rest (Qt.SyncState (Data (Some p) c) n rm)
        = (Qt.SyncState (Data (Some p) c') n rm, None)
        /\ forall k, orders_at c' k = orders_at c k).
    { intros _. now apply IH. }
    cbn [Qt.sync_loop]. pose proof (Hnone k0 l0 (or_introl eq_refl)) as Hk0.
    unfold Qt.due in Hskip, Hk0.
    destruct (String.eqb k0 "TBD"); [now apply Hskip|].
    destruct (date_fromisoformat k0) as [od|]; [|now apply Hskip].
    destruct (today <? od); [now apply Hskip|]. clear Hskip.
    destruct (Hk0 eq_refl) as (Hne & Hnot).
    destruct l0 as [|x l']; [now contradiction Hne|].
    rewrite (sync_date_nothing_done _ _ Hnot).
    cbn [Qt.ds_shipping Qt.ds_paused Qt.ds_count app Qt.ss_data Qt.ss_count
         Qt.ss_remove shipping_orders pre_shipping_orders option_map].
    rewrite (dset_same _ _ (Hin k0 (x :: l') (or_introl eq_refl))).
    set (ship := dsetdefault k0 [] match c with Some s => s | None => [] end).
    destruct (IH (Some (dset k0 (dget_default k0 [] ship) ship)) Hin' Hnone')
      as (c' & Hrun & Hsame).
    exists c'. split; [exact Hrun|].
    intros k. rewrite Hsame. unfold ship.
    rewrite orders_at_replaced. rewrite orders_at_ensured.
    destruct (String.eqb k k0) eqn:E; [|reflexivity].
    apply String.eqb_eq in E. now subst.
Qed.
End SyncSummary.

(** X6. [auto_sync_pre_to_shipping] run twice, on pre-shipping orders
    with distinct dates whose remarks are text. The second run moves
    nothing: it returns 0, the pre-shipping orders are those the first
    run left, and every date has the shipping orders the first run
    left. *)
Theorem auto_sync_twice `{Calendar} (today : Z)
    (save_raises save_raises' : option exn) (d : data) (p : orders) :
  pre_shipping_orders d = Some p ->
  dict_wf p ->
  (forall k l r, In (k, l) p -> In (Rec r) l ->
                 exists rem, Qt.auto_remark (Qt.remark_of r) = Ok rem) ->
  let once := fst (Qt.auto_sync_pre_to_shipping today save_raises d) in
  let twice := Qt.auto_sync_pre_to_shipping today save_raises' once in
  snd twice = 0%nat
  /\ pre_shipping_orders (fst twice) = pre_shipping_orders once
  /\ forall k, orders_at (shipping_orders (fst twice)) k
               = orders_at (shipping_orders once) k.
Proof.
  intros Hpre Hwf Htag once twice.
  destruct (@auto_sync_dates _ today save_raises d p Hpre Hwf Htag)
    as (p' & Hp' & Hwf' & Hdates).
  fold once in Hp', Hdates. clearbody once.
  assert (Hgets : forall k l, In (k, l) p' -> dget k p' = Some l).
  { clear - Hwf'. unfold dict_wf in Hwf'.
    induction p' as [|[k0 l0] q IH]; intros k l Hin; [contradiction|].
    inversion Hwf' as [|? ? Hfresh Hnd]; subst. simpl.
    destruct Hin as [[= -> ->]|Hin].
    - now rewrite String.eqb_refl.
    - destruct (String.eqb k k0) eqn:E; [|now apply IH].
      apply String.eqb_eq in E. subst k0. exfalso. apply Hfresh.
      change k with (fst (k, l)). now apply in_map. }
  (* what the first run has left under a date that is due *)
  assert (Hleft : forall k l, In (k, l) p' -> Qt.due today k = true ->
                    l <> [] /\ forall e, In e l -> Qt.is_done e = false).
  { intros k l Hin Hdue. pose proof (Hgets k l Hin) as Hget.
    specialize (Hdates k). rewrite Hget in Hdates.
    destruct (dget k p) as [l0|]; [|destruct Hdates; discriminate].
    destruct Hdates as (_ & Hsync). destruct (Hsync Hdue) as (Hkept & _).
    destruct (filter (fun e => negb (Qt.is_done e)) l0) as [|y kept] eqn:Hf;
      [discriminate|].
    injection Hkept as ->. split; [discriminate|].
    intros e He. rewrite <- Hf in He. apply filter_In in He.
    destruct He as (_ & He). now apply negb_true_iff. }
  destruct (@sync_loop_nothing_done _ today p' p' (shipping_orders once)
              0%nat [] Hgets Hleft) as (c' & Hrun & Hsame).
  assert (Honce : once = Data (Some p') (shipping_orders once)).
  { destruct once as [pre ship]. simpl in *. now rewrite Hp'. }
  assert (Htwice : twice = (Data (Some p') c', 0%nat)).
  { unfold twice, Qt.auto_sync_pre_to_shipping. rewrite Hp'.
    destruct p' as [|item rest].
    - simpl in Hrun. injection Hrun as <-. now rewrite Honce at 1.
    - remember (item :: rest) as q eqn:Hq.
      rewrite Honce at 1. rewrite Hrun.
      cbn [Qt.ss_count Qt.ss_remove Qt.ss_data].
      unfold Qt.remove_dates. reflexivity. }
  rewrite Htwice. cbn [fst snd pre_shipping_orders shipping_orders].
  split; [reflexivity|]. split; [now rewrite Hp'|exact Hsame].
Qed.

(** On the sample document the first run moves two orders and the
    second none. *)
Lemma auto_sync_twice_witness :
  snd (Qt.auto_sync_pre_to_shipping (H := IsoCalendar.calendar) Samples.today
         None Samples.pending_sync) = 2%nat
  /\ snd (Qt.auto_sync_pre_to_shipping (H := IsoCalendar.calendar)
            Samples.today None
            (fst (Qt.auto_sync_pre_to_shipping (H := IsoCalendar.calendar)
                    Samples.today None Samples.pending_sync))) = 0%nat.
Proof.
  split; [reflexivity|].
  assert (Hwf : dict_wf
                  [("TBD", [Samples.done_A1]);
                   ("2025-01-01",
                    [Samples.done_A1; Samples.paused_A2; Samples.done_A3;
                     Plain "A9"]);
                   ("2025-01-02", [Samples.done_A1]);
                   ("2024-12-31", [Samples.done_A3])]).
  { unfold dict_wf. simpl. repeat constructor; simpl; intuition discriminate. }
  assert (Htag : forall k' l' r,
            In (k', l')
              [("TBD", [Samples.done_A1]);
               ("2025-01-01",
                [Samples.done_A1; Samples.paused_A2; Samples.done_A3;
                 Plain "A9"]);
               ("2025-01-02", [Samples.done_A1]);
               ("2024-12-31", [Samples.done_A3])] ->
            In (Rec r) l' ->
            exists rem, Qt.auto_remark (Qt.remark_of r) = Ok rem).
  { intros k' l' r Hl Hr. simpl in Hl.
    repeat (destruct Hl as [Hl|Hl]; [injection Hl as <- <-|]);
      try contradiction; simpl in Hr;
      repeat (destruct Hr as [Hr|Hr]; [try discriminate;
                                       injection Hr as <-; eexists;
                                       reflexivity|]);
      contradiction. }
  exact (proj1 (@auto_sync_twice IsoCalendar.calendar Samples.today None None
                  Samples.pending_sync _ eq_refl Hwf Htag)).
Defined.

(** ** The status of a pre-shipping order, set from the main window *)

Section ToggleFacts.
Import MainWindow.









End ToggleFacts.



(** ** The life settings and the countdown *)

Section LifeSettled.
Context `{JsonCodec} `{Calendar} `{Builtins}.

(** The document after [setdefault("life_settings", {})], when the
    settings it has are an object. *)
Lemma life_settings_default (data : dict json) :
  (forall j, dget "life_settings" data = Some j -> exists ls, j = JDict ls) ->
  exists ls,
    dget_default "life_settings" (JDict [])
      (dsetdefault "life_settings" (JDict []) data) = JDict ls.
Proof.
  intros Hobj. rewrite dget_default_dsetdefault. unfold dget_default.
  destruct (dget "life_settings" data) as [j|]; [|now exists []].
  destruct (Hobj j eq_refl) as (ls & ->). now exists ls.
Qed.
End LifeSettled.

(** X8. [LifeSettingsDialog.get_data] of the PyQt6 program, followed by
    [compute_life_ui]. [ca] is the age in whole years that the birthday
    gives today. A birthday in the future, or an ideal age that is not
    above [ca], is refused with a warning and the document is returned
    as it is. Otherwise, with life settings that are an object or
    missing, no warning is shown, and on the document returned
    [compute_life_ui] counts down one day a day: [n] days later it
    shows [(ia - ca) * 365 - n] days, or zero when that is negative,
    with the stage of the age the birthday gives on that day, and it
    leaves the document as it is. *)
Theorem life_settings_count_down `{Calendar} `{Builtins}
    (save_raises : option exn) (today birthday ia : Z) (data : dict json)
    (u : ui) :
  date_fromisoformat (date_isoformat today) = Some today ->
  date_fromisoformat (date_isoformat birthday) = Some birthday ->
  (forall j, dget "life_settings" data = Some j -> exists ls, j = JDict ls) ->
  let ca := Qt.age_on today birthday in
  let got := LifeSettingsDialog.get_data today birthday ia data u in
  (ca < 0 \/ ia <= ca ->
   fst got = Ok data /\ exists box, snd got = show QWarning "提醒" box u)
  /\ (0 <= ca -> ca < ia ->
      exists data',
        got = (Ok data', u)
        /\ forall n, 0 <= n ->
             Qt.compute_life_ui save_raises (today + n) (JDict data')
             = (JDict data',
                Ok (let rem := Z.max ((ia - ca) * 365 - n) 0 in
                    let age := Qt.age_on (today + n) birthday in
                    LifeUi (progress ia rem) (fst (stage age))
                           (snd (stage age)) (days_label rem)))).
Proof.
  intros Htoday Hbirthday Hobj ca got.
  unfold got, LifeSettingsDialog.get_data. fold ca. split.
  - intros Hbad. destruct (ca <? 0) eqn:Hneg; cbn [fst snd].
    + split; [reflexivity|]. now eexists.
    + apply Z.ltb_ge in Hneg.
      assert (Hge : (ia <=? ca) = true) by (apply Z.leb_le; lia).
      rewrite Hge. cbn [fst snd]. split; [reflexivity|]. now eexists.
  - intros Hpos Hlt.
    assert (Hneg : (ca <? 0) = false) by (apply Z.ltb_ge; lia).
    assert (Hge : (ia <=? ca) = false) by (apply Z.leb_gt; lia).
    rewrite Hneg, Hge.
    destruct (life_settings_default data Hobj) as (ls & ->).
    eexists. split; [reflexivity|].
    intros n Hn.
    set (ls1 := dset "ideal_age" (JI ia)
                  (dset "birthday" (JS (date_isoformat birthday)) ls)).
    set (ls2 := if dmem "current_age" ls1 then ddel "current_age" ls1 else ls1).
    assert (Hkeep : forall k, k <> "current_age" -> dget k ls2 = dget k ls1).
    { intros k Hk. unfold ls2. destruct (dmem "current_age" ls1); [|reflexivity].
      now apply dget_ddel_ne. }
    erewrite (@Qt_compute_life_ui_settled _ _ save_raises (today + n) _ _ ia
               birthday (Z.max (ia - ca) 0 * 365) today
               (date_isoformat birthday) (date_isoformat today)).
    + unfold remaining. cbv zeta.
      replace (Z.max (Z.max (ia - ca) 0 * 365 - Z.max (today + n - today) 0) 0)
        with (Z.max ((ia - ca) * 365 - n) 0) by lia.
      reflexivity.
    + apply dget_dset_eq.
    + rewrite !dget_dset_ne by discriminate. rewrite Hkeep by discriminate.
      apply dget_dset_eq.
    + lia.
    + rewrite !dget_dset_ne by discriminate. rewrite Hkeep by discriminate.
      unfold ls1. rewrite dget_dset_ne by discriminate. apply dget_dset_eq.
    + exact Hbirthday.
    + rewrite dget_dset_ne by discriminate. apply dget_dset_eq.
    + apply dget_dset_eq.
    + exact Htoday.
Qed.

(** A birthday on 15 June 1990 and an ideal age of 80, set on New Year's
    Day 2025: ten days later 16,780 days are left. *)
Lemma life_settings_count_down_witness :
  exists data',
    LifeSettingsDialog.get_data (H := IsoCalendar.calendar) Samples.today
      726633 80 [] (Ui [] 0) = (Ok data', Ui [] 0)
    /\ option_map days_text
         (match snd (Qt.compute_life_ui (H := IsoCalendar.calendar)
                       (H0 := Concrete.builtins) None (Samples.today + 10)
                       (JDict data')) with
          | Ok r => Some r
          | Raise _ => None
          end)
       = Some "余生 16,780 天".
Proof.
  assert (Htoday : IsoCalendar.fromisoformat
                     (IsoCalendar.isoformat Samples.today) = Some Samples.today)
    by (vm_compute; reflexivity).
  assert (Hbirthday : IsoCalendar.fromisoformat
                        (IsoCalendar.isoformat 726633) = Some 726633)
    by (vm_compute; reflexivity).
  assert (Hobj : forall j, dget "life_settings" (@nil (string * json)) = Some j ->
                           exists ls, j = JDict ls) by discriminate.
  destruct (@life_settings_count_down IsoCalendar.calendar Concrete.builtins
              None Samples.today 726633 80 [] (Ui [] 0) Htoday Hbirthday Hobj)
    as (_ & Hvalid).
  destruct Hvalid as (data' & Hgot & Hcount).
  - vm_compute. discriminate.
  - vm_compute. reflexivity.
  - exists data'. split; [exact Hgot|].
    rewrite (Hcount 10) by lia. cbv zeta. cbn [snd option_map days_text].
    vm_compute. reflexivity.
Defined.

(** X9. [save_life] of the life dialog of the Tkinter program, followed
    by [compute_life_ui]. [ia'] is the ideal age with the cap of
    [MAX_AGE] = 100 applied. A current age outside 0..100, an ideal age
    above 100 whose cap is declined, an ideal age that is not positive
    or not above the current age: the document stays as it is and
    [save_data] is not called. Otherwise, with life settings that are
    an object or missing, [save_data] is called once and on the document
    kept [compute_life_ui] counts down one day a day: [n] days later it
    shows [(ia' - ca) * 365 - n] days, or zero when that is negative,
    touching neither the document nor the disk; the stage shown is the
    one of the age typed. *)
Theorem save_life_count_down `{JsonCodec} `{Calendar} `{Builtins}
    (DATA_FILE : string) (today ca ia : Z) (cap : bool) (data : dict json)
    (w : Tk.world) :
  date_fromisoformat (date_isoformat today) = Some today ->
  (forall j, dget "life_settings" data = Some j -> exists ls, j = JDict ls) ->
  let ia' := if DailyReminderApp.MAX_AGE <? ia
             then DailyReminderApp.MAX_AGE else ia in
  let after := DailyReminderApp.save_life DATA_FILE today ca ia cap data w in
  (ca < 0 \/ DailyReminderApp.MAX_AGE < ca
   \/ (DailyReminderApp.MAX_AGE < ia /\ cap = false)
   \/ ia' <= 0 \/ ia' <= ca ->
   fst after = data /\ Tk.saves (snd after) = Tk.saves w)
  /\ (0 <= ca -> ca < ia' ->
      (DailyReminderApp.MAX_AGE < ia -> cap = true) ->
      Tk.saves (snd after) = S (Tk.saves w)
      /\ forall n w', 0 <= n ->
           Tk.compute_life_ui DATA_FILE (today + n) (JDict (fst after)) w'
           = ((JDict (fst after), w'),
              Ok (let rem := Z.max ((ia' - ca) * 365 - n) 0 in
                  LifeUi (progress ia' rem) (fst (stage ca)) (snd (stage ca))
                         (days_label rem)))).
Proof.
  intros Htoday Hobj ia' after.
  unfold after, DailyReminderApp.save_life. fold ia'.
  unfold DailyReminderApp.MAX_AGE in *. split.
  - intros Hbad.
    destruct ((ca <? 0) || (100 <? ca)) eqn:Hca; [now split|].
    apply orb_false_iff in Hca. destruct Hca as (Hneg & Hold).
    apply Z.ltb_ge in Hneg, Hold.
    destruct ((100 <? ia) && negb cap) eqn:Hcap; [now split|].
    destruct (ia' <=? 0) eqn:Hpos; [now split|].
    destruct (ia' <=? ca) eqn:Hlt; [now split|].
    apply Z.leb_gt in Hpos, Hlt. exfalso.
    destruct Hbad as [Hb|[Hb|[(Hb & ->)|[Hb|Hb]]]]; lia.
  - intros Hneg Hlt Hcap.
    assert (Hold : ia' <= 100).
    { unfold ia'. destruct (100 <? ia) eqn:E; [lia|]. now apply Z.ltb_ge. }
    assert (Hca : (ca <? 0) || (100 <? ca) = false).
    { apply orb_false_iff. split; [apply Z.ltb_ge|apply Z.ltb_ge]; lia. }
    rewrite Hca.
    assert (Hcapped : (100 <? ia) && negb cap = false).
    { destruct (100 <? ia) eqn:E; [|reflexivity].
      apply Z.ltb_lt in E. now rewrite (Hcap E). }
    rewrite Hcapped.
    assert (Hpos : (ia' <=? 0) = false) by (apply Z.leb_gt; lia).
    assert (Hgt : (ia' <=? ca) = false) by (apply Z.leb_gt; lia).
    rewrite Hpos, Hgt. unfold DailyReminderApp.store_life.
    destruct (life_settings_default data Hobj) as (ls & ->).
    set (data' := dset "life_settings" _ _).
    assert (Hcount : forall n w', 0 <= n ->
      Tk.compute_life_ui DATA_FILE (today + n) (JDict data') w'
      = ((JDict data', w'),
         Ok (let rem := Z.max ((ia' - ca) * 365 - n) 0 in
             LifeUi (progress ia' rem) (fst (stage ca)) (snd (stage ca))
                    (days_label rem)))).
    { intros n w' Hn. unfold data'.
      erewrite (@Tk_compute_life_ui_settled _ _ _ DATA_FILE (today + n) _ _ ca
                  ia' (Z.max (ia' - ca) 0 * 365) today (date_isoformat today)).
      - unfold remaining. cbv zeta.
        replace (Z.max (Z.max (ia' - ca) 0 * 365 - Z.max (today + n - today) 0)
                   0)
          with (Z.max ((ia' - ca) * 365 - n) 0) by lia.
        reflexivity.
      - apply dget_dset_eq.
      - rewrite !dget_dset_ne by discriminate. apply dget_dset_eq.
      - rewrite !dget_dset_ne by discriminate. apply dget_dset_eq.
      - lia.
      - rewrite dget_dset_ne by discriminate. apply dget_dset_eq.
      - apply dget_dset_eq.
      - exact Htoday. }
    pose proof (@save_data_counts _ DATA_FILE (JDict data') w) as Hsaved.
    destruct (Tk.save_data DATA_FILE (JDict data') w) as [w1 [[]|e]];
      cbn [fst snd] in *.
    + split; [exact Hsaved|exact Hcount].
    + destruct (isinstance e ValueError); cbn [fst snd];
        (split; [exact Hsaved|exact Hcount]).
Qed.

(** Thirty years old, an ideal age of 120 capped at 100, saved on New
    Year's Day 2025 on an empty disk: five days later 25,545 days are
    left. *)
Lemma save_life_count_down_witness :
  let after :=
    DailyReminderApp.save_life (H := Concrete.codec)
      (H0 := IsoCalendar.calendar) "data.json" Samples.today 30 120 true []
      Samples.blank in
  Tk.saves (snd after) = 1%nat
  /\ option_map days_text
       (match snd (Tk.compute_life_ui (H := Concrete.codec)
                     (H0 := IsoCalendar.calendar) (H1 := Concrete.builtins)
                     "data.json" (Samples.today + 5) (JDict (fst after))
                     Samples.blank) with
        | Ok r => Some r
        | Raise _ => None
        end)
     = Some "余生 25,545 天".
Proof.
  intros after.
  assert (Htoday : IsoCalendar.fromisoformat
                     (IsoCalendar.isoformat Samples.today) = Some Samples.today)
    by (vm_compute; reflexivity).
  assert (Hobj : forall j, dget "life_settings" (@nil (string * json)) = Some j ->
                           exists ls, j = JDict ls) by discriminate.
  destruct (@save_life_count_down Concrete.codec IsoCalendar.calendar
              Concrete.builtins "data.json" Samples.today 30 120 true []
              Samples.blank Htoday Hobj) as (_ & Hvalid).
  destruct Hvalid as (Hsaved & Hcount).
  - discriminate.
  - reflexivity.
  - reflexivity.
  - split; [exact Hsaved|].
    unfold after. rewrite (Hcount 5 Samples.blank) by lia.
    cbv zeta. cbn [snd option_map days_text]. vm_compute. reflexivity.
Defined.

(** ** Activation *)

Section ActivationFacts.
Context `{JsonCodec}.

(** [load_activation] returns, and changes nothing but the log. *)
Lemma load_activation_world (w : Tk.world) :
  exists j w1,
    Tk.load_activation w = (w1, Ok j)
    /\ (w1 = w \/ exists l m, w1 = Tk.logging l m w).
Proof.
  unfold Tk.load_activation.
  destruct (Tk.act_file w) as [t|]; [|now exists (JDict []), w; auto].
  destruct (Tk.act_read_fault w) as [e|].
  - unfold try, json_attr. cbn [String.eqb Ascii.eqb Bool.eqb except].
    destruct (isinstance e JSONDecodeError).
    + eexists _, _. split; [reflexivity|]. right. now eexists _, _.
    + rewrite isinstance_Exception.
      eexists _, _. split; [reflexivity|]. right. now eexists _, _.
  - destruct (json_loads t) as [j|e].
    + exists j, w. auto.
    + unfold try, json_attr. cbn [String.eqb Ascii.eqb Bool.eqb except].
      destruct (isinstance e JSONDecodeError).
      * eexists _, _. split; [reflexivity|]. right. now eexists _, _.
      * rewrite isinstance_Exception.
        eexists _, _. split; [reflexivity|]. right. now eexists _, _.
Qed.
End ActivationFacts.

(** X10. [activate_program], followed by [check_trial]. A cancelled
    dialog changes nothing at all. A code that, stripped, is not the
    key leaves the activation file as it is and shows the error box.
    With the key, when the activation file is missing or holds an
    object, the disk does not fail and the [json] module reads back the
    record it has written, the record written has ["activated"] set and
    keeps its other entries, and from then on [check_trial] returns
    [True] on every day, whatever the trial start, and writes nothing. *)
Theorem activate_then_check_trial `{JsonCodec} `{Calendar} `{Builtins}
    (code : option string) (w w1 : Tk.world) (act : dict json) :
  Tk.load_activation w = (w1, Ok (JDict act)) ->
  let after := DailyReminderApp.activate_program code w in
  let act' := JDict (dset "activated" (JB true) act) in
  (code = None -> after = (w, Ok tt))
  /\ (forall c, code = Some c ->
        str_strip c <> DailyReminderApp.ACTIVATION_KEY ->
        after = (Tk.messagebox Tk.Showerror "Activation Failed"
                   "Invalid activation code!" w, Ok tt))
  /\ (forall c, code = Some c ->
        str_strip c = DailyReminderApp.ACTIVATION_KEY ->
        Tk.act_read_fault w = None ->
        Tk.act_write_fault w = None ->
        json_loads (json_dumps act') = Ok act' ->
        snd after = Ok tt
        /\ Tk.act_file (fst after) = Some (json_dumps act')
        /\ forall today parent,
             Tk.check_trial today parent (fst after) = (fst after, Ok true)).
Proof.
  intros Hload after act'. unfold after, DailyReminderApp.activate_program.
  split; [now intros ->|]. split.
  - intros c -> Hc. apply String.eqb_neq in Hc. now rewrite Hc.
  - intros c -> Hc Hread Hwrite Hcodec.
    apply String.eqb_eq in Hc. rewrite Hc, Hload. cbn [py_setitem].
    fold act'.
    destruct (load_activation_world w) as (j & w1' & Hload' & Hw1).
    rewrite Hload in Hload'. injection Hload' as <- <-.
    assert (Hwrite1 : Tk.act_write_fault w1 = None).
    { destruct Hw1 as [->|(l & m & ->)]; exact Hwrite. }
    assert (Hread1 : Tk.act_read_fault w1 = None).
    { destruct Hw1 as [->|(l & m & ->)]; exact Hread. }
    unfold Tk.save_activation. rewrite Hwrite1. cbn [try fst snd].
    split; [reflexivity|]. split; [reflexivity|].
    intros today parent. unfold Tk.check_trial, Tk.load_activation.
    cbn [Tk.act_file Tk.messagebox Tk.set_act_file Tk.act_read_fault].
    rewrite Hread1, Hcodec. cbn [try]. unfold act'. cbn [py_get].
    unfold dget_default. rewrite dget_dset_eq. reflexivity.
Qed.

(** On a disk with the activation file of an expired trial, the key
    typed with blanks around it: the trial check passes on New Year's
    Day, and would a year later. *)
Lemma activate_then_check_trial_witness :
  let w := Samples.activation_on_disk (JDict Samples.expired) in
  let after :=
    DailyReminderApp.activate_program (H := Concrete.codec)
      (H0 := Concrete.builtins) (Some " YKJ-2025-KEY ") w in
  snd (Tk.check_trial (H := Concrete.codec) (H0 := IsoCalendar.calendar)
         Samples.today true w) = Ok false
  /\ snd (Tk.check_trial (H := Concrete.codec) (H0 := IsoCalendar.calendar)
            (Samples.today + 365) true (fst after)) = Ok true.
Proof.
  intros w after. split; [vm_compute; reflexivity|].
  assert (Hload : Tk.load_activation (H := Concrete.codec) w
                  = (w, Ok (JDict Samples.expired)))
    by (vm_compute; reflexivity).
  destruct (@activate_then_check_trial Concrete.codec IsoCalendar.calendar
              Concrete.builtins (Some " YKJ-2025-KEY ") w w Samples.expired
              Hload) as (_ & _ & Hkey).
  destruct (Hkey " YKJ-2025-KEY " eq_refl) as (_ & _ & Hcheck);
    [vm_compute; reflexivity|reflexivity|reflexivity
    |vm_compute; reflexivity|].
  unfold after. now rewrite Hcheck.
Defined.

(** ** Deleting orders by hand in the Tkinter program *)

Section PopFacts.
Variable A : Type.
Implicit Types (l : list A) (sel : list Z).

Lemma keep_from_below off sel l :
  (forall s, In s sel -> s < off) -> keep_from off sel l = l.
Proof.
  revert off. induction l as [|x l IH]; intros off Hlow; simpl; [reflexivity|].
  assert (Hoff : existsb (Z.eqb off) sel = false).
  { destruct (existsb (Z.eqb off) sel) eqn:E; [|reflexivity].
    apply existsb_exists in E. destruct E as (s & Hs & Heq).
    apply Z.eqb_eq in Heq. subst s. specialize (Hlow off Hs). lia. }
  rewrite Hoff, IH; [reflexivity|].
  intros s Hs. specialize (Hlow s Hs). lia.
Qed.

Lemma keep_from_outside off x sel l :
  x < off \/ off + Z.of_nat (List.length l) <= x ->
  keep_from off (x :: sel) l = keep_from off sel l.
Proof.
  revert off. induction l as [|y l IH]; intros off Hout; simpl; [reflexivity|].
  simpl in Hout.
  assert (Hx : (off =? x) = false) by (apply Z.eqb_neq; lia).
  rewrite Hx. cbn [orb]. rewrite IH by lia. reflexivity.
Qed.

Lemma keep_from_lpop off (n : nat) sel l :
  (n < List.length l)%nat ->
  (forall s, In s sel -> s < off + Z.of_nat n) ->
  keep_from off sel (lpop n l) = keep_from off (off + Z.of_nat n :: sel) l.
Proof.
  revert off n. induction l as [|y l IH]; intros off n Hn Hlow;
    simpl in Hn; [lia|].
  destruct n as [|n]; simpl lpop.
  - cbn [keep_from existsb]. rewrite Z.add_0_r, Z.eqb_refl. cbn [orb].
    rewrite Z.add_0_r in Hlow. rewrite keep_from_below by exact Hlow.
    rewrite keep_from_below; [reflexivity|].
    intros s [<-|Hs]; [lia|]. specialize (Hlow s Hs). lia.
  - cbn [keep_from existsb].
    assert (Hx : (off =? off + Z.of_nat (S n)) = false)
      by (apply Z.eqb_neq; lia).
    rewrite Hx. cbn [orb].
    assert (Hshift : off + Z.of_nat (S n) = off + 1 + Z.of_nat n) by lia.
    rewrite Hshift, <- IH; [reflexivity|lia|].
    intros s Hs. specialize (Hlow s Hs). lia.
Qed.

(** Popping the positions of a strictly descending list, one after the
    other, leaves the entries whose positions are not in the list. *)
Lemma pops_descending sel l :
  StronglySorted Z.gt sel ->
  fold_left (fun a idx => pop_within idx a) sel l = unselected sel l.
Proof.
  unfold unselected. revert l. induction sel as [|x sel IH]; intros l Hs.
  - simpl. now rewrite keep_from_below by (intros s []).
  - inversion Hs as [|? ? Hs' Hall]; subst. cbn [fold_left].
    rewrite (IH _ Hs'). unfold pop_within.
    destruct ((0 <=? x) && (x <? Z.of_nat (List.length l))) eqn:Hin.
    + apply andb_true_iff in Hin. destruct Hin as (H0 & H1).
      apply Z.leb_le in H0. apply Z.ltb_lt in H1.
      rewrite keep_from_lpop.
      * now rewrite Z.add_0_l, Z2Nat.id by exact H0.
      * lia.
      * intros s Hsel. rewrite Z.add_0_l, Z2Nat.id by exact H0.
        rewrite Forall_forall in Hall. specialize (Hall s Hsel). lia.
    + rewrite keep_from_outside; [reflexivity|].
      apply andb_false_iff in Hin. destruct Hin as [H0|H1].
      * apply Z.leb_gt in H0. now left.
      * apply Z.ltb_ge in H1. right. lia.
Qed.

(** What is kept depends on the positions selected, not on their order. *)
Lemma keep_from_ext off sel sel' l :
  (forall x, In x sel <-> In x sel') ->
  keep_from off sel l = keep_from off sel' l.
Proof.
  intros Hsame. revert off. induction l as [|y l IH]; intros off; simpl;
    [reflexivity|].
  assert (Hmem : existsb (Z.eqb off) sel = existsb (Z.eqb off) sel').
  { apply eq_true_iff_eq. rewrite !existsb_exists.
    split; intros (s & Hs & Heq); exists s; (split; [now apply Hsame|exact Heq]). }
  now rewrite Hmem, IH.
Qed.
Lemma keep_from_last off l (e : A) :
  keep_from off [off + Z.of_nat (List.length l)] (l ++ [e]) = l.
Proof.
  revert off. induction l as [|x l IH]; intros off; simpl.
  - replace (off + 0) with off by lia. now rewrite Z.eqb_refl.
  - replace (off =? off + Z.pos (Pos.of_succ_nat (List.length l))) with false
      by (symmetry; apply Z.eqb_neq; lia).
    simpl. f_equal.
    replace (off + Z.pos (Pos.of_succ_nat (List.length l)))
      with (off + 1 + Z.of_nat (List.length l)) by lia.
    apply IH.
Qed.

End PopFacts.

Section SortFacts.
Implicit Types (l : list Z).

Lemma In_insert_desc (x y : Z) l :
  In y (insert_desc x l) <-> y = x \/ In y l.
Proof.
  induction l as [|z l IH]; simpl; [intuition|].
  destruct (z <? x); simpl; [intuition|]. rewrite IH. intuition.
Qed.

Lemma In_sort_desc (y : Z) l : In y (sort_desc l) <-> In y l.
Proof.
  induction l as [|x l IH]; simpl; [tauto|].
  rewrite In_insert_desc, IH. intuition.
Qed.

Lemma insert_desc_sorted (x : Z) l :
  ~ In x l -> StronglySorted Z.gt l -> StronglySorted Z.gt (insert_desc x l).
Proof.
  induction l as [|z l IH]; intros Hnew Hs; simpl.
  - constructor; constructor.
  - inversion Hs as [|? ? Hs' Hall]; subst.
    destruct (z <? x) eqn:E.
    + apply Z.ltb_lt in E. constructor; [exact Hs|].
      constructor; [lia|]. rewrite Forall_forall in *.
      intros s Hin. specialize (Hall s Hin). lia.
    + apply Z.ltb_ge in E. constructor.
      * apply IH; [|exact Hs']. intros Hin. apply Hnew. now right.
      * rewrite Forall_forall in *. intros s Hin.
        apply In_insert_desc in Hin. destruct Hin as [->|Hin]; [|now apply Hall].
        assert (x <> z) by (intros ->; apply Hnew; now left). lia.
Qed.

Lemma sort_desc_sorted l : NoDup l -> StronglySorted Z.gt (sort_desc l).
Proof.
  induction l as [|x l IH]; intros Hnd; simpl; [constructor|].
  inversion Hnd as [|? ? Hnew Hnd']; subst.
  apply insert_desc_sorted; [|now apply IH].
  intros Hin. apply Hnew. now apply In_sort_desc.
Qed.
End SortFacts.

Section DelOrderFacts.
Context `{JsonCodec} `{Calendar} `{Builtins}.
Variable DATA_FILE : string.
Variable EXCEL_DIR : string.
Variable document : data -> json.

(** The date read from the form does not depend on the world, and
    reading it calls nothing. *)
Lemma get_date_from_widget_date (today : Z) (widget : Tk.date_widget)
    (w w' : Tk.world) :
  snd (Tk.get_date_from_widget today widget w)
  = snd (Tk.get_date_from_widget today widget w')
  /\ Tk.saves (fst (Tk.get_date_from_widget today widget w)) = Tk.saves w.
Proof.
  unfold Tk.get_date_from_widget. destruct widget as [d0|text]; simpl;
    [now split|].
  now destruct (date_fromisoformat (str_strip text)).
Qed.

(** What is left when the positions selected have been popped. *)
Lemma without_lists (is_shipping : bool) (d : string) (sel : list Z)
    (self_data : data) :
  (forall m, get_collection is_shipping self_data = Some m -> dict_wf m) ->
  NoDup sel ->
  let left := DailyReminderApp.without is_shipping d sel self_data in
  orders_at (get_collection is_shipping left) d
  = unselected sel (orders_at (get_collection is_shipping self_data) d)
  /\ (forall d', d' <> d ->
        orders_at (get_collection is_shipping left) d'
        = orders_at (get_collection is_shipping self_data) d')
  /\ get_collection (negb is_shipping) left
     = get_collection (negb is_shipping) self_data.
Proof.
  intros Hwf Hnd left. unfold left, DailyReminderApp.without. clear left.
  set (c := get_collection is_shipping self_data) in *.
  assert (Harr : fold_left (fun a idx => pop_within idx a) (sort_desc sel)
                   (orders_at c d)
                 = unselected sel (orders_at c d)).
  { rewrite pops_descending by now apply sort_desc_sorted.
    unfold unselected. apply keep_from_ext. intros x. apply In_sort_desc. }
  rewrite Harr.
  set (arr := unselected sel (orders_at c d)).
  destruct c as [m|] eqn:Hc.
  - destruct (dmem d m) eqn:Hmem.
    + specialize (Hwf m eq_refl).
      destruct arr as [|y rest] eqn:Harr';
        rewrite get_set_collection, get_set_collection_other.
      * rewrite orders_at_ddel, String.eqb_refl by exact Hwf.
        split; [reflexivity|]. split; [|reflexivity].
        intros d' Hd'. rewrite orders_at_ddel by exact Hwf.
        apply String.eqb_neq in Hd'. now rewrite Hd'.
      * rewrite orders_at_dset, String.eqb_refl.
        split; [reflexivity|]. split; [|reflexivity].
        intros d' Hd'. rewrite orders_at_dset.
        apply String.eqb_neq in Hd'. now rewrite Hd'.
    + fold c. rewrite Hc. split; [|split; [reflexivity|reflexivity]].
      unfold arr, orders_at, dget_default, dmem in *.
      destruct (dget d m); [discriminate|reflexivity].
  - fold c. rewrite Hc. split; [|split; [reflexivity|reflexivity]].
    reflexivity.
Qed.

(** A deletion that is confirmed, on a sound disk: what is held
    afterwards is the document of what is left. *)
Lemma del_order_kept (today : Z) (is_shipping : bool)
    (widget : Tk.date_widget) (lw : DailyReminderApp.listbox_widget)
    (self_data : data) (w : Tk.world) :
  let d := snd (Tk.get_date_from_widget today widget w) in
  let left :=
    DailyReminderApp.without is_shipping d (DailyReminderApp.selected lw)
      self_data in
  DailyReminderApp.selected lw <> [] ->
  Tk.disk_sound w = true ->
  Tk.settled EXCEL_DIR (document left) = true ->
  json_loads (json_dumps (document left)) = Ok (document left) ->
  exists w4,
    DailyReminderApp.del_order DATA_FILE EXCEL_DIR document today is_shipping
      widget lw true self_data w
    = (document left,
       Tk.messagebox Tk.Showinfo "删除成功" "选中的订单已删除！" w4)
    /\ Tk.saves w4 = S (Tk.saves w)
    /\ Tk.data_file w4 = Some (json_dumps (document left))
    /\ Tk.disk_sound w4 = true.
Proof.
  intros d left Hsel Hdisk Hsettled Hback.
  pose proof (get_date_from_widget_side today widget w) as Hside.
  unfold DailyReminderApp.del_order. unfold left, d in *.
  destruct (DailyReminderApp.selected lw) as [|x0 sel0] eqn:Esel;
    [now contradiction Hsel|].
  cbn [negb].
  destruct (Tk.get_date_from_widget today widget w) as [w1 d1].
  cbn [fst snd] in *. cbv zeta.
  assert (Hdisk1 : Tk.disk_sound w1 = true).
  { now rewrite (disk_sound_side Hside). }
  match type of Hsettled with
  | Tk.settled _ ?j = true =>
      destruct (@saved_and_reloaded _ _ _ DATA_FILE EXCEL_DIR today j j w1
                  Hdisk1 Hsettled Hback)
        as (w2 & w4 & Hsave & Hload & Hupdate & _ & Hsaves & Hfile & Hsound)
  end.
  rewrite Hsave, Hload, Hupdate. exists w4.
  split; [reflexivity|]. split; [|now split].
  unfold Tk.data_side in Hside. injection Hside as _ _ _ _ _ Hn.
  now rewrite <- Hn.
Qed.
End DelOrderFacts.

(** X11. [del_order] of the Tkinter program, for a collection with
    distinct dates and positions selected that are distinct, as those of
    a [Listbox] are. With nothing selected, or the question not answered
    with yes, [self.data] stays as it is and [save_data] is not called.
    Otherwise [left] is what the method gives to [save_data]: the list
    of the date of the form keeps, in their order, the entries whose
    positions were not selected, positions outside the list counting for
    nothing, and the other dates and the other collection are as they
    were. The method then reloads [self.data] from the disk: on a sound
    disk, for a document that is settled and that the [json] module
    reads back, [self.data] is [left] afterwards, [save_data] has been
    called once, the data file holds the document and the last box tells
    that the orders have been deleted. *)
Theorem del_order_removes_selected `{JsonCodec} `{Calendar} `{Builtins}
    (DATA_FILE EXCEL_DIR : string) (document : data -> json) (today : Z)
    (is_shipping : bool) (widget : Tk.date_widget)
    (lw : DailyReminderApp.listbox_widget) (confirmed : bool)
    (self_data : data) (w : Tk.world) :
  (forall m, get_collection is_shipping self_data = Some m -> dict_wf m) ->
  NoDup (DailyReminderApp.selected lw) ->
  let sel := DailyReminderApp.selected lw in
  let d := snd (Tk.get_date_from_widget today widget w) in
  let left := DailyReminderApp.without is_shipping d sel self_data in
  let after :=
    DailyReminderApp.del_order DATA_FILE EXCEL_DIR document today is_shipping
      widget lw confirmed self_data w in
  (sel = [] \/ confirmed = false ->
   fst after = document self_data /\ Tk.saves (snd after) = Tk.saves w)
  /\ (orders_at (get_collection is_shipping left) d
      = unselected sel (orders_at (get_collection is_shipping self_data) d)
      /\ (forall d', d' <> d ->
            orders_at (get_collection is_shipping left) d'
            = orders_at (get_collection is_shipping self_data) d')
      /\ get_collection (negb is_shipping) left
         = get_collection (negb is_shipping) self_data)
  /\ (sel <> [] -> confirmed = true ->
      Tk.disk_sound w = true ->
      Tk.settled EXCEL_DIR (document left) = true ->
      json_loads (json_dumps (document left)) = Ok (document left) ->
      fst after = document left
      /\ Tk.saves (snd after) = S (Tk.saves w)
      /\ Tk.data_file (snd after) = Some (json_dumps (document left))
      /\ List.last (Tk.boxes (snd after)) (Tk.Showerror, "", "")
         = (Tk.Showinfo, "删除成功", "选中的订单已删除！")).
Proof.
  intros Hwf Hnd sel d left after. split; [|split].
  - unfold after, DailyReminderApp.del_order. fold sel.
    intros [Hsel|Hno].
    + rewrite Hsel. now split.
    + rewrite Hno. destruct sel; now split.
  - now apply without_lists.
  - intros Hsel Hyes Hdisk Hsettled Hback. unfold after. rewrite Hyes.
    destruct (@del_order_kept _ _ _ DATA_FILE EXCEL_DIR document today
                is_shipping widget lw self_data w Hsel Hdisk Hsettled Hback)
      as (w4 & Hrun & Hsaves & Hfile & _).
    rewrite Hrun. cbn [fst snd]. repeat split; try assumption.
    cbn [Tk.boxes Tk.messagebox]. apply last_last.
Qed.

(** On a disk that holds the sample document: four pre-shipping orders
    under New Year's Day, the first and the third selected; the second
    and the fourth stay. *)
Lemma del_order_removes_selected_witness :
  let after :=
    DailyReminderApp.del_order (H := Concrete.codec)
      (H0 := IsoCalendar.calendar) (H1 := Concrete.builtins)
      "data.json" "orders_import" Samples.whole Samples.today false
      (Tk.Entry "2025-01-01") (DailyReminderApp.Listbox [0; 2]) true
      Samples.pending_sync
      (Samples.on_disk (Samples.whole Samples.pending_sync)) in
  let left :=
    DailyReminderApp.without false "2025-01-01" [0; 2] Samples.pending_sync in
  orders_at (pre_shipping_orders left) "2025-01-01"
  = [Samples.paused_A2; Plain "A9"]
  /\ fst after = Samples.whole left
  /\ Tk.saves (snd after) = 1%nat.
Proof.
  assert (Hwf : forall m,
            get_collection false Samples.pending_sync = Some m -> dict_wf m).
  { intros m Hm. injection Hm as <-. unfold dict_wf. simpl.
    repeat constructor; simpl; intuition discriminate. }
  assert (Hnd : NoDup (DailyReminderApp.selected (H1 := Concrete.builtins)
                         (DailyReminderApp.Listbox [0; 2]))).
  { simpl. repeat constructor; simpl; intuition discriminate. }
  destruct (@del_order_removes_selected Concrete.codec IsoCalendar.calendar
              Concrete.builtins "data.json" "orders_import" Samples.whole
              Samples.today false (Tk.Entry "2025-01-01")
              (DailyReminderApp.Listbox [0; 2]) true Samples.pending_sync
              (Samples.on_disk (Samples.whole Samples.pending_sync)) Hwf Hnd)
    as (_ & (Hlist & _) & Hkept).
  destruct Hkept as (Hdata & Hsaves & _).
  - discriminate.
  - reflexivity.
  - reflexivity.
  - vm_compute. reflexivity.
  - vm_compute. reflexivity.
  - split; [exact Hlist|]. split; [exact Hdata|exact Hsaves].
Defined.

(** X12. An order added by hand in the Tkinter program and deleted
    again, on a sound disk. Take a collection with distinct dates and a
    number that is not blank and that the list of the date does not
    have. [add_order] leaves [self.data] with the order appended;
    [del_order] then, with the last position of that list selected, on
    the same date, and the question answered with yes, leaves a
    [self.data] in which every date has the list of orders it had at
    first and the other collection is as it was, and [save_data] has
    been called twice. Both documents are taken to be settled and to be
    read back by the [json] module. *)
Theorem add_then_del_order `{JsonCodec} `{Calendar} `{Builtins}
    (DATA_FILE EXCEL_DIR : string) (document : data -> json) (today : Z)
    (is_shipping : bool) (widget : Tk.date_widget) (entry_text : string)
    (remark_text : option string) (self_data : data) (w : Tk.world) :
  let d := snd (Tk.get_date_from_widget today widget w) in
  let o := str_strip entry_text in
  let remark := match remark_text with Some t => str_strip t | None => "" end in
  let appended :=
    set_collection is_shipping
      (append_at d (Tk.new_record is_shipping o remark)
         (ensure_date d (get_collection is_shipping self_data)))
      self_data in
  let last :=
    Z.of_nat (List.length (orders_at (get_collection is_shipping self_data) d)) in
  let left := DailyReminderApp.without is_shipping d [last] appended in
  (forall m, get_collection is_shipping self_data = Some m -> dict_wf m) ->
  o <> "" ->
  Tk.duplicate o (orders_at (get_collection is_shipping self_data) d) = false ->
  Tk.disk_sound w = true ->
  Tk.settled EXCEL_DIR (document appended) = true ->
  json_loads (json_dumps (document appended)) = Ok (document appended) ->
  Tk.settled EXCEL_DIR (document left) = true ->
  json_loads (json_dumps (document left)) = Ok (document left) ->
  let added :=
    Tk.add_order DATA_FILE EXCEL_DIR document today is_shipping widget
      entry_text remark_text self_data w in
  let deleted :=
    DailyReminderApp.del_order DATA_FILE EXCEL_DIR document today is_shipping
      widget (DailyReminderApp.Listbox [last]) true appended (snd added) in
  fst added = document appended
  /\ List.length (orders_at (get_collection is_shipping appended) d)
     = S (List.length (orders_at (get_collection is_shipping self_data) d))
  /\ fst deleted = document left
  /\ (forall k, orders_at (get_collection is_shipping left) k
                = orders_at (get_collection is_shipping self_data) k)
  /\ get_collection (negb is_shipping) left
     = get_collection (negb is_shipping) self_data
  /\ Tk.saves (snd deleted) = S (S (Tk.saves w)).
Proof.
  intros d o remark appended last left Hwf Hblank Hnew Hdisk Hsa Hba Hsl Hbl
    added deleted.
  set (before := orders_at (get_collection is_shipping self_data) d) in *.
  set (e := Tk.new_record is_shipping o remark) in *.
  destruct (@add_order_kept _ _ _ DATA_FILE EXCEL_DIR document today
              is_shipping widget entry_text remark_text self_data w Hblank
              Hnew Hdisk Hsa Hba) as (w4 & Hadd & Hsaves & _ & Hsound).
  fold d o remark e appended added in Hadd.
  assert (Hat : forall k, orders_at (get_collection is_shipping appended) k
                          = if String.eqb k d then before ++ [e]
                            else orders_at (get_collection is_shipping self_data) k).
  { intros k. unfold appended. apply orders_at_appended_collection. }
  assert (Hwfa : forall m', get_collection is_shipping appended = Some m' ->
                            dict_wf m').
  { intros m'. unfold appended. rewrite get_set_collection. intros [= <-].
    apply dict_wf_append_at, dict_wf_ensure_date. exact Hwf. }
  set (w' := snd added) in *.
  assert (Hd' : snd (Tk.get_date_from_widget today widget w') = d).
  { unfold d. apply get_date_from_widget_date. }
  assert (Hw' : Tk.disk_sound w' = true /\ Tk.saves w' = S (Tk.saves w)).
  { unfold w'. rewrite Hadd. cbn [snd]. split; [exact Hsound|exact Hsaves]. }
  destruct Hw' as (Hsound' & Hsaves').
  assert (Hnd : NoDup [last]) by (repeat constructor; intros []).
  destruct (@without_lists is_shipping d [last] appended Hwfa Hnd)
    as (Hlist & Hothers & Hother).
  fold left in Hlist, Hothers, Hother.
  assert (Hsel : DailyReminderApp.selected (DailyReminderApp.Listbox [last])
                 <> []) by discriminate.
  destruct (@del_order_kept _ _ _ DATA_FILE EXCEL_DIR document today
              is_shipping widget (DailyReminderApp.Listbox [last]) appended w')
    as (w5 & Hdel & Hsaves5 & _).
  { exact Hsel. }
  { exact Hsound'. }
  { rewrite Hd'. exact Hsl. }
  { rewrite Hd'. exact Hbl. }
  rewrite Hd' in Hdel. fold left deleted in Hdel.
  split; [now rewrite Hadd|]. split.
  { rewrite Hat, String.eqb_refl, length_app. simpl. lia. }
  split; [now rewrite Hdel|]. split; [|split].
  - intros k. destruct (String.eqb k d) eqn:E.
    + apply String.eqb_eq in E. subst k. rewrite Hlist, Hat, String.eqb_refl.
      unfold unselected, last. fold before.
      apply (keep_from_last 0 before e).
    + assert (Hk : k <> d) by now apply String.eqb_neq.
      rewrite (Hothers k Hk), Hat, E. reflexivity.
  - rewrite Hother. unfold appended. apply get_set_collection_other.
  - rewrite Hdel. cbn [snd]. change (Tk.saves (Tk.messagebox _ _ _ w5))
      with (Tk.saves w5). now rewrite Hsaves5, Hsaves'.
Qed.

(** On a disk that holds the sample document: the order B7 is added
    under New Year's Day, after the four orders of the day, and deleted
    again. *)
Lemma add_then_del_order_witness :
  let added :=
    Tk.add_order (H := Concrete.codec) (H0 := IsoCalendar.calendar)
      (H1 := Concrete.builtins) "data.json" "orders_import" Samples.whole
      Samples.today false (Tk.Entry "2025-01-01") " B7 " None
      Samples.pending_sync
      (Samples.on_disk (Samples.whole Samples.pending_sync)) in
  let appended :=
    set_collection false
      (append_at "2025-01-01" (Tk.new_record false "B7" "")
         (ensure_date "2025-01-01" (pre_shipping_orders Samples.pending_sync)))
      Samples.pending_sync in
  let deleted :=
    DailyReminderApp.del_order (H := Concrete.codec)
      (H0 := IsoCalendar.calendar) (H1 := Concrete.builtins)
      "data.json" "orders_import" Samples.whole Samples.today false
      (Tk.Entry "2025-01-01") (DailyReminderApp.Listbox [4]) true
      appended (snd added) in
  fst deleted
  = Samples.whole
      (DailyReminderApp.without false "2025-01-01" [4] appended)
  /\ orders_at
       (pre_shipping_orders
          (DailyReminderApp.without false "2025-01-01" [4] appended))
       "2025-01-01"
     = orders_at (pre_shipping_orders Samples.pending_sync) "2025-01-01".
Proof.
  intros added appended deleted.
  assert (Hwf : forall m,
            get_collection false Samples.pending_sync = Some m -> dict_wf m).
  { intros m Hm. injection Hm as <-. unfold dict_wf. simpl.
    repeat constructor; simpl; intuition discriminate. }
  assert (Hblank : str_strip (Builtins := Concrete.builtins) " B7 " <> "")
    by discriminate.
  destruct (@add_then_del_order Concrete.codec IsoCalendar.calendar
              Concrete.builtins "data.json" "orders_import" Samples.whole
              Samples.today false (Tk.Entry "2025-01-01") " B7 " None
              Samples.pending_sync
              (Samples.on_disk (Samples.whole Samples.pending_sync))
              Hwf Hblank)
    as (_ & _ & Hdel & Hback & _).
  - reflexivity.
  - reflexivity.
  - vm_compute. reflexivity.
  - vm_compute. reflexivity.
  - vm_compute. reflexivity.
  - vm_compute. reflexivity.
  - split; [exact Hdel|exact (Hback "2025-01-01")].
Defined.

(** ** Importing the same folder twice *)

Section ImportTwice.
Context `{Calendar} `{Builtins} `{DateParser}.
Variable listed : string -> list entry -> bool.
Hypothesis listed_last :
  forall o l, listed o (l ++ [Plain o]) = true.
Hypothesis listed_app :
  forall o l e, listed o l = true -> listed o (l ++ [e]) = true.

Lemma dsetdefault_mem (V : Type) (k : string) (v : V) (q : dict V) :
  dmem k q = true -> dsetdefault k v q = q.
Proof. unfold dsetdefault. now intros ->. Qed.

Lemma dmem_dset_kept (V : Type) (k k' : string) (v : V) (q : dict V) :
  dmem k q = true -> dmem k (dset k' v q) = true.
Proof.
  unfold dmem. rewrite dget_dset. destruct (String.eqb k k'); [reflexivity|].
  now destruct (dget k q).
Qed.

Lemma dmem_dsetdefault (V : Type) (k k' : string) (v : V) (q : dict V) :
  dmem k q = true -> dmem k (dsetdefault k' v q) = true.
Proof.
  unfold dsetdefault. destruct (dmem k' q); [easy|]. apply dmem_dset_kept.
Qed.

(** The exception that leaves the loop is read off the row. *)
Lemma import_row_exn (row : list cell) (st st' : data * nat) :
  snd (import_row listed row st) = snd (import_row listed row st').
Proof.
  unfold import_row. destruct row as [|date_cell row']; [reflexivity|].
  destruct (cell_truthy date_cell); simpl; [|reflexivity].
  destruct (parse_date (row_date_str date_cell)) as [date_obj|e].
  2:{ now destruct (isinstance e ValueError). }
  destruct (String.eqb (row_order (date_cell :: row')) ""); [reflexivity|].
  now destruct (listed _ _), (listed _ _).
Qed.

(** A row is passed over whatever the document holds, or it is taken. *)
Lemma import_row_cases (row : list cell) :
  (forall st, fst (import_row listed row st) = st)
  \/ (exists date_obj,
        cell_truthy (hd CNone row) = true
        /\ parse_date (row_date_str (hd CNone row)) = Ok date_obj
        /\ row_order row <> "").
Proof.
  destruct row as [|date_cell row']; [now left|].
  destruct (cell_truthy date_cell) eqn:Hcell.
  2:{ left. intros st. unfold import_row. cbn beta iota. now rewrite Hcell. }
  destruct (parse_date (row_date_str date_cell)) as [date_obj|e] eqn:Hparse.
  2:{ left. intros st. unfold import_row. cbn beta iota.
      rewrite Hcell, Hparse. simpl. now destruct (isinstance e ValueError). }
  destruct (String.eqb (row_order (date_cell :: row')) "") eqn:Horder.
  { left. intros st. unfold import_row. cbn beta iota.
    rewrite Hcell, Hparse. simpl. now rewrite Horder. }
  right. exists date_obj. apply String.eqb_neq in Horder. now repeat split.
Qed.

(** A row whose order is on file under its date changes nothing. *)
Lemma import_row_filed (row : list cell) (d : data) (n : nat) (date_obj : Z)
    (m : orders) :
  cell_truthy (hd CNone row) = true ->
  parse_date (row_date_str (hd CNone row)) = Ok date_obj ->
  row_order row <> "" ->
  get_collection (substring_in "发货" (row_typ row)) d = Some m ->
  dmem (date_isoformat date_obj) m = true ->
  listed (row_order row) (dget_default (date_isoformat date_obj) [] m) = true ->
  fst (import_row listed row (d, n)) = (d, n).
Proof.
  intros Hcell Hparse Horder Hm Hmem Hlisted.
  rewrite (import_row_taken listed row d n Hcell Hparse Horder). cbv zeta.
  rewrite Hm. unfold ensure_date. rewrite (@dsetdefault_mem _ _ [] _ Hmem), Hlisted.
  simpl. now rewrite (set_get_collection _ _ Hm).
Qed.

(** And a row that changes nothing is skipped, or its order is on file. *)
Lemma import_row_quiet (row : list cell) (d : data) (date_obj : Z) :
  cell_truthy (hd CNone row) = true ->
  parse_date (row_date_str (hd CNone row)) = Ok date_obj ->
  row_order row <> "" ->
  fst (import_row listed row (d, 0%nat)) = (d, 0%nat) ->
  exists m,
    get_collection (substring_in "发货" (row_typ row)) d = Some m
    /\ dmem (date_isoformat date_obj) m = true
    /\ listed (row_order row) (dget_default (date_isoformat date_obj) [] m)
       = true.
Proof.
  intros Hcell Hparse Horder.
  rewrite (import_row_taken listed row d 0 Hcell Hparse Horder). cbv zeta.
  set (b := substring_in "发货" (row_typ row)).
  set (k := date_isoformat date_obj).
  destruct (listed (row_order row) _) eqn:Hlisted; simpl; [|discriminate].
  intros [= Hd]. exists (ensure_date k (get_collection b d)).
  split; [|split].
  - rewrite <- Hd at 1. apply get_set_collection.
  - apply dmem_ensure_date.
  - exact Hlisted.
Qed.

(** Once read, a row changes nothing the next time. *)
Lemma import_row_twice (row : list cell) (st : data * nat) (n : nat) :
  fst (import_row listed row (fst (fst (import_row listed row st)), n))
  = (fst (fst (import_row listed row st)), n).
Proof.
  destruct st as [d n0].
  destruct (import_row_cases row)
    as [Hskip|(date_obj & Hcell & Hparse & Horder)]; [apply Hskip|].
  rewrite (import_row_taken listed row d n0 Hcell Hparse Horder). cbv zeta.
  set (b := substring_in "发货" (row_typ row)).
  set (k := date_isoformat date_obj).
  set (m := ensure_date k (get_collection b d)).
  destruct (listed (row_order row) (dget_default k [] m)) eqn:Hlisted;
    cbn [fst snd].
  - apply import_row_filed with (date_obj := date_obj) (m := m); trivial.
    + apply get_set_collection.
    + apply dmem_ensure_date.
  - apply import_row_filed with (date_obj := date_obj)
      (m := append_at k (Plain (row_order row)) m); trivial.
    + apply get_set_collection.
    + apply dmem_dset_kept, dmem_ensure_date.
    + fold k. rewrite orders_at_append_at, String.eqb_refl.
      apply listed_last.
Qed.

(** What a row leaves alone, the rows read after it leave alone. *)
Lemma import_row_keeps (row row' : list cell) (d : data) (n : nat) :
  (forall n', fst (import_row listed row (d, n')) = (d, n')) ->
  forall n',
    fst (import_row listed row (fst (fst (import_row listed row' (d, n))), n'))
    = (fst (fst (import_row listed row' (d, n))), n').
Proof.
  intros Hquiet n'.
  destruct (import_row_cases row)
    as [Hskip|(date_obj & Hcell & Hparse & Horder)]; [apply Hskip|].
  destruct (@import_row_quiet row d date_obj Hcell Hparse Horder (Hquiet 0%nat))
    as (m & Hm & Hmem & Hlisted).
  set (b := substring_in "发货" (row_typ row)) in *.
  set (k := date_isoformat date_obj) in *.
  clear Hquiet.
  destruct (import_row_cases row')
    as [Hskip|(date_obj' & Hcell2 & Hparse2 & Horder2)].
  { rewrite Hskip. cbn [fst].
    now apply import_row_filed with (date_obj := date_obj) (m := m). }
  rewrite (import_row_taken listed row' d n Hcell2 Hparse2 Horder2).
  cbv zeta.
  set (b' := substring_in "发货" (row_typ row')).
  set (k' := date_isoformat date_obj').
  set (m' := ensure_date k' (get_collection b' d)).
  assert (Hother : forall m1,
            b <> b' ->
            fst (import_row listed row (set_collection b' m1 d, n'))
            = (set_collection b' m1 d, n')).
  { intros m1 Hb.
    apply import_row_filed with (date_obj := date_obj) (m := m); trivial.
    fold b. rewrite <- Hm.
    destruct b, b'; try reflexivity; now contradiction Hb. }
  assert (Hsame : forall m1,
            b = b' ->
            dmem k m1 = true ->
            listed (row_order row) (dget_default k [] m1) = true ->
            fst (import_row listed row (set_collection b' m1 d, n'))
            = (set_collection b' m1 d, n')).
  { intros m1 Hb Hmem1 Hlisted1.
    apply import_row_filed with (date_obj := date_obj) (m := m1); trivial.
    fold b. rewrite Hb. apply get_set_collection. }
  destruct (Bool.bool_dec b b') as [Hb|Hb].
  2:{ destruct (listed (row_order row') _); cbn [fst snd]; now apply Hother. }
  assert (Hm' : m' = dsetdefault k' [] m).
  { unfold m', ensure_date. now rewrite <- Hb, Hm. }
  assert (Hmem' : dmem k m' = true).
  { rewrite Hm'. now apply dmem_dsetdefault. }
  assert (Hlisted' : listed (row_order row) (dget_default k [] m') = true).
  { unfold m'. rewrite orders_at_ensure_date, <- Hb, Hm. exact Hlisted. }
  destruct (listed (row_order row') _); cbn [fst snd]; apply Hsame; trivial.
  - now apply dmem_dset_kept.
  - rewrite orders_at_append_at. destruct (String.eqb k k') eqn:E.
    + apply String.eqb_eq in E. rewrite <- E. now apply listed_app.
    + exact Hlisted'.
Qed.

Lemma import_rows_keep (row : list cell) (rows : list (list cell))
    (d : data) (n : nat) :
  (forall n', fst (import_row listed row (d, n')) = (d, n')) ->
  forall n',
    fst (import_row listed row
           (fst (fst (import_rows listed rows (d, n))), n'))
    = (fst (fst (import_rows listed rows (d, n))), n').
Proof.
  revert d n. induction rows as [|row' rows IH]; intros d n Hquiet n'.
  - apply Hquiet.
  - simpl. pose proof (@import_row_keeps row row' d n Hquiet) as Hkeep.
    destruct (import_row listed row' (d, n)) as [[d1 n1] [e|]];
      cbn [fst snd] in *.
    + apply Hkeep.
    + now apply IH.
Qed.

(** The rows of a file, read once, change nothing in a document that
    kept what they had changed. *)
Lemma import_rows_twice (rows : list (list cell)) (st : data * nat)
    (d' : data) :
  (forall row,
     (forall n, fst (import_row listed row
                       (fst (fst (import_rows listed rows st)), n))
                = (fst (fst (import_rows listed rows st)), n)) ->
     forall n, fst (import_row listed row (d', n)) = (d', n)) ->
  forall n,
    import_rows listed rows (d', n)
    = ((d', n), snd (import_rows listed rows st)).
Proof.
  revert st. induction rows as [|row rows IH]; intros st Hext n.
  - reflexivity.
  - simpl in *.
    pose proof (import_row_twice row st) as Htwice.
    pose proof (import_row_exn row st (d', n)) as Hexn.
    destruct (import_row listed row st) as [[d1 n1] [e|]] eqn:Hrow;
      cbn [fst snd] in *.
    + specialize (Hext row Htwice n).
      destruct (import_row listed row (d', n)) as [st2 e2].
      cbn [fst snd] in *. now subst.
    + assert (Hrow' : forall n', fst (import_row listed row (d', n')) = (d', n')).
      { apply Hext. intros n'. now apply import_rows_keep. }
      specialize (Hrow' n).
      destruct (import_row listed row (d', n)) as [st2 e2].
      cbn [fst snd] in *. subst. now apply IH.
Qed.

Lemma import_file_keeps (row : list cell) (f : xlsx) (d : data) (n : nat) :
  (forall n', fst (import_row listed row (d, n')) = (d, n')) ->
  forall n',
    fst (import_row listed row (fst (import_file listed f (d, n)), n'))
    = (fst (import_file listed f (d, n)), n').
Proof.
  destruct f as [e|rows]; simpl; [easy|]. apply import_rows_keep.
Qed.

Lemma import_files_keep (row : list cell) (files : list xlsx) (d : data)
    (n : nat) :
  (forall n', fst (import_row listed row (d, n')) = (d, n')) ->
  forall n',
    fst (import_row listed row
           (fst (fold_left (fun st f => import_file listed f st) files (d, n)),
            n'))
    = (fst (fold_left (fun st f => import_file listed f st) files (d, n)), n').
Proof.
  revert d n. induction files as [|f files IH]; intros d n Hquiet n'.
  - apply Hquiet.
  - simpl. pose proof (@import_file_keeps row f d n Hquiet) as Hkeep.
    destruct (import_file listed f (d, n)) as [d1 n1]. cbn [fst] in Hkeep.
    now apply IH.
Qed.

Lemma import_files_twice (files : list xlsx) (st : data * nat) (d' : data) :
  (forall row,
     (forall n,
        fst (import_row listed row
               (fst (fold_left (fun st f => import_file listed f st) files st),
                n))
        = (fst (fold_left (fun st f => import_file listed f st) files st), n)) ->
     forall n, fst (import_row listed row (d', n)) = (d', n)) ->
  forall n,
    fold_left (fun st f => import_file listed f st) files (d', n) = (d', n).
Proof.
  revert st. induction files as [|f files IH]; intros st Hext n.
  - reflexivity.
  - simpl in *.
    assert (Hfile : import_file listed f (d', n) = (d', n)).
    { destruct f as [e|rows]; [reflexivity|]. simpl.
      rewrite (import_rows_twice (tl rows) st); [reflexivity|].
      intros row Hquiet. apply Hext. intros n'.
      change (fst (fst (import_rows listed (tl rows) st)))
        with (fst (import_file listed (Workbook rows) st)) in Hquiet.
      destruct (import_file listed (Workbook rows) st) as [d1 n1].
      now apply import_files_keep. }
    rewrite Hfile. now apply IH with (st := import_file listed f st).
Qed.

(** The folder read a second time: nothing is imported. *)
Lemma import_orders_twice (env : excel_env) (excel_dir : option string)
    (d : data) :
  import_orders listed env excel_dir
    (fst (import_orders listed env excel_dir d))
  = (fst (import_orders listed env excel_dir d), 0%nat).
Proof.
  unfold import_orders. destruct (EXCEL_AVAILABLE env); simpl; [|reflexivity].
  destruct excel_dir as [dir|]; [|reflexivity].
  destruct (String.eqb dir ""); [reflexivity|].
  destruct (glob_xlsx env dir) as [files|]; [|reflexivity].
  now apply import_files_twice with (st := (d, 0%nat)).
Qed.
End ImportTwice.

Section Listed.

Lemma Tk_listed_last (o : string) (l : list entry) :
  Tk.listed o (l ++ [Plain o]) = true.
Proof.
  unfold Tk.listed. rewrite existsb_app. simpl.
  rewrite String.eqb_refl. now rewrite orb_true_r.
Qed.

Lemma Tk_listed_app (o : string) (l : list entry) (e : entry) :
  Tk.listed o l = true -> Tk.listed o (l ++ [e]) = true.
Proof. unfold Tk.listed. rewrite existsb_app. now intros ->. Qed.

Lemma Qt_listed_last (o : string) (l : list entry) :
  Qt.listed o (l ++ [Plain o]) = true.
Proof.
  unfold Qt.listed. rewrite existsb_app. simpl.
  rewrite String.eqb_refl. now rewrite orb_true_r.
Qed.

Lemma Qt_listed_app (o : string) (l : list entry) (e : entry) :
  Qt.listed o l = true -> Qt.listed o (l ++ [e]) = true.
Proof. unfold Qt.listed. rewrite existsb_app. now intros ->. Qed.

End Listed.

(** X13. The import read twice. Whatever the folder holds, a second
    [import_orders_from_excel] on the document the first one left, with
    the folder as it was, imports nothing: it returns 0 and the document
    is the same, in the PyQt6 program and in the Tkinter program. *)
Theorem import_orders_from_excel_twice `{Calendar} `{Builtins} `{DateParser}
    (env : excel_env) (excel_dir : option string) (d : data) :
  Qt.import_orders_from_excel env excel_dir
    (fst (Qt.import_orders_from_excel env excel_dir d))
  = (fst (Qt.import_orders_from_excel env excel_dir d), 0%nat)
  /\ Tk.import_orders_from_excel env excel_dir
       (fst (Tk.import_orders_from_excel env excel_dir d))
     = (fst (Tk.import_orders_from_excel env excel_dir d), 0%nat).
Proof.
  split.
  - apply import_orders_twice; [apply Qt_listed_last|apply Qt_listed_app].
  - apply import_orders_twice; [apply Tk_listed_last|apply Tk_listed_app].
Qed.

(** X14. The button that imports by hand, pressed twice, on a sound
    disk. [imported] is [self.data] as the import leaves it, a document
    taken to be settled and to be read back by the [json] module. After
    the first [manual_import_excel] it is what [self.data] is, whether
    orders were imported, saved and reloaded or not; and the second
    [manual_import_excel] finds nothing to import: [self.data] stays as
    it is, [save_data] is not called, and the one box it shows reports 0
    orders. *)
Theorem manual_import_excel_twice `{JsonCodec} `{Calendar} `{Builtins}
    `{DateParser} (DATA_FILE EXCEL_DIR : string) (document : data -> json)
    (today : Z) (env : excel_env) (excel_dir : option string)
    (self_data : data) (w w' : Tk.world) :
  let imported := fst (Tk.import_orders_from_excel env excel_dir self_data) in
  Tk.disk_sound w = true ->
  Tk.settled EXCEL_DIR (document imported) = true ->
  json_loads (json_dumps (document imported)) = Ok (document imported) ->
  fst (DailyReminderApp.manual_import_excel DATA_FILE EXCEL_DIR document today
         env excel_dir self_data w)
  = document imported
  /\ (let second :=
        DailyReminderApp.manual_import_excel DATA_FILE EXCEL_DIR document
          today env excel_dir imported w' in
      fst second = document imported
      /\ Tk.data_side (snd second) = Tk.data_side w'
      /\ Tk.boxes (snd second)
         = Tk.boxes w'
           ++ [(Tk.Showinfo, "导入完成", "Excel数据导入完成！共导入0个订单")]).
Proof.
  intros imported Hdisk Hsettled Hback. split.
  - unfold DailyReminderApp.manual_import_excel. unfold imported in *.
    destruct (Tk.import_orders_from_excel env excel_dir self_data)
      as [d1 [|n]]; [reflexivity|]. cbn [fst] in *.
    destruct (@saved_and_reloaded _ _ _ DATA_FILE EXCEL_DIR today
                (document d1) (document d1) w Hdisk Hsettled Hback)
      as (w2 & w4 & Hsave & Hload & Hupdate & _).
    now rewrite Hsave, Hload, Hupdate.
  - unfold DailyReminderApp.manual_import_excel, imported.
    unfold Tk.import_orders_from_excel.
    rewrite import_orders_twice by (apply Tk_listed_last || apply Tk_listed_app).
    cbv zeta. now repeat split.
Qed.

(** On a disk that holds the sample document, the folder lists the order
    A1 for New Year's Day: the first press imports it, the second
    nothing. *)
Lemma manual_import_excel_twice_witness :
  let imported :=
    Data (pre_shipping_orders Samples.pending_sync)
         (Some [("2024-12-31", [Plain "A3"]); ("2025-01-01", [Plain "A1"])]) in
  fst (DailyReminderApp.manual_import_excel (H := Concrete.codec)
         (H0 := IsoCalendar.calendar) (H1 := Concrete.builtins)
         (H2 := Concrete.strptime) "data.json" "orders_import" Samples.whole
         Samples.today Samples.folder (Some "orders_import")
         Samples.pending_sync
         (Samples.on_disk (Samples.whole Samples.pending_sync)))
  = Samples.whole imported
  /\ Tk.boxes
       (snd (DailyReminderApp.manual_import_excel (H := Concrete.codec)
               (H0 := IsoCalendar.calendar) (H1 := Concrete.builtins)
               (H2 := Concrete.strptime) "data.json" "orders_import"
               Samples.whole Samples.today Samples.folder
               (Some "orders_import") imported Samples.blank))
     = [(Tk.Showinfo, "导入完成", "Excel数据导入完成！共导入0个订单")].
Proof.
  intros imported.
  destruct (@manual_import_excel_twice Concrete.codec IsoCalendar.calendar
           Concrete.builtins Concrete.strptime "data.json" "orders_import"
           Samples.whole Samples.today Samples.folder (Some "orders_import")
           Samples.pending_sync
           (Samples.on_disk (Samples.whole Samples.pending_sync))
           Samples.blank) as (Hfirst & _ & _ & Hboxes).
  - reflexivity.
  - vm_compute. reflexivity.
  - vm_compute. reflexivity.
  - split; [exact Hfirst|exact Hboxes].
Defined.

(** ** The double click on a pre-shipping order *)

Section DoubleClickFacts.
Context `{JsonCodec} `{Calendar} `{Builtins}.
Variable DATA_FILE : string.
Variable EXCEL_DIR : string.
Variable document : data -> json.

(** The entry the click is on, if the position read is one of the list. *)
Lemma clicked_entry (idx : Z) (arr : list entry) :
  (if (0 <=? idx) && (idx <? Z.of_nat (List.length arr))
   then nth_error arr (Z.to_nat idx) else None)
  = if 0 <=? idx then nth_error arr (Z.to_nat idx) else None.
Proof.
  destruct (0 <=? idx) eqn:E0; [|reflexivity]. apply Z.leb_le in E0.
  destruct (idx <? Z.of_nat (List.length arr)) eqn:E1; [reflexivity|].
  apply Z.ltb_ge in E1. symmetry. apply nth_error_None. lia.
Qed.

(** The lists after the click on the entry at a position of a date. *)
Lemma clicked_at_lists (date_str : string) (idx : Z) (item : entry)
    (self_data : data) :
  0 <= idx ->
  nth_error (orders_at (pre_shipping_orders self_data) date_str)
    (Z.to_nat idx) = Some item ->
  let toggled := DailyReminderApp.clicked_at date_str idx item self_data in
  shipping_orders toggled = shipping_orders self_data
  /\ forall k,
       orders_at (pre_shipping_orders toggled) k
       = if String.eqb k date_str
         then lset (Z.to_nat idx) (DailyReminderApp.clicked item)
                (orders_at (pre_shipping_orders self_data) date_str)
         else orders_at (pre_shipping_orders self_data) k.
Proof.
  intros Hidx Hitem toggled. unfold toggled, DailyReminderApp.clicked_at.
  split; [reflexivity|]. intros k.
  change (pre_shipping_orders (set_collection false ?m self_data))
    with (Some m).
  rewrite orders_at_dset, orders_at_ensure_date.
  destruct (String.eqb k date_str); [reflexivity|].
  unfold orders_at at 1. apply orders_at_ensure_date.
Qed.

(** The run of a click whose id is read. *)
Lemma double_click_run (today : Z) (t : DailyReminderApp.tree)
    (iid : string) (rest : list string) (date_str : string) (idx : Z)
    (self_data : data) (w : Tk.world) :
  DailyReminderApp.tree_selection t = iid :: rest ->
  DailyReminderApp.read_iid today t iid = Ok (date_str, idx) ->
  let arr := orders_at (pre_shipping_orders self_data) date_str in
  let after :=
    DailyReminderApp.on_pre_order_double_click DATA_FILE EXCEL_DIR document
      today t self_data w in
  match (if 0 <=? idx then nth_error arr (Z.to_nat idx) else None) with
  | Some item =>
      let toggled := DailyReminderApp.clicked_at date_str idx item self_data in
      Tk.disk_sound w = true ->
      Tk.settled EXCEL_DIR (document toggled) = true ->
      json_loads (json_dumps (document toggled)) = Ok (document toggled) ->
      exists w4,
        after = (document toggled,
                 Tk.messagebox Tk.Showinfo "状态更新"
                   (DailyReminderApp.status_message item) w4)
        /\ Tk.saves w4 = S (Tk.saves w)
        /\ Tk.data_file w4 = Some (json_dumps (document toggled))
  | None =>
      after
      = (document
           (set_collection false
              (ensure_date date_str (pre_shipping_orders self_data))
              self_data), w)
  end.
Proof.
  intros Hsel Hread arr after.
  unfold after, DailyReminderApp.on_pre_order_double_click.
  rewrite Hsel, Hread. cbv zeta. rewrite orders_at_ensure_date. fold arr.
  rewrite clicked_entry.
  destruct (if 0 <=? idx then nth_error arr (Z.to_nat idx) else None)
    as [item|]; [|reflexivity].
  intros Hdisk Hsettled Hback.
  match type of Hsettled with
  | Tk.settled _ ?j = true =>
      destruct (@saved_and_reloaded _ _ _ DATA_FILE EXCEL_DIR today j j w
                  Hdisk Hsettled Hback)
        as (w2 & w4 & Hsave & Hload & Hupdate & _ & Hsaves & Hfile & _)
  end.
  rewrite Hsave, Hload, Hupdate. exists w4. now repeat split.
Qed.
End DoubleClickFacts.

(** X15. A double click on a row of the table of pre-shipping orders,
    when the id of the row is read as a date and a position. When the
    date has no entry at the position, nothing is saved or shown and
    [self.data] keeps every list. When it has one, [toggled] is what the method
    gives to [save_data]: the shipping orders are as they were, no list
    of pre-shipping orders has changed its length, every entry but the
    one at that position of that date is as it was, and the entry there
    has its [done] flag turned over: an entry of the old format has
    become an object with its number that is done, an object has [done]
    set to the opposite of what it read as, its other keys as they
    were. The method then reloads [self.data] from the disk: on a sound
    disk, for a document that is settled and that the [json] module
    reads back, [self.data] is [toggled] afterwards and [save_data] has
    been called once. *)
Theorem double_click_flips_one `{JsonCodec} `{Calendar} `{Builtins}
    (DATA_FILE EXCEL_DIR : string) (document : data -> json) (today : Z)
    (t : DailyReminderApp.tree) (iid : string) (rest : list string)
    (date_str : string) (idx : Z) (self_data : data) (w : Tk.world) :
  DailyReminderApp.tree_selection t = iid :: rest ->
  DailyReminderApp.read_iid today t iid = Ok (date_str, idx) ->
  let arr := orders_at (pre_shipping_orders self_data) date_str in
  let after :=
    DailyReminderApp.on_pre_order_double_click DATA_FILE EXCEL_DIR document
      today t self_data w in
  (idx < 0 \/ nth_error arr (Z.to_nat idx) = None ->
   exists kept,
     fst after = document kept
     /\ Tk.data_side (snd after) = Tk.data_side w
     /\ Tk.boxes (snd after) = Tk.boxes w
     /\ shipping_orders kept = shipping_orders self_data
     /\ forall k, orders_at (pre_shipping_orders kept) k
                  = orders_at (pre_shipping_orders self_data) k)
  /\ (forall item,
        0 <= idx ->
        nth_error arr (Z.to_nat idx) = Some item ->
        let toggled :=
          DailyReminderApp.clicked_at date_str idx item self_data in
        shipping_orders toggled = shipping_orders self_data
        /\ (forall k,
              List.length (orders_at (pre_shipping_orders toggled) k)
              = List.length (orders_at (pre_shipping_orders self_data) k))
        /\ (forall k j,
              k <> date_str \/ Z.of_nat j <> idx ->
              nth_error (orders_at (pre_shipping_orders toggled) k) j
              = nth_error (orders_at (pre_shipping_orders self_data) k) j)
        /\ (exists r',
              nth_error (orders_at (pre_shipping_orders toggled) date_str)
                (Z.to_nat idx) = Some (Rec r')
              /\ match item with
                 | Plain s => r' = [("order", VStr s); ("done", VBool true)]
                 | Rec r =>
                     dget "done" r'
                     = Some (VBool (negb (truthy (dget_default "done"
                                                    (VBool false) r))))
                     /\ forall key, key <> "done" -> dget key r' = dget key r
                 end)
        /\ (Tk.disk_sound w = true ->
            Tk.settled EXCEL_DIR (document toggled) = true ->
            json_loads (json_dumps (document toggled))
            = Ok (document toggled) ->
            fst after = document toggled
            /\ Tk.saves (snd after) = S (Tk.saves w))).
Proof.
  intros Hsel Hread arr after.
  pose proof (@double_click_run _ _ _ DATA_FILE EXCEL_DIR document today t
                iid rest date_str idx self_data w Hsel Hread) as Hrun.
  cbv zeta in Hrun. fold arr after in Hrun. split.
  - intros Hout.
    assert (Hnone : (if 0 <=? idx then nth_error arr (Z.to_nat idx) else None)
                    = None).
    { destruct Hout as [Hneg|Hno].
      - apply Z.leb_gt in Hneg. now rewrite Hneg.
      - rewrite Hno. now destruct (0 <=? idx). }
    rewrite Hnone in Hrun. rewrite Hrun. eexists.
    do 4 (split; [reflexivity|]). intros k.
    apply (orders_at_ensured_collection false).
  - intros item Hidx Hitem toggled.
    destruct (@clicked_at_lists date_str idx item self_data Hidx Hitem)
      as (Hship & Hat).
    fold toggled arr in Hship, Hat.
    assert (Hin : (Z.to_nat idx < List.length arr)%nat).
    { apply nth_error_Some. now rewrite Hitem. }
    split; [exact Hship|]. split; [|split; [|split]].
    + intros k. rewrite Hat. destruct (String.eqb k date_str) eqn:E.
      * apply String.eqb_eq in E. subst k. apply length_lset.
      * reflexivity.
    + intros k j Hother. rewrite Hat. destruct (String.eqb k date_str) eqn:E.
      * apply String.eqb_eq in E. subst k. fold arr.
        rewrite nth_error_lset by exact Hin.
        destruct (Nat.eqb j (Z.to_nat idx)) eqn:Ej; [|reflexivity].
        apply Nat.eqb_eq in Ej.
        destruct Hother as [Hk|Hj]; [now contradiction Hk|].
        contradiction Hj. subst j. now apply Z2Nat.id.
      * reflexivity.
    + rewrite Hat, String.eqb_refl.
      rewrite nth_error_lset by exact Hin. rewrite Nat.eqb_refl.
      destruct item as [s|r]; simpl.
      * eexists. split; reflexivity.
      * eexists. split; [reflexivity|]. unfold DailyReminderApp.flipped.
        split.
        -- now rewrite dget_dset, String.eqb_refl.
        -- intros key Hkey. rewrite dget_dset.
           apply String.eqb_neq in Hkey. now rewrite Hkey.
    + intros Hdisk Hsettled Hback.
      apply Z.leb_le in Hidx. rewrite Hidx, Hitem in Hrun.
      destruct (Hrun Hdisk Hsettled Hback) as (w4 & Hafter & Hsaves & _).
      rewrite Hafter. now split.
Qed.

(** On a disk that holds the sample document, the second row of the
    table of New Year's Day is clicked: the order A2, which was paused
    and not done, is done, and the first entry of the day is as it
    was. *)
Lemma double_click_flips_one_witness :
  let after :=
    DailyReminderApp.on_pre_order_double_click
      (H := Concrete.codec) (H0 := IsoCalendar.calendar)
      (H1 := Concrete.builtins) "data.json" "orders_import" Samples.whole
      Samples.today
      (DailyReminderApp.Tree ["pre_2025-01-01_2"] [] (fun _ => None))
      Samples.pending_sync
      (Samples.on_disk (Samples.whole Samples.pending_sync)) in
  let toggled :=
    DailyReminderApp.clicked_at "2025-01-01" 1 Samples.paused_A2
      Samples.pending_sync in
  fst after = Samples.whole toggled
  /\ nth_error (orders_at (pre_shipping_orders toggled) "2025-01-01") 0
     = Some Samples.done_A1
  /\ nth_error (orders_at (pre_shipping_orders toggled) "2025-01-01") 1
     = Some (Rec [("order", VStr "A2"); ("remark", VStr "x");
                  ("status", VStr "paused"); ("done", VBool true)]).
Proof.
  destruct (@double_click_flips_one Concrete.codec IsoCalendar.calendar
              Concrete.builtins "data.json" "orders_import" Samples.whole
              Samples.today
              (DailyReminderApp.Tree ["pre_2025-01-01_2"] [] (fun _ => None))
              "pre_2025-01-01_2" [] "2025-01-01" 1 Samples.pending_sync
              (Samples.on_disk (Samples.whole Samples.pending_sync))
              eq_refl eq_refl) as (_ & Hin).
  destruct (Hin Samples.paused_A2) as (_ & _ & Hothers & _ & Hkept).
  - lia.
  - reflexivity.
  - destruct Hkept as (Hdata & _).
    + reflexivity.
    + vm_compute. reflexivity.
    + vm_compute. reflexivity.
    + split; [exact Hdata|]. split; [|reflexivity].
      rewrite (Hothers "2025-01-01" 0%nat); [reflexivity|].
      right. discriminate.
Defined.

(** X16. A double click on an entry of the old format, a bare order
    number, on a sound disk and for a document that is settled and that
    the [json] module reads back. Afterwards [self.data] holds the entry
    as an object that is done and [save_data] has been called once,
    while the box that is shown last says that the state of the order is
    now [未完成], not done. *)
Theorem double_click_old_format `{JsonCodec} `{Calendar} `{Builtins}
    (DATA_FILE EXCEL_DIR : string) (document : data -> json) (today : Z)
    (t : DailyReminderApp.tree) (iid : string) (rest : list string)
    (date_str : string) (idx : Z) (s : string) (self_data : data)
    (w : Tk.world) :
  let toggled :=
    DailyReminderApp.clicked_at date_str idx (Plain s) self_data in
  DailyReminderApp.tree_selection t = iid :: rest ->
  DailyReminderApp.read_iid today t iid = Ok (date_str, idx) ->
  0 <= idx ->
  nth_error (orders_at (pre_shipping_orders self_data) date_str) (Z.to_nat idx)
  = Some (Plain s) ->
  Tk.disk_sound w = true ->
  Tk.settled EXCEL_DIR (document toggled) = true ->
  json_loads (json_dumps (document toggled)) = Ok (document toggled) ->
  let after :=
    DailyReminderApp.on_pre_order_double_click DATA_FILE EXCEL_DIR document
      today t self_data w in
  fst after = document toggled
  /\ nth_error (orders_at (pre_shipping_orders toggled) date_str)
       (Z.to_nat idx)
     = Some (Rec [("order", VStr s); ("done", VBool true)])
  /\ Tk.saves (snd after) = S (Tk.saves w)
  /\ List.last (Tk.boxes (snd after)) (Tk.Showerror, "", "")
     = (Tk.Showinfo, "状态更新",
        ("订单 '" ++ s ++ "' 状态已更新为: 未完成")%string).
Proof.
  intros toggled Hsel Hread Hidx Hitem Hdisk Hsettled Hback after.
  pose proof (@double_click_run _ _ _ DATA_FILE EXCEL_DIR document today t
                iid rest date_str idx self_data w Hsel Hread) as Hrun.
  cbv zeta in Hrun. fold after in Hrun.
  destruct (@clicked_at_lists date_str idx (Plain s) self_data Hidx Hitem)
    as (_ & Hat).
  fold toggled in Hat.
  apply Z.leb_le in Hidx. rewrite Hidx, Hitem in Hrun.
  destruct (Hrun Hdisk Hsettled Hback) as (w4 & Hafter & Hsaves & _).
  rewrite Hafter. cbn [fst snd]. split; [reflexivity|]. split; [|split].
  - rewrite Hat, String.eqb_refl.
    rewrite nth_error_lset, Nat.eqb_refl; [reflexivity|].
    apply nth_error_Some. now rewrite Hitem.
  - exact Hsaves.
  - cbn [Tk.boxes Tk.messagebox]. apply last_last.
Qed.

(** On a disk that holds the sample document: the fourth row of the
    table of New Year's Day, the bare number A9. *)
Lemma double_click_old_format_witness :
  let after :=
    DailyReminderApp.on_pre_order_double_click
      (H := Concrete.codec) (H0 := IsoCalendar.calendar)
      (H1 := Concrete.builtins) "data.json" "orders_import" Samples.whole
      Samples.today
      (DailyReminderApp.Tree ["pre_2025-01-01_4"] [] (fun _ => None))
      Samples.pending_sync
      (Samples.on_disk (Samples.whole Samples.pending_sync)) in
  fst after
  = Samples.whole
      (DailyReminderApp.clicked_at "2025-01-01" 3 (Plain "A9")
         Samples.pending_sync)
  /\ List.last (Tk.boxes (snd after)) (Tk.Showerror, "", "")
     = (Tk.Showinfo, "状态更新", "订单 'A9' 状态已更新为: 未完成").
Proof.
  destruct (@double_click_old_format Concrete.codec IsoCalendar.calendar
              Concrete.builtins "data.json" "orders_import" Samples.whole
              Samples.today
              (DailyReminderApp.Tree ["pre_2025-01-01_4"] [] (fun _ => None))
              "pre_2025-01-01_4" [] "2025-01-01" 3 "A9" Samples.pending_sync
              (Samples.on_disk (Samples.whole Samples.pending_sync))
              eq_refl eq_refl) as (Hdata & _ & _ & Hbox).
  - lia.
  - reflexivity.
  - reflexivity.
  - vm_compute. reflexivity.
  - vm_compute. reflexivity.
  - split; [exact Hdata|exact Hbox].
Defined.

(** ** Editing a shipping order in the control panel *)

(** X17. [edit_shipping_order] with a row selected and a number that is
    not blank. The pre-shipping orders are as they were, no list of
    shipping orders changes its length, and every entry but the one at
    the selected row of the date of the form is as it was. If the row is
    one of the list of that date, the entry there becomes the object of
    the number and the remark of the form, whatever the other entries of
    the list are: a number the list has already is not refused. *)
Theorem edit_shipping_order_replaces_row `{Builtins}
    (save_raises : option exn) (row : Z)
    (date_str order_text remark_text : string) (d : data) (u : ui) :
  str_strip order_text <> "" ->
  let after :=
    fst (ControlPanelDialog.edit_shipping_order save_raises (Some row)
           date_str order_text remark_text d u) in
  pre_shipping_orders after = pre_shipping_orders d
  /\ (forall k,
        List.length (orders_at (shipping_orders after) k)
        = List.length (orders_at (shipping_orders d) k))
  /\ (forall k j,
        k <> date_str \/ Z.of_nat j <> row ->
        nth_error (orders_at (shipping_orders after) k) j
        = nth_error (orders_at (shipping_orders d) k) j)
  /\ (forall j,
        Z.of_nat j = row ->
        (j < List.length (orders_at (shipping_orders d) date_str))%nat ->
        nth_error (orders_at (shipping_orders after) date_str) j
        = Some (Rec [("order", VStr (str_strip order_text));
                     ("remark", VStr (str_strip remark_text))])).
Proof.
  intros Hblank after. unfold after, ControlPanelDialog.edit_shipping_order.
  clear after. apply String.eqb_neq in Hblank. rewrite Hblank.
  set (orders := orders_at (shipping_orders d) date_str).
  set (e := Rec [("order", VStr (str_strip order_text));
                 ("remark", VStr (str_strip remark_text))]).
  destruct ((0 <=? row) && (row <? Z.of_nat (List.length orders))) eqn:Hin;
    cbn [fst].
  2:{ split; [reflexivity|]. split; [reflexivity|]. split; [reflexivity|].
      intros j Hj Hlt. fold orders in Hlt.
      apply andb_false_iff in Hin.
      destruct Hin as [Hin|Hin];
        [apply Z.leb_gt in Hin|apply Z.ltb_ge in Hin]; lia. }
  apply andb_true_iff in Hin. destruct Hin as [H0 H1].
  apply Z.leb_le in H0. apply Z.ltb_lt in H1.
  assert (Hlt : (Z.to_nat row < List.length orders)%nat) by lia.
  split; [reflexivity|].
  change (shipping_orders (set_collection true ?m d)) with (Some m).
  assert (Hat : forall k,
            orders_at
              (Some (dset date_str (lset (Z.to_nat row) e orders)
                       match shipping_orders d with
                       | Some m => m
                       | None => []
                       end)) k
            = if String.eqb k date_str then lset (Z.to_nat row) e orders
              else orders_at (shipping_orders d) k).
  { intros k. rewrite orders_at_dset.
    destruct (String.eqb k date_str); [reflexivity|].
    now destruct (shipping_orders d). }
  split; [|split].
  - intros k. rewrite Hat. destruct (String.eqb k date_str) eqn:E.
    + apply String.eqb_eq in E. subst k. apply length_lset.
    + reflexivity.
  - intros k j Hother. rewrite Hat. destruct (String.eqb k date_str) eqn:E.
    + apply String.eqb_eq in E. subst k. fold orders.
      rewrite nth_error_lset by exact Hlt.
      destruct (Nat.eqb j (Z.to_nat row)) eqn:Ej; [|reflexivity].
      apply Nat.eqb_eq in Ej.
      destruct Hother as [Hk|Hj]; [now contradiction Hk|].
      contradiction Hj. subst j. now apply Z2Nat.id.
    + reflexivity.
  - intros j Hj _. rewrite Hat, String.eqb_refl.
    rewrite nth_error_lset by exact Hlt.
    assert (Ej : Z.to_nat row = j) by (rewrite <- Hj; apply Nat2Z.id).
    now rewrite Ej, Nat.eqb_refl.
Qed.

(** The one shipping order of the last day of 2024, A3, is given the
    number A4. *)
Lemma edit_shipping_order_replaces_row_witness :
  nth_error
    (orders_at
       (shipping_orders
          (fst (ControlPanelDialog.edit_shipping_order
                  (H := Concrete.builtins) None (Some 0) "2024-12-31" " A4 "
                  "late" Samples.pending_sync (Ui [] 0))))
       "2024-12-31") 0
  = Some (Rec [("order", VStr "A4"); ("remark", VStr "late")]).
Proof.
  assert (Hblank : str_strip (Builtins := Concrete.builtins) " A4 " <> "")
    by discriminate.
  destruct (@edit_shipping_order_replaces_row Concrete.builtins None 0
              "2024-12-31" " A4 " "late" Samples.pending_sync (Ui [] 0) Hblank)
    as (_ & _ & _ & Hrow).
  apply (Hrow 0%nat); [reflexivity|]. simpl. lia.
Defined.
